(** * OntoMapEngine: the multi-stage ontology mapping cascade

    A shallow embedding of [src/Engine/ontology_mapping_engine.py]:
    the corpus normalizer [_normalize_df], the exact matcher
    [_exact_matching], the abbreviation resolver
    [_map_shortname_to_fullname] and the cascade [run], over a small model
    of the pandas tables they build.  The matcher backends, the
    abbreviation file and the two pandas conversions whose results depend
    on float formatting are parameters of the development. *)

From Stdlib Require Import QArith Ascii String.
From stdpp Require Import gmap strings list fin_maps pretty sorting.

Set Warnings "-clear-no-such-hyp".

Local Open Scope string_scope.
Local Open Scope list_scope.

(** ** Python strings

    A [str] is a sequence of code points; the model keeps the code points
    below 256, one per [ascii].  [str.strip] and [str.lower] are those of
    Python on that range. *)

Module PyStr.

(** [str.isspace] on one character: TAB..CR, FS..US, SPACE, NEL, NBSP. *)
Definition is_space (a : ascii) : bool :=
  let n := nat_of_ascii a in
  (((9 <=? n) && (n <=? 13)) || ((28 <=? n) && (n <=? 32))
   || (n =? 133) || (n =? 160))%nat.

Fixpoint lstrip (s : string) : string :=
  match s with
  | EmptyString => EmptyString
  | String a r => if is_space a then lstrip r else s
  end.

Fixpoint rstrip (s : string) : string :=
  match s with
  | EmptyString => EmptyString
  | String a r =>
      match rstrip r with
      | EmptyString => if is_space a then EmptyString else String a EmptyString
      | r' => String a r'
      end
  end.

(** [s.strip()] *)
Definition strip (s : string) : string := rstrip (lstrip s).

(** [str.lower] on one character: A..Z and the Latin-1 capitals
    (U+00C0..U+00DE without the multiplication sign U+00D7). *)
Definition lower_char (a : ascii) : ascii :=
  let n := nat_of_ascii a in
  if (((65 <=? n) && (n <=? 90))
      || ((192 <=? n) && (n <=? 222) && negb (n =? 215)))%nat
  then ascii_of_nat (n + 32) else a.

(** [s.lower()] *)
Fixpoint lower (s : string) : string :=
  match s with
  | EmptyString => EmptyString
  | String a r => String (lower_char a) (lower r)
  end.

(** [\d] of the [re] module on this range: the ten ASCII digits. *)
Definition is_digit (a : ascii) : bool :=
  let n := nat_of_ascii a in ((48 <=? n) && (n <=? 57))%nat.

(** The longest run of digits a string starts with ([\d+], greedy). *)
Fixpoint take_digits (s : string) : string :=
  match s with
  | EmptyString => EmptyString
  | String a r => if is_digit a then String a (take_digits r) else EmptyString
  end.

(** [re.search(r'(C\d+)', s)]: the leftmost capital C that digits follow,
    with all the digits that follow it; [None] when there is no match. *)
Fixpoint search_code (s : string) : option string :=
  match s with
  | EmptyString => None
  | String a r =>
      if Ascii.eqb a "C"%char then
        match take_digits r with
        | EmptyString => search_code r
        | ds => Some (String "C"%char ds)
        end
      else search_code r
  end.

(** The order numpy sorts a string array by: code point by code point,
    a proper prefix first. *)
Definition lt (s t : string) : Prop := String.compare s t = Lt.

End PyStr.

(** ** numpy set routines

    numpy holds the strings in a fixed-width array, which drops NUL
    characters at the end of a string; the queries are taken to end in
    none. *)

(** One step of sorting without repetition. *)
Fixpoint insert_unique (x : string) (l : list string) : list string :=
  match l with
  | [] => [x]
  | y :: l' =>
      match String.compare x y with
      | Lt => x :: y :: l'
      | Eq => y :: l'
      | Gt => y :: insert_unique x l'
      end
  end.

(** [np.unique(ar)]: the sorted distinct elements of [ar]. *)
Definition np_unique (ar : list string) : list string :=
  foldr insert_unique [] ar.

(** [np.setdiff1d(ar1, ar2)]: numpy computes
    [ar1 = unique(ar1); ar1[in1d(ar1, ar2, invert=True)]]. *)
Definition np_setdiff1d (ar1 ar2 : list string) : list string :=
  filter (λ x, x ∉ ar2) (np_unique ar1).

(** ** pandas tables

    A cell holds a Python string, an integer or a float; a float is kept
    as the rational it denotes (the code only compares floats and never
    computes with them).  A row maps a column name to its cell, and a
    column a row has no entry for is null there ([NaN]).  A table is its
    column names, in order, and its rows, in order. *)

Inductive cell : Type :=
| Str (s : string)
| Int (z : Z)
| Float (x : Q).

Abbreviation row := (gmap string cell).

Record DataFrame : Type := mkDataFrame {
  columns : list string;
  rows : list row
}.

#[global] Instance Q_eq_dec : EqDecision Q.
Proof. solve_decision. Defined.

#[global] Instance cell_eq_dec : EqDecision cell.
Proof. solve_decision. Defined.

#[global] Instance DataFrame_eq_dec : EqDecision DataFrame.
Proof. solve_decision. Defined.

(** [pd.DataFrame({c: values})] *)
Definition pd_DataFrame (c : string) (values : list cell) : DataFrame :=
  {| columns := [c]; rows := (λ v, {[ c := v ]}) <$> values |}.

(** [pd.DataFrame({c1: values1, c2: values2})] *)
Definition pd_DataFrame2 (c1 : string) (values1 : list cell)
    (c2 : string) (values2 : list cell) : DataFrame :=
  {| columns := [c1; c2];
     rows := (λ v, <[ c1 := v.1 ]> {[ c2 := v.2 ]}) <$> zip values1 values2 |}.

(** [df[c] = f(row)]: an existing column is overwritten in place, a new one
    is appended. *)
Definition df_assign (c : string) (f : row → option cell) (df : DataFrame)
    : DataFrame :=
  {| columns := if decide (c ∈ columns df) then columns df
                else columns df ++ [c];
     rows := (λ r, partial_alter (λ _, f r) c r) <$> rows df |}.

(** [series.fillna(v)] on one cell. *)
Definition fillna (v : option cell) (c : option cell) : option cell :=
  match c with
  | Some x => Some x
  | None => v
  end.

(** Equality of two cells as pandas hashes them: numbers by value. *)
Definition cell_eqb (c d : cell) : bool :=
  match c, d with
  | Str s, Str t => bool_decide (s = t)
  | Int a, Int b => bool_decide (a = b)
  | Int a, Float y => Qeq_bool (inject_Z a) y
  | Float x, Int b => Qeq_bool x (inject_Z b)
  | Float x, Float y => Qeq_bool x y
  | _, _ => false
  end.

Definition same_key (subset : list string) (r1 r2 : row) : bool :=
  forallb (λ c, match r1 !! c, r2 !! c with
                | Some x, Some y => cell_eqb x y
                | None, None => true
                | _, _ => false
                end) subset.

(** [df.dropna(subset=subset)] *)
Definition dropna (subset : list string) (df : DataFrame) : DataFrame :=
  {| columns := columns df;
     rows := filter (λ r, forallb (λ c, bool_decide (is_Some (r !! c))) subset)
                    (rows df) |}.

(** The rows [drop_duplicates] keeps: the first row of each key. *)
Definition first_of_each_key (subset : list string) (l : list row)
    : list row :=
  foldl (λ kept r, if existsb (same_key subset r) kept then kept
                   else kept ++ [r]) [] l.

(** [df.drop_duplicates(subset=subset)] *)
Definition drop_duplicates (subset : list string) (df : DataFrame)
    : DataFrame :=
  {| columns := columns df;
     rows := first_of_each_key subset (rows df) |}.

(** Every string of a list once, in order of first appearance:
    [list(dict.fromkeys(l))], [series.unique().tolist()] and the column
    names of [pd.concat]. *)
Definition unique_in_order (l : list string) : list string :=
  foldl (λ seen c, if decide (c ∈ seen) then seen else seen ++ [c]) [] l.

(** [pd.concat(dfs, ignore_index=True)] *)
Definition pd_concat (dfs : list DataFrame) : DataFrame :=
  {| columns := unique_in_order (concat (columns <$> dfs));
     rows := concat (rows <$> dfs) |}.

(** Python exceptions the engine raises itself. *)
Inductive exn : Type :=
| ValueError (msg : string).

Inductive result (A : Type) : Type :=
| Ok (a : A)
| Raise (e : exn).

Arguments Ok {A} a.
Arguments Raise {A} e.

(** A [dict] from strings to strings: its items in insertion order. *)
Definition dict : Type := list (string * string).

Fixpoint dict_get (d : dict) (k : string) : option string :=
  match d with
  | [] => None
  | (k', v) :: d' => if decide (k' = k) then Some v else dict_get d' k
  end.

(** [d[k] = v]: a present key keeps its place and takes the new value. *)
Fixpoint dict_set (k v : string) (d : dict) : dict :=
  match d with
  | [] => [(k, v)]
  | (k', v') :: d' =>
      if decide (k' = k) then (k, v) :: d' else (k', v') :: dict_set k v d'
  end.

(** [series.map(d)] on one cell: the value of a key of [d], null otherwise. *)
Definition series_map (d : dict) (c : option cell) : option cell :=
  match c with
  | Some (Str s) => Str <$> dict_get d s
  | _ => None
  end.

(** The table a matcher backend returns from [get_match_results].  Its
    [original_value] column, which [run] renames to [updated_value] and
    merges on, is kept apart as the key of each row; [mt_columns] are the
    other columns, none of them named [updated_value]. *)
Record MatchTable : Type := mkMatchTable {
  mt_columns : list string;
  mt_rows : list (string * row)
}.

(** [res.rename(columns={"original_value": "updated_value"})] followed by
    [pd.merge(left, res, on="updated_value", how="left")]: every row of
    [left], in order, once per row of [res] with its key, and once with the
    columns of [res] null when [res] has no such row. *)
Definition pd_merge_left (left : DataFrame) (res : MatchTable) : DataFrame :=
  {| columns := columns left ++ mt_columns res;
     rows := l ← rows left;
             match filter (λ br, l !! "updated_value" = Some (Str br.1))
                          (mt_rows res) with
             | [] => [l]
             | ms => (λ br, l ∪ br.2) <$> ms
             end |}.

(** The string in the [original_value] column of a row. *)
Definition row_original_value (r : row) : string :=
  match r !! "original_value" with
  | Some (Str s) => s
  | _ => ""
  end.

Definition Qlt_bool (x y : Q) : bool := negb (Qle_bool y x).

(** ** The engine *)

Inductive strategy : Type := LM | ST | RAG | RAG_BIE.

#[global] Instance strategy_eq_dec : EqDecision strategy.
Proof. solve_decision. Defined.

(** The attributes of an [OntoMapEngine] once [__init__] has returned;
    [query_df] and [corpus_df] are the entries of [other_params]. *)
Record OntoMapEngine : Type := mkEngine {
  method : string;
  category : string;
  query : list string;
  corpus : list string;
  cura_map : dict;
  topk : nat;
  s2_strategy : strategy;
  s3_strategy : option strategy;
  s3_threshold : Q;
  test_or_prod : string;
  query_df : option DataFrame;
  corpus_df : option DataFrame
}.

(** A matcher object: the keyword arguments its class is built with. *)
Record OntoMapModel : Type := mkModel {
  om_method : string;
  om_category : string;
  om_strategy : strategy;
  om_query : list string;
  om_corpus : list string;
  om_topk : nat;
  om_from_tokenizer : option bool;
  om_query_df : option DataFrame;
  om_corpus_df : option DataFrame
}.

#[global] Instance OntoMapModel_eq_dec : EqDecision OntoMapModel.
Proof. solve_decision. Defined.

Definition top_match (i : nat) : string := "top" +:+ pretty i +:+ "_match".
Definition top_score (i : nat) : string := "top" +:+ pretty i +:+ "_score".

(** What the engine takes from outside: two pandas conversions that
    depend on how floats are written, the abbreviation file and the matcher
    backends. *)
Class Externals : Type := {
  (** [str(x)] of a float [x], as [astype(str)] writes it. *)
  float_repr : Q → string;
  (** The number [pd.to_numeric] reads from a string, if it reads one. *)
  to_numeric_str : string → option Q;
  (** The rows [(code, name)] of the table at [ABBR_DICT_PATH] as
      [pd.read_csv] gives them, for a file whose [code] and [name] cells
      all hold text; [None] when it raises [FileNotFoundError].  The other
      outcomes of the read are those of [csv_read]. *)
  read_abbr_csv : option (list (string * string));
  (** [model.get_match_results(cura_map=, topk=, test_or_prod=)] of the
      matcher backends. *)
  get_match_results : OntoMapModel → dict → nat → string → MatchTable
}.

Section Engine.

Context `{Externals}.

(** [series.astype(str)] on one cell; a null cell becomes the text [nan]. *)
Definition astype_str (c : option cell) : string :=
  match c with
  | Some (Str s) => s
  | Some (Int z) => pretty z
  | Some (Float x) => float_repr x
  | None => "nan"
  end.

(** Step 1 of [_normalize_df]: the [official_label] fallback. *)
Definition label_fallback (df : DataFrame) : result DataFrame :=
  if decide ("official_label" ∈ columns df) then Ok df
  else if decide ("label" ∈ columns df)
  then Ok (df_assign "official_label" (λ r, r !! "label") df)
  else Raise (ValueError "DataFrame must contain 'official_label' or 'label'").

(** [df["obo_id"].astype(str).str.extract(r'(C\d+)', expand=False)] on one
    row. *)
Definition extract_code (r : row) : option cell :=
  Str <$> PyStr.search_code (astype_str (r !! "obo_id")).

(** Step 2 of [_normalize_df]: the [clean_code] fallback. *)
Definition code_fallback (df : DataFrame) (need_code : bool)
    : result DataFrame :=
  if need_code then
    if decide ("clean_code" ∈ columns df) then Ok df
    else if decide ("obo_id" ∈ columns df)
    then Ok (df_assign "clean_code" extract_code df)
    else Raise (ValueError
      "DataFrame must contain 'clean_code' or 'obo_id' for RAG/RAG_BIE strategies")
  else Ok df.

(** Step 3 of [_normalize_df]: the basic cleaning. *)
Definition basic_cleaning (df : DataFrame) (need_code : bool) : DataFrame :=
  let keep := "official_label" :: (if need_code then ["clean_code"] else []) in
  let df := drop_duplicates keep (dropna keep df) in
  let df := df_assign "official_label"
              (λ r, Some (Str (astype_str (r !! "official_label")))) df in
  if decide ("clean_code" ∈ columns df)
  then df_assign "clean_code"
         (λ r, Some (Str (astype_str (r !! "clean_code")))) df
  else df.

Definition _normalize_df (df : DataFrame) (need_code : bool)
    : result DataFrame :=
  match label_fallback df with
  | Raise e => Raise e
  | Ok df =>
      match code_fallback df need_code with
      | Raise e => Raise e
      | Ok df => Ok (basic_cleaning df need_code)
      end
  end.

Definition _exact_matching (self : OntoMapEngine) : list string :=
  let corpus_normalized :=
    (λ c, PyStr.lower (PyStr.strip c)) <$> corpus self in
  filter (λ q, PyStr.lower (PyStr.strip q) ∈ corpus_normalized) (query self).

(** [dict(zip(code.str.strip(), name.str.strip()))], empty when the file is
    not found. *)
Definition short_to_name : gmap string string :=
  match read_abbr_csv with
  | Some table =>
      foldl (λ d cn, <[ PyStr.strip cn.1 := PyStr.strip cn.2 ]> d) ∅ table
  | None => ∅
  end.

Definition _map_shortname_to_fullname (non_exact_list : list string)
    : gmap string string :=
  foldl (λ replaced q,
           let q_strip := PyStr.strip q in
           <[ q := default q_strip (short_to_name !! q_strip) ]> replaced)
        ∅ non_exact_list.

Definition _om_model_from_strategy (self : OntoMapEngine)
    (strategy : strategy) (non_exact_query_list : list string)
    : OntoMapModel :=
  let model from_tokenizer qdf cdf :=
    {| om_method := method self; om_category := category self;
       om_strategy := strategy; om_query := non_exact_query_list;
       om_corpus := corpus self; om_topk := topk self;
       om_from_tokenizer := from_tokenizer;
       om_query_df := qdf; om_corpus_df := cdf |} in
  match strategy with
  | LM => model (Some true) None None
  | ST => model (Some false) None None
  | RAG => model None None (corpus_df self)
  | RAG_BIE => model None (query_df self) (corpus_df self)
  end.

(** *** Stage 1 *)

(** The table of the exact matches, as [run] builds it. *)
Definition exact_df (self : OntoMapEngine) : DataFrame :=
  let df := pd_DataFrame "original_value" (Str <$> _exact_matching self) in
  let df := df_assign "curated_ontology"
              (λ r, fillna (r !! "original_value")
                      (series_map (cura_map self) (r !! "original_value")))
              df in
  let df := df_assign "match_level" (λ _, Some (Int 1)) df in
  let df := df_assign "stage" (λ _, Some (Int 1)) df in
  foldl (λ df i,
           df_assign (top_score i) (λ _, Some (Float 1))
             (df_assign (top_match i) (λ r, r !! "curated_ontology") df))
        df (seq 1 (topk self)).

Definition non_exact_matches_ls (self : OntoMapEngine) : list string :=
  np_setdiff1d (query self) (_exact_matching self).

(** *** One matcher stage

    Stage 2 and stage 3 run the same steps over their own queries:
    abbreviation replacement, the re-keyed curation map, the backend, the
    merge back to [original_value], the curated label and the stage tag. *)

Definition updated_queries (queries : list string) : list string :=
  (λ q, _map_shortname_to_fullname queries !!! q) <$> queries.

Definition replace_df (queries : list string) : DataFrame :=
  pd_DataFrame2 "original_value" (Str <$> queries)
                "updated_value" (Str <$> updated_queries queries).

(** [{mapping_dict[k]: v for k, v in cura_map.items() if k in mapping_dict}] *)
Definition updated_cura_map (self : OntoMapEngine) (queries : list string)
    : dict :=
  let mapping_dict := _map_shortname_to_fullname queries in
  foldl (λ d kv, if decide (is_Some (mapping_dict !! kv.1))
                 then dict_set (mapping_dict !!! kv.1) kv.2 d else d)
        [] (cura_map self).

Definition stage_model (self : OntoMapEngine) (strategy : strategy)
    (queries : list string) : OntoMapModel :=
  _om_model_from_strategy self strategy (updated_queries queries).

(** What the backend of the stage returns. *)
Definition stage_match_results (self : OntoMapEngine) (strategy : strategy)
    (queries : list string) : MatchTable :=
  get_match_results (stage_model self strategy queries)
    (updated_cura_map self queries) (topk self) (test_or_prod self).

(** The table of the stage ([s2_res], [s3_res]). *)
Definition stage_res (self : OntoMapEngine) (stage : Z)
    (strategy : strategy) (queries : list string) : DataFrame :=
  let res := pd_merge_left (replace_df queries)
               (stage_match_results self strategy queries) in
  let res := df_assign "curated_ontology"
               (λ r, fillna (Some (Str "Not Found"))
                       (series_map (cura_map self) (r !! "original_value")))
               res in
  df_assign "stage" (λ _, Some (Int stage)) res.

Definition s2_res (self : OntoMapEngine) : DataFrame :=
  stage_res self 2 (s2_strategy self) (non_exact_matches_ls self).

(** [pd.to_numeric(cell, errors='coerce')] *)
Definition to_numeric (c : option cell) : option Q :=
  match c with
  | Some (Int z) => Some (inject_Z z)
  | Some (Float x) => Some x
  | Some (Str s) => to_numeric_str s
  | None => None
  end.

(** The score [run] compares with the threshold:
    [pd.to_numeric(top1_score, errors='coerce').fillna(0)]. *)
Definition coerced_score (r : row) : Q :=
  default 0%Q (to_numeric (r !! "top1_score")).

Definition low_confidence_mask (self : OntoMapEngine) (r : row) : bool :=
  Qlt_bool (coerced_score r) (s3_threshold self).

Definition queries_for_s3 (self : OntoMapEngine) : list string :=
  row_original_value <$> filter (low_confidence_mask self) (rows (s2_res self)).

Definition s3_res (self : OntoMapEngine) (strategy : strategy) : DataFrame :=
  stage_res self 3 strategy (queries_for_s3 self).

(** [s2_res[~s2_res['original_value'].isin(queries_for_s3)]] *)
Definition s2_res_filtered (self : OntoMapEngine) : DataFrame :=
  {| columns := columns (s2_res self);
     rows := filter (λ r, row_original_value r ∉ queries_for_s3 self)
                    (rows (s2_res self)) |}.

(** [run], with the matcher objects whose [get_match_results] it has
    called, in the order of the calls. *)
Definition run_traced (self : OntoMapEngine)
    : list OntoMapModel * DataFrame :=
  if decide (non_exact_matches_ls self = []) then ([], exact_df self)
  else
    let s2_model :=
      stage_model self (s2_strategy self) (non_exact_matches_ls self) in
    match s3_strategy self with
    | None => ([s2_model], pd_concat [exact_df self; s2_res self])
    | Some s3 =>
        if decide ("top1_score" ∈ columns (s2_res self)) then
          if decide (queries_for_s3 self = []) then
            ([s2_model], pd_concat [exact_df self; s2_res self])
          else
            ([s2_model; stage_model self s3 (queries_for_s3 self)],
             pd_concat [exact_df self; s2_res_filtered self; s3_res self s3])
        else ([s2_model], pd_concat [exact_df self; s2_res self])
    end.

Definition run (self : OntoMapEngine) : DataFrame := (run_traced self).2.

(** The [original_value] column of a table. *)
Definition original_values (df : DataFrame) : list (option cell) :=
  (λ r, r !! "original_value") <$> rows df.

(** *** Row-wise reading of the tables, used by the proofs *)

(** What one pass of the [topk] loop of [run] does to a stage-1 row. *)
Definition top_step (r : row) (i : nat) : row :=
  partial_alter (λ _, Some (Float 1)) (top_score i)
    (partial_alter (λ _, r !! "curated_ontology") (top_match i) r).

(** The stage-1 row of an exact match [q]. *)
Definition exact_row (self : OntoMapEngine) (q : string) : row :=
  let r : row := {[ "original_value" := Str q ]} in
  let r := partial_alter
             (λ _, fillna (r !! "original_value")
                     (series_map (cura_map self) (r !! "original_value")))
             "curated_ontology" r in
  let r := partial_alter (λ _, Some (Int 1)) "match_level" r in
  let r := partial_alter (λ _, Some (Int 1)) "stage" r in
  foldl top_step r (seq 1 (topk self)).

(** What a matcher stage adds to a merged row: the curated label and the
    stage tag. *)
Definition tag_row (self : OntoMapEngine) (stage : Z) (r : row) : row :=
  partial_alter (λ _, Some (Int stage)) "stage"
    (partial_alter
       (λ _, fillna (Some (Str "Not Found"))
               (series_map (cura_map self) (r !! "original_value")))
       "curated_ontology" r).

(** The left row of the merge for the query [q] expanded to [u]. *)
Definition replace_row (q u : string) : row :=
  <[ "original_value" := Str q ]> {[ "updated_value" := Str u ]}.

(** The rows of the backend table whose key is [u]. *)
Definition rows_keyed (u : string) (res : MatchTable) : list (string * row) :=
  filter (λ br, br.1 = u) (mt_rows res).

(** The rows of a stage table that come from the query [q] expanded to
    [u]: one per backend row keyed [u], or one row of nulls. *)
Definition stage_rows_for (self : OntoMapEngine) (stage : Z)
    (res : MatchTable) (q u : string) : list row :=
  tag_row self stage <$>
    match rows_keyed u res with
    | [] => [replace_row q u]
    | ms => (λ br, replace_row q u ∪ br.2) <$> ms
    end.

(** The tables the two backends return to [run]. *)
Definition s2_match_results (self : OntoMapEngine) : MatchTable :=
  stage_match_results self (s2_strategy self) (non_exact_matches_ls self).

Definition s3_match_results (self : OntoMapEngine) (strategy : strategy)
    : MatchTable :=
  stage_match_results self strategy (queries_for_s3 self).

(** A backend table with at most one row per query string. *)
Definition keys_distinct (res : MatchTable) : Prop :=
  NoDup (mt_rows res).*1.

(** The stage whose rows carry the query [q] when [run] returns. *)
Definition final_stage (self : OntoMapEngine) (q : string) : Z :=
  if decide (q ∈ _exact_matching self) then 1
  else if decide (is_Some (s3_strategy self)
                  ∧ "top1_score" ∈ columns (s2_res self)
                  ∧ q ∈ queries_for_s3 self) then 3
  else 2.

(** The left join keeps the query [q], expanded to [u], in the stage table
    [df]: [q] has a row, and when the backend table [res] has no row keyed
    [u], [q] has a row where every column but the four the engine fills
    itself is null. *)
Definition kept_by_merge (df : DataFrame) (res : MatchTable)
    (q u : string) : Prop :=
  (∃ r, r ∈ rows df ∧ r !! "original_value" = Some (Str q)) ∧
  (rows_keyed u res = [] →
   ∃ r, r ∈ rows df ∧
        r !! "original_value" = Some (Str q) ∧
        r !! "updated_value" = Some (Str u) ∧
        ∀ c, c ∉ ["original_value"; "updated_value";
                  "curated_ontology"; "stage"] → r !! c = None).

(** How many times [x] occurs in [l]. *)
Definition occurrences {A : Type} `{EqDecision A} (x : A) (l : list A)
    : nat :=
  length (filter (λ y, y = x) l).

(** The rows of a table that stage 2 or stage 3 produced. *)
Definition matcher_rows (df : DataFrame) : list row :=
  filter (λ r, r !! "stage" = Some (Int 2) ∨ r !! "stage" = Some (Int 3))
         (rows df).

(** A code as [_normalize_df] extracts it: a capital C and one digit or
    more. *)
Definition code_shaped (code : string) : Prop :=
  ∃ ds, code = String "C"%char ds ∧ ds ≠ "" ∧ PyStr.take_digits ds = ds.

(** The code-to-name table as a dictionary whose later rows win. *)
Definition abbr_dict (table : list (string * string)) : dict :=
  reverse ((λ cn, (PyStr.strip cn.1, PyStr.strip cn.2)) <$> table).

(** The columns the engine names itself, none of them a [top{i}] column. *)
Definition engine_column (c : string) : Prop :=
  c ∈ ["original_value"; "updated_value"; "curated_ontology";
       "match_level"; "stage"].

(** A cell that is null or holds text. *)
Definition text_or_null (c : option cell) : Prop :=
  c = None ∨ ∃ s, c = Some (Str s).

(** *** Construction *)

Definition strategy_of_name (name : string) : option strategy :=
  if decide (name = "lm") then Some LM
  else if decide (name = "st") then Some ST
  else if decide (name = "rag") then Some RAG
  else if decide (name = "rag_bie") then Some RAG_BIE
  else None.

(** [OntoMapEngine.__init__]; [test_or_prod], [query_df] and [corpus_df]
    are the entries of [other_params], [None] when the key is absent. *)
Definition __init__ (method category : string) (query corpus : list string)
    (cura_map : dict) (topk : nat) (s2_strategy : string)
    (s3_strategy : option string) (s3_threshold : Q)
    (test_or_prod : option string) (query_df corpus_df : option DataFrame)
    : result OntoMapEngine :=
  let engine s2 s3 corpus corpus_df env :=
    {| method := method; category := category; query := query;
       corpus := corpus; cura_map := cura_map; topk := topk;
       s2_strategy := s2; s3_strategy := s3; s3_threshold := s3_threshold;
       test_or_prod := env; query_df := query_df;
       corpus_df := corpus_df |} in
  match test_or_prod with
  | None => Raise (ValueError
      "test_or_prod value must be defined in other_params dictionary")
  | Some env =>
      match strategy_of_name s2_strategy with
      | Some LM | Some ST =>
          let s2 := default LM (strategy_of_name s2_strategy) in
          match s3_strategy with
          | None =>
              Ok (engine s2 None (unique_in_order corpus) corpus_df env)
          | Some name =>
              match strategy_of_name name with
              | Some RAG | Some RAG_BIE =>
                  match corpus_df with
                  | None => Raise (ValueError
                      "corpus_df must be provided for 'rag'/'rag_bie' for running stage 3")
                  | Some df =>
                      match _normalize_df df true with
                      | Raise e => Raise e
                      | Ok df =>
                          Ok (engine s2 (strategy_of_name name)
                                (unique_in_order
                                   ((λ r, astype_str (r !! "official_label"))
                                      <$> rows df))
                                (Some df) env)
                      end
                  end
              | _ => Raise (ValueError
                       "s3_strategy must be 'rag', 'rag_bie', or None")
              end
          end
      | _ => Raise (ValueError "s2_strategy must be 'lm' or 'st'")
      end
  end.

End Engine.

(** ** Concrete engines

    The tables of these examples hold no float in a key column and no
    numeric text in a score column, so the two conversions are never asked
    for a value. *)

(** A backend that answers every query of its list, repeated ones too, with
    one row: a label and the score [score] gives the query. *)
Definition per_query_backend (score : string → Q) (model : OntoMapModel)
    (cura : dict) (k : nat) (env : string) : MatchTable :=
  {| mt_columns := ["top1_match"; "top1_score"];
     mt_rows := (λ q, (q, <[ "top1_match" := Str "Lung Adenocarcinoma" ]>
                             {[ "top1_score" := Float (score q) ]}))
                <$> om_query model |}.

(** A backend that gives no score. *)
Definition unscored_backend (model : OntoMapModel) (cura : dict) (k : nat)
    (env : string) : MatchTable :=
  {| mt_columns := ["top1_match"];
     mt_rows := (λ q, (q, {[ "top1_match" := Str "Lung Adenocarcinoma" ]}))
                <$> om_query model |}.

(** A backend that answers every query with two candidate rows, the
    better one first. *)
Definition two_candidates_backend (model : OntoMapModel) (cura : dict)
    (k : nat) (env : string) : MatchTable :=
  {| mt_columns := ["top1_match"; "top1_score"];
     mt_rows := q ← om_query model;
                [ (q, <[ "top1_match" := Str "Lung Adenocarcinoma" ]>
                        {[ "top1_score" := Float 0.95 ]});
                  (q, <[ "top1_match" := Str "Lung Carcinoma" ]>
                        {[ "top1_score" := Float 0.4 ]}) ] |}.

Definition externals_with (abbr : option (list (string * string)))
    (backend : OntoMapModel → dict → nat → string → MatchTable)
    : Externals :=
  {| float_repr := λ _, "";
     to_numeric_str := λ _, None;
     read_abbr_csv := abbr;
     get_match_results := backend |}.

(** A reference table that is already clean. *)
Definition clean_corpus_df : DataFrame :=
  {| columns := ["official_label"; "clean_code"];
     rows := [ <[ "official_label" := Str "Lung Cancer" ]>
                 {[ "clean_code" := Str "C684" ]};
               <[ "official_label" := Str "Breast Cancer" ]>
                 {[ "clean_code" := Str "C4872" ]} ] |}.

(** A reference table with codes to derive. *)
Definition obo_corpus_df : DataFrame :=
  {| columns := ["label"; "obo_id"];
     rows := [ <[ "label" := Str "Lung Cancer" ]>
                 {[ "obo_id" := Str "NCIT:C156482" ]};
               <[ "label" := Str "Unmapped" ]>
                 {[ "obo_id" := Str "MONDO:0004992" ]} ] |}.

(** A label column that holds the number 1 and the text 1. *)
Definition mixed_labels_df : DataFrame :=
  {| columns := ["official_label"];
     rows := [ {[ "official_label" := Int 1 ]};
               {[ "official_label" := Str "1" ]} ] |}.

(** Two stages, queries with duplicates. *)
Definition two_stage_engine (queries : list string) : OntoMapEngine :=
  {| method := "sap-bert"; category := "disease"; query := queries;
     corpus := ["Lung Cancer"; "Breast Cancer"];
     cura_map := [("Lung Cancer", "Lung Carcinoma")];
     topk := 2; s2_strategy := LM; s3_strategy := None;
     s3_threshold := 0.9; test_or_prod := "test";
     query_df := None; corpus_df := None |}.

(** Three stages over [clean_corpus_df]. *)
Definition three_stage_engine (queries : list string) : OntoMapEngine :=
  {| method := "sap-bert"; category := "disease"; query := queries;
     corpus := ["Lung Cancer"; "Breast Cancer"];
     cura_map := [("Lung Cancer", "Lung Carcinoma")];
     topk := 2; s2_strategy := LM; s3_strategy := Some RAG;
     s3_threshold := 0.9; test_or_prod := "test";
     query_df := None; corpus_df := Some clean_corpus_df |}.

(** The file is missing; every query scores 0.4. *)
Definition low_scores : Externals :=
  externals_with None (per_query_backend (λ _, 0.4%Q)).

(** The file is missing; every query scores 0.95. *)
Definition high_scores : Externals :=
  externals_with None (per_query_backend (λ _, 0.95%Q)).

(** The file is missing; the backend gives no score. *)
Definition unscored : Externals := externals_with None unscored_backend.

(** The file is missing; two candidate rows per query. *)
Definition two_candidates : Externals :=
  externals_with None two_candidates_backend.

(** The file expands LUAD; every query scores 0.95. *)
Definition luad_expanded : Externals :=
  externals_with (Some [("LUAD", "Lung Adenocarcinoma")])
    (per_query_backend (λ _, 0.95%Q)).

Definition scenario_queries : list string :=
  ["Lung Cancer"; "lung cancer "; "XYZ"; "XYZ"].

(** The stage-2 row of XYZ that [two_candidates_backend] scores 0.95. *)
Definition xyz_best_row : row :=
  <[ "original_value" := Str "XYZ" ]>
    (<[ "updated_value" := Str "XYZ" ]>
       (<[ "top1_match" := Str "Lung Adenocarcinoma" ]>
          (<[ "top1_score" := Float 0.95 ]>
             (<[ "curated_ontology" := Str "Not Found" ]>
                {[ "stage" := Int 2 ]})))).

(** The stage-2 row of XYZ that [per_query_backend] scores 0.4. *)
Definition xyz_low_row : row :=
  <[ "original_value" := Str "XYZ" ]>
    (<[ "updated_value" := Str "XYZ" ]>
       (<[ "top1_match" := Str "Lung Adenocarcinoma" ]>
          (<[ "top1_score" := Float 0.4 ]>
             (<[ "curated_ontology" := Str "Not Found" ]>
                {[ "stage" := Int 2 ]})))).

(** ** Further readings of the code, used by the further properties *)

(** The engine with another stage-3 threshold. *)
Definition with_threshold (threshold : Q) (self : OntoMapEngine)
    : OntoMapEngine :=
  {| method := method self; category := category self; query := query self;
     corpus := corpus self; cura_map := cura_map self; topk := topk self;
     s2_strategy := s2_strategy self; s3_strategy := s3_strategy self;
     s3_threshold := threshold; test_or_prod := test_or_prod self;
     query_df := query_df self; corpus_df := corpus_df self |}.

(** The columns of a stage table that the engine fills itself. *)
Definition stage_columns : list string :=
  ["original_value"; "updated_value"; "curated_ontology"; "stage"].

(** The row [r] of a stage table carries, outside the columns the engine
    fills, what the backend table [res] has for the [updated_value] of [r]:
    the cells of a row of [res] keyed by it, or nulls throughout when [res]
    has no row keyed by it. *)
Definition carries_backend_row (res : MatchTable) (r : row) : Prop :=
  ∃ u, r !! "updated_value" = Some (Str u) ∧
       ((rows_keyed u res = [] ∧
         ∀ c, c ∉ stage_columns → r !! c = None) ∨
        (∃ br, br ∈ rows_keyed u res ∧
               ∀ c, c ∉ stage_columns → r !! c = br.2 !! c)).

(** ** The resolver on every outcome of the read *)

(** What the body of the [try] in [_map_shortname_to_fullname] comes to:
    [pd.read_csv] raises [FileNotFoundError]; or the read, a column lookup
    or a [.str] accessor raises another exception, given by the name of its
    class (a [code] or [name] column that holds no text at all has no
    [.str] accessor); or the [code] and [name] columns are read as text
    columns, where a cell holds text or holds none ([None]: an empty cell,
    or a text pandas reads as a missing value). *)
Inductive csv_read : Type :=
| FileNotFoundError
| OtherException (class_name : string)
| CodeName (cells : list (option string * option string)).

(** What a call comes to: it returns, or an exception propagates. *)
Inductive outcome (A : Type) : Type :=
| Returned (a : A)
| Propagated (class_name : string).

Arguments Returned {A} a.
Arguments Propagated {A} class_name.

(** [dict(zip(code.str.strip(), name.str.strip()))]: [.str.strip()] gives
    nan, here [None], for a cell without text; a later row with the same
    key takes the place of an earlier one.  The rows whose code is nan are
    kept under the one key [None], which no lookup of the resolver asks
    for. *)
Definition short_to_name_of (cells : list (option string * option string))
    : gmap (option string) (option string) :=
  foldl (λ d cn, <[ PyStr.strip <$> cn.1 := PyStr.strip <$> cn.2 ]> d)
        ∅ cells.

(** The loop of the resolver over [short_to_name]:
    [replaced[q] = short_to_name.get(q_strip, q_strip)]. *)
Definition replaced_of (short_to_name : gmap (option string) (option string))
    (non_exact_list : list string) : gmap string (option string) :=
  foldl (λ replaced q,
           let q_strip := PyStr.strip q in
           <[ q := default (Some q_strip) (short_to_name !! Some q_strip) ]>
             replaced)
        ∅ non_exact_list.

(** [_map_shortname_to_fullname] on the outcome [read] of the read: only
    [FileNotFoundError] is caught. *)
Definition _map_shortname_to_fullname_of (read : csv_read)
    (non_exact_list : list string) : outcome (gmap string (option string)) :=
  match read with
  | FileNotFoundError => Returned (replaced_of ∅ non_exact_list)
  | OtherException class_name => Propagated class_name
  | CodeName cells =>
      Returned (replaced_of (short_to_name_of cells) non_exact_list)
  end.

(** The outcome of the read that [read_abbr_csv] stands for. *)
Definition read_of `{Externals} : csv_read :=
  match read_abbr_csv with
  | None => FileNotFoundError
  | Some table => CodeName ((λ cn, (Some cn.1, Some cn.2)) <$> table)
  end.

(** ** Further concrete engines *)

(** A table with blanks around its cells, an empty name cell and a code
    read as a missing value. *)
Definition padded_cells : list (option string * option string) :=
  [ (Some " LUAD ", Some " Lung Adenocarcinoma ");
    (Some "NSCLC", None);
    (None, Some "Not available") ].


(** The corpus of [two_stage_engine] in another order and casing, padded,
    one label twice. *)
Definition recased_engine (queries : list string) : OntoMapEngine :=
  {| method := "sap-bert"; category := "disease"; query := queries;
     corpus := [" BREAST CANCER"; "lung cancer"; "Lung Cancer "];
     cura_map := [("Lung Cancer", "Lung Carcinoma")];
     topk := 2; s2_strategy := LM; s3_strategy := None;
     s3_threshold := 0.9; test_or_prod := "test";
     query_df := None; corpus_df := None |}.

(** Queries that all match the corpus of [two_stage_engine] exactly. *)
Definition exact_queries : list string :=
  ["Lung Cancer"; "lung cancer "; " BREAST CANCER"].

(** The file names LUAD twice. *)
Definition luad_twice : Externals :=
  externals_with (Some [("LUAD", "Lung Adeno");
                        ("LUAD ", "Lung Adenocarcinoma")])
    (per_query_backend (λ _, 0.95%Q)).

(** The file expands LUAD; every query scores 0.4. *)
Definition luad_low_scores : Externals :=
  externals_with (Some [("LUAD", "Lung Adenocarcinoma")])
    (per_query_backend (λ _, 0.4%Q)).

(** A backend that returns no row for the query [silent], and one row
    scored 0.95 for every other query. *)
Definition silent_backend (silent : string) (model : OntoMapModel)
    (cura : dict) (k : nat) (env : string) : MatchTable :=
  {| mt_columns := ["top1_match"; "top1_score"];
     mt_rows := filter (λ br, br.1 ≠ silent)
                  (mt_rows (per_query_backend (λ _, 0.95%Q)
                              model cura k env)) |}.

(** The file is missing; the backend returns no row for XYZ. *)
Definition silent_on_xyz : Externals :=
  externals_with None (silent_backend "XYZ").

(** A label column that holds a label twice. *)
Definition repeated_labels_df : DataFrame :=
  {| columns := ["label"];
     rows := [ {[ "label" := Str "Lung Cancer" ]};
               {[ "label" := Str "Breast Cancer" ]};
               {[ "label" := Str "Lung Cancer" ]} ] |}.

(** The stage-2 row of LUAD under [luad_expanded]. *)
Definition luad_row : row :=
  <[ "original_value" := Str "LUAD" ]>
    (<[ "updated_value" := Str "Lung Adenocarcinoma" ]>
       (<[ "top1_match" := Str "Lung Adenocarcinoma" ]>
          (<[ "top1_score" := Float 0.95 ]>
             (<[ "curated_ontology" := Str "Not Found" ]>
                {[ "stage" := Int 2 ]})))).

Section EngineMore.

Context `{Externals}.

(** The column [_normalize_df] takes the labels from. *)
Definition label_source (df : DataFrame) : string :=
  if decide ("official_label" ∈ columns df) then "official_label"
  else "label".

(** What step 3 of [_normalize_df] writes into a row it keeps: the label as
    text, and the code as text when the table has a [clean_code] column. *)
Definition coerce_row (with_code : bool) (r : row) : row :=
  let r := partial_alter
             (λ _, Some (Str (astype_str (r !! "official_label"))))
             "official_label" r in
  if with_code
  then partial_alter (λ _, Some (Str (astype_str (r !! "clean_code"))))
         "clean_code" r
  else r.

(** The key [drop_duplicates] compares in [_normalize_df]. *)
Definition key_cells (need_code : bool) (r : row) : list (option cell) :=
  (λ c, r !! c)
    <$> "official_label" :: (if need_code then ["clean_code"] else []).

End EngineMore.

(** * Properties *)

(** ** The order on strings and the numpy set routines *)

Lemma ascii_compare_refl (a : ascii) : Ascii.compare a a = Eq.
Proof. unfold Ascii.compare. apply N.compare_refl. Qed.

Lemma string_compare_refl (s : string) : String.compare s s = Eq.
Proof.
  induction s as [|a s IH]; simpl; [done|].
  by rewrite ascii_compare_refl.
Qed.

Lemma string_lt_irrefl (s : string) : ¬ PyStr.lt s s.
Proof. unfold PyStr.lt. by rewrite string_compare_refl. Qed.

Lemma string_lt_trans (s t u : string) :
  PyStr.lt s t → PyStr.lt t u → PyStr.lt s u.
Proof.
  unfold PyStr.lt. revert t u.
  induction s as [|a s IH]; intros [|b t] [|c u]; simpl; try done.
  destruct (Ascii.compare a b) eqn:Hab; try done.
  - apply Ascii.compare_eq_iff in Hab as ->.
    destruct (Ascii.compare b c) eqn:Hbc; try done. apply IH.
  - intros _. destruct (Ascii.compare b c) eqn:Hbc; try done.
    + apply Ascii.compare_eq_iff in Hbc as <-. by rewrite Hab.
    + intros _. unfold Ascii.compare in *.
      rewrite N.compare_lt_iff in Hab, Hbc.
      assert ((N_of_ascii a ?= N_of_ascii c)%N = Lt) as ->; [|done].
      apply N.compare_lt_iff. lia.
Qed.

#[local] Instance string_lt_transitive : Transitive PyStr.lt.
Proof. intros s t u. apply string_lt_trans. Qed.

Lemma string_compare_gt_lt (s t : string) :
  String.compare s t = Gt → PyStr.lt t s.
Proof.
  unfold PyStr.lt. intros H. rewrite String.compare_antisym, H. done.
Qed.

Lemma elem_of_insert_unique (x y : string) (l : list string) :
  y ∈ insert_unique x l ↔ y = x ∨ y ∈ l.
Proof.
  induction l as [|z l IH]; simpl.
  - rewrite list_elem_of_singleton, elem_of_nil. tauto.
  - destruct (String.compare x z) eqn:Hc.
    + apply String.compare_eq_iff in Hc as ->. rewrite elem_of_cons. tauto.
    + rewrite !elem_of_cons. tauto.
    + rewrite !elem_of_cons, IH. tauto.
Qed.

Lemma insert_unique_sorted (x : string) (l : list string) :
  StronglySorted PyStr.lt l → StronglySorted PyStr.lt (insert_unique x l).
Proof.
  induction 1 as [|z l Hs IH Hz]; simpl.
  - by repeat constructor.
  - destruct (String.compare x z) eqn:Hc.
    + by constructor.
    + constructor; [by constructor|].
      constructor; [done|].
      eapply Forall_impl; [exact Hz|]. intros w Hw.
      by transitivity z.
    + constructor; [done|].
      apply Forall_forall. intros w Hw.
      apply elem_of_insert_unique in Hw as [->|Hw].
      * by apply string_compare_gt_lt.
      * by eapply Forall_forall in Hz.
Qed.

Lemma elem_of_np_unique (x : string) (ar : list string) :
  x ∈ np_unique ar ↔ x ∈ ar.
Proof.
  unfold np_unique. induction ar as [|y ar IH]; simpl; [done|].
  rewrite elem_of_insert_unique, IH, elem_of_cons. done.
Qed.

Lemma np_unique_sorted (ar : list string) :
  StronglySorted PyStr.lt (np_unique ar).
Proof.
  unfold np_unique. induction ar as [|y ar IH]; simpl; [constructor|].
  by apply insert_unique_sorted.
Qed.

Lemma sorted_lt_NoDup (l : list string) :
  StronglySorted PyStr.lt l → NoDup l.
Proof.
  induction 1 as [|x l Hs IH Hx]; constructor; [|done].
  intros Hin. eapply Forall_forall in Hx; [|exact Hin].
  by apply string_lt_irrefl in Hx.
Qed.

Lemma sorted_lt_filter (P : string → Prop) `{!∀ x, Decision (P x)}
    (l : list string) :
  StronglySorted PyStr.lt l → StronglySorted PyStr.lt (filter P l).
Proof.
  induction 1 as [|x l Hs IH Hx]; [constructor|].
  rewrite filter_cons. case_decide; [|done].
  constructor; [done|]. apply Forall_forall. intros y Hy.
  apply list_elem_of_filter in Hy as [_ Hy]. by eapply Forall_forall in Hx.
Qed.

Lemma elem_of_np_setdiff1d (x : string) (ar1 ar2 : list string) :
  x ∈ np_setdiff1d ar1 ar2 ↔ x ∈ ar1 ∧ x ∉ ar2.
Proof.
  unfold np_setdiff1d. rewrite list_elem_of_filter, elem_of_np_unique. tauto.
Qed.

Lemma np_setdiff1d_sorted (ar1 ar2 : list string) :
  StronglySorted PyStr.lt (np_setdiff1d ar1 ar2).
Proof. apply sorted_lt_filter, np_unique_sorted. Qed.

(** ** Column names *)

Lemma append_nil_l (t : string) : "" +:+ t = t.
Proof. reflexivity. Qed.

Lemma append_cons (a : ascii) (s t : string) :
  String a s +:+ t = String a (s +:+ t).
Proof. reflexivity. Qed.

Lemma length_append (s t : string) :
  String.length (s +:+ t) = String.length s + String.length t.
Proof.
  induction s as [|a s IH]; [done|].
  rewrite append_cons. simpl. by rewrite IH.
Qed.

Lemma append_inj_same_length (s t u v : string) :
  String.length u = String.length v → s +:+ u = t +:+ v → s = t ∧ u = v.
Proof.
  revert t. induction s as [|a s IH]; intros [|b t] Hlen;
    rewrite ?append_nil_l, ?append_cons.
  - done.
  - intros ->. simpl in Hlen. rewrite length_append in Hlen. lia.
  - intros <-. simpl in Hlen. rewrite length_append in Hlen. lia.
  - intros [= -> H]. destruct (IH t Hlen H) as [-> ->]. done.
Qed.

Ltac peel_top :=
  unfold top_match, top_score; rewrite ?append_cons, ?append_nil_l.

Lemma top_score_inj (i j : nat) : top_score i = top_score j → i = j.
Proof.
  peel_top. intros [= H].
  apply append_inj_same_length in H as [H _]; [|done].
  by apply (inj pretty) in H.
Qed.

Lemma top_match_inj (i j : nat) : top_match i = top_match j → i = j.
Proof.
  peel_top. intros [= H].
  apply append_inj_same_length in H as [H _]; [|done].
  by apply (inj pretty) in H.
Qed.

Lemma top_match_ne_top_score (i j : nat) : top_match i ≠ top_score j.
Proof.
  peel_top. intros [= H].
  apply append_inj_same_length in H as [_ H]; done.
Qed.

Lemma engine_column_not_top (c : string) (i : nat) :
  engine_column c → c ≠ top_match i ∧ c ≠ top_score i.
Proof.
  unfold engine_column. peel_top.
  rewrite !elem_of_cons, elem_of_nil.
  intros [->|[->|[->|[->|[->|[]]]]]]; split; discriminate.
Qed.

(** ** Stage-1 rows *)

Lemma rows_foldl_assign (df : DataFrame) (l : list nat) :
  rows (foldl (λ df i,
                 df_assign (top_score i) (λ _, Some (Float 1))
                   (df_assign (top_match i) (λ r, r !! "curated_ontology") df))
              df l)
  = (λ r, foldl top_step r l) <$> rows df.
Proof.
  revert df. induction l as [|i l IH]; intros df; simpl.
  - by rewrite list_fmap_id.
  - rewrite IH. simpl. rewrite <- !list_fmap_compose. done.
Qed.

Lemma rows_exact_df (self : OntoMapEngine) :
  rows (exact_df self) = exact_row self <$> _exact_matching self.
Proof.
  unfold exact_df. rewrite rows_foldl_assign. simpl.
  rewrite <- !list_fmap_compose. done.
Qed.

Lemma top_steps_other (r : row) (l : list nat) (c : string) :
  (∀ i, c ≠ top_match i ∧ c ≠ top_score i) →
  foldl top_step r l !! c = r !! c.
Proof.
  intros Hc. induction l as [|i l IH] using rev_ind; [done|].
  rewrite foldl_snoc. unfold top_step at 1.
  destruct (Hc i) as [Hm Hs].
  rewrite !lookup_partial_alter_ne by done. exact IH.
Qed.

Lemma top_steps_score (r : row) (l : list nat) (i : nat) :
  i ∈ l → foldl top_step r l !! top_score i = Some (Float 1).
Proof.
  induction l as [|j l IH] using rev_ind; [by rewrite elem_of_nil|].
  rewrite elem_of_app, list_elem_of_singleton. intros Hin.
  rewrite foldl_snoc. unfold top_step at 1.
  destruct (decide (j = i)) as [->|Hne].
  - by rewrite lookup_partial_alter_eq.
  - rewrite lookup_partial_alter_ne
      by (intros H; apply top_score_inj in H; done).
    rewrite lookup_partial_alter_ne by apply top_match_ne_top_score.
    apply IH. destruct Hin as [|]; [done|congruence].
Qed.

Lemma top_steps_match (r : row) (l : list nat) (i : nat) :
  (∀ j, "curated_ontology" ≠ top_match j ∧ "curated_ontology" ≠ top_score j) →
  i ∈ l → foldl top_step r l !! top_match i = r !! "curated_ontology".
Proof.
  intros Hcur.
  induction l as [|j l IH] using rev_ind; [by rewrite elem_of_nil|].
  rewrite elem_of_app, list_elem_of_singleton. intros Hin.
  rewrite foldl_snoc. unfold top_step at 1.
  rewrite lookup_partial_alter_ne
    by (intros H; symmetry in H; by apply top_match_ne_top_score in H).
  destruct (decide (j = i)) as [->|Hne].
  - rewrite lookup_partial_alter_eq. by apply top_steps_other.
  - rewrite lookup_partial_alter_ne
      by (intros H; apply top_match_inj in H; done).
    apply IH. destruct Hin as [|]; [done|congruence].
Qed.

Lemma curated_not_top (j : nat) :
  "curated_ontology" ≠ top_match j ∧ "curated_ontology" ≠ top_score j.
Proof.
  apply engine_column_not_top. unfold engine_column.
  rewrite !elem_of_cons. tauto.
Qed.

Lemma exact_row_original_value (self : OntoMapEngine) (q : string) :
  exact_row self q !! "original_value" = Some (Str q).
Proof.
  unfold exact_row. rewrite top_steps_other.
  - by rewrite !lookup_partial_alter_ne, lookup_singleton_eq.
  - intros i. apply engine_column_not_top. unfold engine_column.
    rewrite !elem_of_cons. tauto.
Qed.

Lemma exact_row_stage (self : OntoMapEngine) (q : string) :
  exact_row self q !! "stage" = Some (Int 1).
Proof.
  unfold exact_row. rewrite top_steps_other.
  - by rewrite lookup_partial_alter_eq.
  - intros i. apply engine_column_not_top. unfold engine_column.
    rewrite !elem_of_cons. tauto.
Qed.

Lemma exact_row_match_level (self : OntoMapEngine) (q : string) :
  exact_row self q !! "match_level" = Some (Int 1).
Proof.
  unfold exact_row. rewrite top_steps_other.
  - by rewrite lookup_partial_alter_ne, lookup_partial_alter_eq.
  - intros i. apply engine_column_not_top. unfold engine_column.
    rewrite !elem_of_cons. tauto.
Qed.

Lemma exact_row_curated (self : OntoMapEngine) (q : string) :
  exact_row self q !! "curated_ontology"
  = Some (Str (default q (dict_get (cura_map self) q))).
Proof.
  unfold exact_row. rewrite top_steps_other by apply curated_not_top.
  rewrite !lookup_partial_alter_ne by done.
  rewrite lookup_partial_alter_eq, lookup_singleton_eq. simpl.
  by destruct (dict_get (cura_map self) q).
Qed.

Lemma exact_row_top_score (self : OntoMapEngine) (q : string) (i : nat) :
  (1 ≤ i ≤ topk self)%nat → exact_row self q !! top_score i = Some (Float 1).
Proof.
  intros Hi. unfold exact_row. apply top_steps_score.
  apply elem_of_seq. lia.
Qed.

Lemma exact_row_top_match (self : OntoMapEngine) (q : string) (i : nat) :
  (1 ≤ i ≤ topk self)%nat →
  exact_row self q !! top_match i
  = Some (Str (default q (dict_get (cura_map self) q))).
Proof.
  intros Hi. unfold exact_row.
  rewrite top_steps_match; [|apply curated_not_top|apply elem_of_seq; lia].
  rewrite !lookup_partial_alter_ne by done.
  rewrite lookup_partial_alter_eq, lookup_singleton_eq. simpl.
  by destruct (dict_get (cura_map self) q).
Qed.

(** ** Rows of a matcher stage *)

Section StageRows.

Context `{Externals}.

#[local] Abbreviation mapping := _map_shortname_to_fullname.

Lemma zip_fmap_same {A B C : Type} (f : A → B) (g : A → C) (l : list A) :
  zip (f <$> l) (g <$> l) = (λ x, (f x, g x)) <$> l.
Proof. induction l as [|x l IH]; csimpl; [done|]. by rewrite IH. Qed.

Lemma rows_replace_df (qs : list string) :
  rows (replace_df qs)
  = (λ q, replace_row q (mapping qs !!! q)) <$> qs.
Proof.
  unfold replace_df, pd_DataFrame2, updated_queries. simpl.
  rewrite <- !list_fmap_compose, zip_fmap_same, <- list_fmap_compose. done.
Qed.

Lemma replace_row_original_value (q u : string) :
  replace_row q u !! "original_value" = Some (Str q).
Proof. unfold replace_row. by rewrite lookup_insert_eq. Qed.

Lemma replace_row_updated_value (q u : string) :
  replace_row q u !! "updated_value" = Some (Str u).
Proof.
  unfold replace_row.
  by rewrite lookup_insert_ne, lookup_singleton_eq.
Qed.

Lemma replace_row_other (q u c : string) :
  c ≠ "original_value" → c ≠ "updated_value" → replace_row q u !! c = None.
Proof.
  intros H1 H2. unfold replace_row.
  by rewrite lookup_insert_ne, lookup_singleton_ne.
Qed.

Lemma rows_stage_res (self : OntoMapEngine) (stage : Z) (s : strategy)
    (qs : list string) :
  rows (stage_res self stage s qs)
  = qs ≫= (λ q, stage_rows_for self stage (stage_match_results self s qs)
                   q (mapping qs !!! q)).
Proof.
  unfold stage_res, df_assign, pd_merge_left. cbn [rows].
  rewrite <- list_fmap_compose, rows_replace_df.
  generalize (stage_match_results self s qs) (mapping qs).
  intros res m.
  induction qs as [|q qs IH]; [done|].
  rewrite fmap_cons, !bind_cons, fmap_app, IH. f_equal.
  unfold stage_rows_for, rows_keyed.
  assert (filter (λ br : string * row,
                    replace_row q (m !!! q) !! "updated_value"
                    = Some (Str br.1))
                 (mt_rows res)
          = filter (λ br, br.1 = m !!! q) (mt_rows res)) as ->; [|done].
  apply list_filter_iff. intros br.
  rewrite replace_row_updated_value. split; [by intros [= ->]|by intros ->].
Qed.

Lemma tag_row_stage (self : OntoMapEngine) (stage : Z) (r : row) :
  tag_row self stage r !! "stage" = Some (Int stage).
Proof. unfold tag_row. by rewrite lookup_partial_alter_eq. Qed.

Lemma tag_row_other (self : OntoMapEngine) (stage : Z) (r : row)
    (c : string) :
  c ≠ "stage" → c ≠ "curated_ontology" → tag_row self stage r !! c = r !! c.
Proof.
  intros H1 H2. unfold tag_row. by rewrite !lookup_partial_alter_ne.
Qed.

Lemma stage_rows_for_spec (self : OntoMapEngine) (stage : Z)
    (res : MatchTable) (q u : string) (r : row) :
  r ∈ stage_rows_for self stage res q u →
  r !! "original_value" = Some (Str q) ∧
  r !! "updated_value" = Some (Str u) ∧
  r !! "stage" = Some (Int stage).
Proof.
  unfold stage_rows_for. intros Hr.
  apply list_elem_of_fmap in Hr as (r0 & -> & Hr0).
  rewrite tag_row_stage, !tag_row_other by done.
  destruct (rows_keyed u res) as [|br ms].
  - apply list_elem_of_singleton in Hr0 as ->.
    by rewrite replace_row_original_value, replace_row_updated_value.
  - apply list_elem_of_fmap in Hr0 as (br' & -> & _).
    split_and!; [| |done]; apply lookup_union_Some_l;
      auto using replace_row_original_value, replace_row_updated_value.
Qed.

Lemma stage_rows_for_nonempty (self : OntoMapEngine) (stage : Z)
    (res : MatchTable) (q u : string) :
  ∃ r, r ∈ stage_rows_for self stage res q u.
Proof.
  unfold stage_rows_for.
  destruct (rows_keyed u res) as [|br ms]; simpl; eexists; left.
Qed.

Lemma stage_rows_for_dropped (self : OntoMapEngine) (stage : Z)
    (res : MatchTable) (q u : string) :
  rows_keyed u res = [] →
  stage_rows_for self stage res q u = [tag_row self stage (replace_row q u)].
Proof. unfold stage_rows_for. by intros ->. Qed.

Lemma filter_none {A : Type} (P : A → Prop) `{!∀ x, Decision (P x)}
    (l : list A) :
  (∀ x, x ∈ l → ¬ P x) → filter P l = [].
Proof.
  induction l as [|x l IH]; intros Hall; [done|].
  rewrite filter_cons. case_decide as HP.
  - exfalso. apply (Hall x); [left|done].
  - apply IH. intros y Hy. apply Hall. by right.
Qed.

Lemma rows_keyed_unique (u : string) (res : MatchTable) :
  NoDup (mt_rows res).*1 → (length (rows_keyed u res) ≤ 1)%nat.
Proof.
  unfold rows_keyed. induction (mt_rows res) as [|br l IH]; [simpl; lia|].
  rewrite fmap_cons, NoDup_cons. intros [Hbr Hl].
  rewrite filter_cons. case_decide as Hk; [|by apply IH].
  rewrite filter_none; [simpl; lia|].
  intros br' Hin Hk'. apply Hbr. rewrite Hk, <- Hk'.
  by apply list_elem_of_fmap_2.
Qed.

Lemma stage_rows_for_single (self : OntoMapEngine) (stage : Z)
    (res : MatchTable) (q u : string) :
  NoDup (mt_rows res).*1 → ∃ r, stage_rows_for self stage res q u = [r].
Proof.
  intros Hnd. apply (rows_keyed_unique u) in Hnd.
  unfold stage_rows_for.
  destruct (rows_keyed u res) as [|br [|br' ms]]; simpl in *;
    [by eexists|by eexists|lia].
Qed.

Lemma row_original_value_eq (r : row) (q : string) :
  r !! "original_value" = Some (Str q) → row_original_value r = q.
Proof. unfold row_original_value. by intros ->. Qed.

(** Every row of a stage table comes from a query of the stage, and every
    query of the stage has a row. *)
Lemma elem_of_rows_stage_res (self : OntoMapEngine) (stage : Z)
    (s : strategy) (qs : list string) (r : row) :
  r ∈ rows (stage_res self stage s qs) →
  ∃ q, q ∈ qs ∧ r !! "original_value" = Some (Str q) ∧
       r !! "updated_value" = Some (Str (mapping qs !!! q)) ∧
       r !! "stage" = Some (Int stage).
Proof.
  rewrite rows_stage_res, list_elem_of_bind. intros (q & Hr & Hq).
  exists q. split; [done|]. by eapply stage_rows_for_spec.
Qed.

Lemma rows_stage_res_cover (self : OntoMapEngine) (stage : Z)
    (s : strategy) (qs : list string) (q : string) :
  q ∈ qs →
  ∃ r, r ∈ rows (stage_res self stage s qs) ∧
       r !! "original_value" = Some (Str q).
Proof.
  intros Hq.
  destruct (stage_rows_for_nonempty self stage
              (stage_match_results self s qs) q (mapping qs !!! q))
    as [r Hr].
  exists r. split.
  - rewrite rows_stage_res, list_elem_of_bind. eauto.
  - by eapply stage_rows_for_spec.
Qed.

(** With at most one backend row per key, a stage table has exactly one
    row per query of the stage, in the order of the queries. *)
Lemma original_values_stage_res (self : OntoMapEngine) (stage : Z)
    (s : strategy) (qs : list string) :
  NoDup (mt_rows (stage_match_results self s qs)).*1 →
  row_original_value <$> rows (stage_res self stage s qs) = qs.
Proof.
  intros Hnd. rewrite rows_stage_res.
  generalize dependent (stage_match_results self s qs). 
  generalize (mapping qs). intros m res Hnd.
  induction qs as [|q qs IH]; [done|].
  rewrite bind_cons, fmap_app, IH. 
  destruct (stage_rows_for_single self stage res q (m !!! q) Hnd) as [r Hr].
  assert (r ∈ stage_rows_for self stage res q (m !!! q)) as Hin
    by (rewrite Hr; left).
  apply stage_rows_for_spec in Hin as (Hov & _).
  rewrite Hr. simpl. by rewrite (row_original_value_eq r q).
Qed.

End StageRows.

(** ** The cascade *)

Section Cascade.

Context `{Externals}.

Lemma elem_of_exact_matching (self : OntoMapEngine) (q : string) :
  q ∈ _exact_matching self ↔
  q ∈ query self ∧
  ∃ c, c ∈ corpus self ∧
       PyStr.lower (PyStr.strip q) = PyStr.lower (PyStr.strip c).
Proof.
  unfold _exact_matching.
  rewrite list_elem_of_filter, list_elem_of_fmap. naive_solver.
Qed.

Lemma elem_of_non_exact (self : OntoMapEngine) (q : string) :
  q ∈ non_exact_matches_ls self ↔ q ∈ query self ∧ q ∉ _exact_matching self.
Proof. apply elem_of_np_setdiff1d. Qed.

Lemma exact_or_non_exact (self : OntoMapEngine) (q : string) :
  q ∈ query self → q ∈ _exact_matching self ∨ q ∈ non_exact_matches_ls self.
Proof.
  intros Hq. rewrite elem_of_non_exact.
  destruct (decide (q ∈ _exact_matching self)); tauto.
Qed.

Lemma rows_pd_concat2 (a b : DataFrame) :
  rows (pd_concat [a; b]) = rows a ++ rows b.
Proof. unfold pd_concat. simpl. by rewrite app_nil_r. Qed.

Lemma rows_pd_concat3 (a b c : DataFrame) :
  rows (pd_concat [a; b; c]) = rows a ++ rows b ++ rows c.
Proof. unfold pd_concat. simpl. by rewrite app_nil_r. Qed.

(** The three ways [run] ends. *)
Lemma run_cases (self : OntoMapEngine) :
  (non_exact_matches_ls self = [] ∧ run_traced self = ([], exact_df self))
  ∨ (non_exact_matches_ls self ≠ [] ∧
     (s3_strategy self = None ∨ "top1_score" ∉ columns (s2_res self)
      ∨ queries_for_s3 self = []) ∧
     run_traced self
     = ([stage_model self (s2_strategy self) (non_exact_matches_ls self)],
        pd_concat [exact_df self; s2_res self]))
  ∨ (∃ s3, s3_strategy self = Some s3 ∧
       non_exact_matches_ls self ≠ [] ∧
       "top1_score" ∈ columns (s2_res self) ∧
       queries_for_s3 self ≠ [] ∧
       run_traced self
       = ([stage_model self (s2_strategy self) (non_exact_matches_ls self);
           stage_model self s3 (queries_for_s3 self)],
          pd_concat [exact_df self; s2_res_filtered self; s3_res self s3])).
Proof.
  unfold run_traced.
  destruct (decide (non_exact_matches_ls self = [])) as [Hne|Hne]; [by left|].
  right. destruct (s3_strategy self) as [s3|] eqn:Hs3; [|left; by auto].
  destruct (decide ("top1_score" ∈ columns (s2_res self))) as [Hcol|Hcol];
    [|left; by auto].
  destruct (decide (queries_for_s3 self = [])) as [Hq|Hq]; [left; by auto|].
  right. by exists s3.
Qed.

Lemma elem_of_rows_exact_df (self : OntoMapEngine) (r : row) :
  r ∈ rows (exact_df self) ↔ ∃ q, q ∈ _exact_matching self ∧ r = exact_row self q.
Proof. rewrite rows_exact_df, list_elem_of_fmap. naive_solver. Qed.

Lemma rows_exact_df_in_run (self : OntoMapEngine) (r : row) :
  r ∈ rows (exact_df self) → r ∈ rows (run self).
Proof.
  intros Hr. unfold run.
  destruct (run_cases self) as [[_ ->]|[(_ & _ & ->)|(s3 & _ & _ & _ & _ & ->)]];
    simpl snd; rewrite ?rows_pd_concat2, ?rows_pd_concat3, ?elem_of_app; auto.
Qed.

Lemma elem_of_rows_s2_res (self : OntoMapEngine) (r : row) :
  r ∈ rows (s2_res self) →
  ∃ q, q ∈ non_exact_matches_ls self ∧
       r !! "original_value" = Some (Str q) ∧ r !! "stage" = Some (Int 2).
Proof.
  intros Hr. apply elem_of_rows_stage_res in Hr as (q & Hq & Hov & _ & Hst).
  eauto.
Qed.

Lemma elem_of_queries_for_s3 (self : OntoMapEngine) (q : string) :
  q ∈ queries_for_s3 self ↔
  ∃ r, r ∈ rows (s2_res self) ∧ low_confidence_mask self r = true ∧
       row_original_value r = q.
Proof.
  unfold queries_for_s3.
  rewrite list_elem_of_fmap. split.
  - intros (r & -> & Hr). apply list_elem_of_filter in Hr as [Hlow Hr].
    exists r. split_and!; [done| |done]. by apply Is_true_true.
  - intros (r & Hr & Hlow & <-). exists r. split; [done|].
    apply list_elem_of_filter. split; [|done]. by apply Is_true_true.
Qed.

Lemma queries_for_s3_non_exact (self : OntoMapEngine) (q : string) :
  q ∈ queries_for_s3 self → q ∈ non_exact_matches_ls self.
Proof.
  rewrite elem_of_queries_for_s3. intros (r & Hr & _ & <-).
  apply elem_of_rows_s2_res in Hr as (q & Hq & Hov & _).
  by rewrite (row_original_value_eq r q).
Qed.

Lemma elem_of_rows_s3_res (self : OntoMapEngine) (s3 : strategy) (r : row) :
  r ∈ rows (s3_res self s3) →
  ∃ q, q ∈ queries_for_s3 self ∧
       r !! "original_value" = Some (Str q) ∧ r !! "stage" = Some (Int 3).
Proof.
  intros Hr. apply elem_of_rows_stage_res in Hr as (q & Hq & Hov & _ & Hst).
  eauto.
Qed.

Lemma elem_of_rows_s2_res_filtered (self : OntoMapEngine) (r : row) :
  r ∈ rows (s2_res_filtered self) ↔
  r ∈ rows (s2_res self) ∧ row_original_value r ∉ queries_for_s3 self.
Proof.
  unfold s2_res_filtered. simpl.
  rewrite list_elem_of_filter. tauto.
Qed.

Lemma run_row_stage (self : OntoMapEngine) (r : row) :
  r ∈ rows (run self) →
  ∃ q, q ∈ query self ∧ r !! "original_value" = Some (Str q) ∧
       r !! "stage" = Some (Int (final_stage self q)).
Proof.
  assert (∀ r, r ∈ rows (exact_df self) →
    ∃ q, q ∈ query self ∧ r !! "original_value" = Some (Str q) ∧
         r !! "stage" = Some (Int (final_stage self q))) as Hexact.
  { intros r0 Hr0. apply elem_of_rows_exact_df in Hr0 as (q & Hq & ->).
    exists q. rewrite exact_row_original_value, exact_row_stage.
    unfold final_stage. rewrite decide_True by done.
    apply elem_of_exact_matching in Hq as [Hq _]. done. }
  unfold run.
  destruct (run_cases self)
    as [[_ Hrun]|[(_ & Hwhy & Hrun)|(s3 & Hs3 & _ & Hcol & _ & Hrun)]];
    rewrite Hrun; simpl snd; rewrite ?rows_pd_concat2, ?rows_pd_concat3.
  - apply Hexact.
  - rewrite elem_of_app. intros [Hr|Hr]; [by apply Hexact|].
    destruct (elem_of_rows_s2_res self r Hr) as (q & Hq & Hov & Hst).
    exists q. apply elem_of_non_exact in Hq as [Hq Hne].
    split_and!; [done..|]. rewrite Hst.
    unfold final_stage.
    rewrite decide_False by done. rewrite decide_False; [done|].
    intros (Hsome & Hcol & Hin).
    destruct Hwhy as [Hnone|[Hnc|Hnil]].
    + rewrite Hnone in Hsome. by destruct Hsome.
    + done.
    + rewrite Hnil in Hin. by apply elem_of_nil in Hin.
  - rewrite !elem_of_app. intros [Hr|[Hr|Hr]]; [by apply Hexact| |].
    + apply elem_of_rows_s2_res_filtered in Hr as [Hr Hnot].
      destruct (elem_of_rows_s2_res self r Hr) as (q & Hq & Hov & Hst).
      rewrite (row_original_value_eq r q Hov) in Hnot.
      exists q. apply elem_of_non_exact in Hq as [Hq Hne].
      split_and!; [done..|]. rewrite Hst.
      unfold final_stage.
      rewrite decide_False by done. rewrite decide_False; [done|tauto].
    + destruct (elem_of_rows_s3_res self s3 r Hr) as (q & Hq3 & Hov & Hst).
      exists q.
      pose proof (queries_for_s3_non_exact self q Hq3) as Hq.
      apply elem_of_non_exact in Hq as [Hq Hne].
      split_and!; [done..|]. rewrite Hst.
      unfold final_stage.
      rewrite decide_False by done. rewrite decide_True; [done|].
      rewrite Hs3. eauto.
Qed.

Lemma final_stage_range (self : OntoMapEngine) (q : string) :
  final_stage self q = 1%Z
  ∨ final_stage self q = 2%Z
  ∨ final_stage self q = 3%Z.
Proof. unfold final_stage. repeat case_decide; auto. Qed.

(** Every query has a row in the table [run] returns. *)
Lemma run_covers_queries (self : OntoMapEngine) (q : string) :
  q ∈ query self →
  ∃ r, r ∈ rows (run self) ∧ r !! "original_value" = Some (Str q).
Proof.
  intros Hq. destruct (exact_or_non_exact self q Hq) as [He|Hn].
  { exists (exact_row self q). split; [|apply exact_row_original_value].
    apply rows_exact_df_in_run, elem_of_rows_exact_df. eauto. }
  destruct (rows_stage_res_cover self 2
              (s2_strategy self) _ q Hn) as (r2 & Hr2 & Hov2).
  unfold run.
  destruct (run_cases self)
    as [[Hnil _]|[(_ & _ & Hrun)|(s3 & _ & _ & _ & _ & Hrun)]].
  - rewrite Hnil in Hn. by apply elem_of_nil in Hn.
  - rewrite Hrun. simpl snd. rewrite rows_pd_concat2.
    exists r2. rewrite elem_of_app. auto.
  - rewrite Hrun. simpl snd. rewrite rows_pd_concat3.
    destruct (decide (q ∈ queries_for_s3 self)) as [Hq3|Hq3].
    + destruct (rows_stage_res_cover self 3
                  s3 _ q Hq3) as (r3 & Hr3 & Hov3).
      exists r3. rewrite !elem_of_app. auto.
    + exists r2. rewrite !elem_of_app. split; [|done]. right. left.
      apply elem_of_rows_s2_res_filtered. split; [done|].
      by rewrite (row_original_value_eq r2 q Hov2).
Qed.

(** C3. Exact-match correctness: a query whose trimmed, lower-cased form
    is that of a corpus entry has a row in the table [run] returns with
    stage 1, match level 1, every [top{i}_score], i in 1..topk, equal to
    1.00, and every [top{i}_match] equal to the value of the curation map
    at the query, or to the query text when the map has none. *)
Theorem exact_match_row_in_run (self : OntoMapEngine) (q c : string) :
  q ∈ query self → c ∈ corpus self →
  PyStr.lower (PyStr.strip q) = PyStr.lower (PyStr.strip c) →
  ∃ r, r ∈ rows (run self) ∧
       r !! "original_value" = Some (Str q) ∧
       r !! "stage" = Some (Int 1) ∧
       r !! "match_level" = Some (Int 1) ∧
       ∀ i, (1 ≤ i ≤ topk self)%nat →
            r !! top_score i = Some (Float 1) ∧
            r !! top_match i
            = Some (Str (default q (dict_get (cura_map self) q))).
Proof.
  intros Hq Hc Hnorm. exists (exact_row self q). split_and!.
  - apply rows_exact_df_in_run, elem_of_rows_exact_df. exists q.
    split; [|done]. apply elem_of_exact_matching. eauto.
  - apply exact_row_original_value.
  - apply exact_row_stage.
  - apply exact_row_match_level.
  - intros i Hi. split.
    + by apply exact_row_top_score.
    + by apply exact_row_top_match.
Qed.

(** C4. Stage exclusivity: in the table [run] returns, two rows with the
    same [original_value] carry the same [stage]; every row carries stage
    1, 2 or 3; and every input query has a row. *)
Theorem stage_exclusive (self : OntoMapEngine) :
  (∀ r1 r2, r1 ∈ rows (run self) → r2 ∈ rows (run self) →
            r1 !! "original_value" = r2 !! "original_value" →
            r1 !! "stage" = r2 !! "stage") ∧
  (∀ r, r ∈ rows (run self) →
        r !! "stage" = Some (Int 1) ∨ r !! "stage" = Some (Int 2)
        ∨ r !! "stage" = Some (Int 3)) ∧
  (∀ q, q ∈ query self →
        ∃ r, r ∈ rows (run self) ∧ r !! "original_value" = Some (Str q)).
Proof.
  split_and!.
  - intros r1 r2 H1 H2 Hov.
    destruct (run_row_stage self r1 H1) as (q1 & _ & Hov1 & Hst1).
    destruct (run_row_stage self r2 H2) as (q2 & _ & Hov2 & Hst2).
    assert (q2 = q1) as Heq by congruence.
    rewrite Hst1, Hst2, Heq. done.
  - intros r Hr. destruct (run_row_stage self r Hr) as (q & _ & _ & Hst).
    rewrite Hst.
    destruct (final_stage_range self q) as [Hf|[Hf|Hf]]; rewrite Hf; auto.
  - apply run_covers_queries.
Qed.

End Cascade.

(** ** Counting rows *)

Lemma NoDup_fmap_eq {A B : Type} (f : A → B) (l : list A) (x y : A) :
  NoDup (f <$> l) → x ∈ l → y ∈ l → f x = f y → x = y.
Proof.
  induction l as [|z l IH]; [by rewrite elem_of_nil|].
  rewrite fmap_cons, NoDup_cons, !elem_of_cons.
  intros [Hz Hnd] [->|Hx] [->|Hy] Heq; auto.
  - exfalso. apply Hz. rewrite Heq. by apply list_elem_of_fmap_2.
  - exfalso. apply Hz. rewrite <- Heq. by apply list_elem_of_fmap_2.
Qed.

Lemma filter_all {A : Type} (P : A → Prop) `{!∀ x, Decision (P x)}
    (l : list A) :
  (∀ x, x ∈ l → P x) → filter P l = l.
Proof.
  induction l as [|x l IH]; intros Hall; [done|].
  rewrite filter_cons, decide_True by (apply Hall; left).
  f_equal. apply IH. intros y Hy. apply Hall. by right.
Qed.

Lemma filter_ext_in {A : Type} (P Q : A → Prop) `{!∀ x, Decision (P x)}
    `{!∀ x, Decision (Q x)} (l : list A) :
  (∀ x, x ∈ l → P x ↔ Q x) → filter P l = filter Q l.
Proof.
  induction l as [|x l IH]; intros Hall; [done|].
  rewrite !filter_cons.
  assert (filter P l = filter Q l) as ->
    by (apply IH; intros y Hy; apply Hall; by right).
  destruct (Hall x) as [HPQ HQP]; [left|].
  destruct (decide (P x)), (decide (Q x)); tauto.
Qed.

Lemma occurrences_app {A : Type} `{EqDecision A} (x : A) (l k : list A) :
  occurrences x (l ++ k) = (occurrences x l + occurrences x k)%nat.
Proof. unfold occurrences. by rewrite filter_app, length_app. Qed.

Lemma occurrences_not_elem {A : Type} `{EqDecision A} (x : A) (l : list A) :
  x ∉ l → occurrences x l = 0%nat.
Proof.
  intros Hx. unfold occurrences. rewrite filter_none; [done|].
  by intros y Hy ->.
Qed.

Lemma occurrences_fmap_inj {A B : Type} `{EqDecision A} `{EqDecision B}
    (f : A → B) `{!Inj (=) (=) f} (x : A) (l : list A) :
  occurrences (f x) (f <$> l) = occurrences x l.
Proof.
  unfold occurrences. induction l as [|y l IH]; [done|].
  rewrite fmap_cons, !filter_cons.
  destruct (decide (y = x)) as [->|Hne].
  - rewrite decide_True by done. simpl. by rewrite IH.
  - rewrite decide_False; [done|]. intros Heq. by apply (inj f) in Heq.
Qed.

Lemma occurrences_filter {A : Type} `{EqDecision A} (P : A → Prop)
    `{!∀ x, Decision (P x)} (x : A) (l : list A) :
  P x → occurrences x (filter P l) = occurrences x l.
Proof.
  intros HP. unfold occurrences. rewrite list_filter_filter.
  f_equal. apply list_filter_iff. intros y. split; [tauto|].
  intros ->. done.
Qed.

#[local] Instance Some_Str_inj : Inj (=) (=) (λ q : string, Some (Str q)).
Proof. by intros q1 q2 [= ->]. Qed.

Section Counting.

Context `{Externals}.

Lemma columns_df_assign (c c' : string) (f : row → option cell)
    (df : DataFrame) :
  c' ∈ columns (df_assign c f df) ↔ c' = c ∨ c' ∈ columns df.
Proof.
  unfold df_assign. simpl. case_decide as Hc.
  - split; [tauto|]. intros [->|]; done.
  - rewrite elem_of_app, list_elem_of_singleton. tauto.
Qed.

Lemma top1_score_in_stage_res (self : OntoMapEngine) (stage : Z)
    (s : strategy) (qs : list string) :
  "top1_score" ∈ columns (stage_res self stage s qs) ↔
  "top1_score" ∈ mt_columns (stage_match_results self s qs).
Proof.
  unfold stage_res. rewrite !columns_df_assign.
  unfold pd_merge_left, replace_df, pd_DataFrame2. simpl.
  rewrite !elem_of_cons. split; [|tauto].
  intros [?|[?|[?|[?|?]]]]; done.
Qed.

(** The rows of the low-confidence queries are the low-confidence rows when
    no two rows share their [original_value]. *)
Lemma filter_escalated (self : OntoMapEngine) :
  NoDup (row_original_value <$> rows (s2_res self)) →
  filter (λ r, row_original_value r ∈ queries_for_s3 self) (rows (s2_res self))
  = filter (low_confidence_mask self) (rows (s2_res self)).
Proof.
  intros Hnd. apply filter_ext_in. intros r Hr.
  rewrite elem_of_queries_for_s3. split.
  - intros (r' & Hr' & Hlow & Heq).
    assert (r' = r) as <- by (by eapply NoDup_fmap_eq).
    by apply Is_true_true.
  - intros Hlow. exists r. split_and!; [done| |done]. by apply Is_true_true.
Qed.

(** The table [run] returns is the stage-1 table followed by rows of the
    non-exact queries from stage 2 or 3; with at most one backend row per
    key, these rows carry every non-exact query once. *)
Lemma run_rows_split (self : OntoMapEngine) :
  ∃ rest,
    rows (run self) = rows (exact_df self) ++ rest ∧
    (∀ r, r ∈ rest →
       ∃ q, q ∈ non_exact_matches_ls self ∧
            r !! "original_value" = Some (Str q) ∧
            (r !! "stage" = Some (Int 2) ∨ r !! "stage" = Some (Int 3))) ∧
    (keys_distinct (s2_match_results self) →
     (∀ s3, s3_strategy self = Some s3 →
            keys_distinct (s3_match_results self s3)) →
     row_original_value <$> rest ≡ₚ non_exact_matches_ls self).
Proof.
  unfold run.
  destruct (run_cases self)
    as [[Hnil Hrun]|[(_ & _ & Hrun)|(s3 & Hs3 & _ & _ & _ & Hrun)]];
    rewrite Hrun; simpl snd.
  - exists []. rewrite app_nil_r. split_and!; [done| |by rewrite Hnil].
    intros r Hr. by apply elem_of_nil in Hr.
  - exists (rows (s2_res self)). rewrite rows_pd_concat2.
    split_and!; [done| |].
    + intros r Hr. destruct (elem_of_rows_s2_res self r Hr) as (q & ? & ? & ?).
      eauto 10.
    + intros Hk2 _. unfold s2_res.
      by rewrite original_values_stage_res.
  - exists (rows (s2_res_filtered self) ++ rows (s3_res self s3)).
    rewrite rows_pd_concat3. split_and!; [done| |].
    + intros r. rewrite elem_of_app. intros [Hr|Hr].
      * apply elem_of_rows_s2_res_filtered in Hr as [Hr _].
        destruct (elem_of_rows_s2_res self r Hr) as (q & ? & ? & ?).
        eauto 10.
      * destruct (elem_of_rows_s3_res self s3 r Hr) as (q & Hq & ? & ?).
        apply queries_for_s3_non_exact in Hq. eauto 10.
    + intros Hk2 Hk3. specialize (Hk3 s3 Hs3).
      pose proof (original_values_stage_res self 2 (s2_strategy self)
                    (non_exact_matches_ls self) Hk2) as Hov2.
      fold (s2_res self) in Hov2.
      assert (NoDup (row_original_value <$> rows (s2_res self))) as Hnd.
      { rewrite Hov2. apply sorted_lt_NoDup, np_setdiff1d_sorted. }
      rewrite fmap_app. unfold s3_res at 1.
      rewrite (original_values_stage_res self 3 s3 _ Hk3).
      unfold s2_res_filtered. cbn [rows].
      set (Q3 := queries_for_s3 self).
      assert (Q3 = row_original_value <$>
                     filter (λ r, row_original_value r ∈ Q3)
                            (rows (s2_res self))) as HQ3.
      { unfold Q3 at 1. unfold queries_for_s3.
        by rewrite <- (filter_escalated self Hnd). }
      trans ((row_original_value <$>
                filter (λ r, row_original_value r ∉ Q3) (rows (s2_res self)))
             ++ (row_original_value <$>
                   filter (λ r, row_original_value r ∈ Q3)
                          (rows (s2_res self)))).
      { by rewrite <- HQ3. }
      rewrite <- fmap_app, <- Hov2. apply fmap_Permutation.
      rewrite (comm (++)).
      apply (filter_app_complement (λ r, row_original_value r ∈ Q3)).
Qed.

Lemma run_rows_original_value (self : OntoMapEngine) (r : row) :
  r ∈ rows (run self) →
  r !! "original_value" = Some (Str (row_original_value r)).
Proof.
  intros Hr. destruct (run_row_stage self r Hr) as (q & _ & Hov & _).
  by rewrite (row_original_value_eq r q).
Qed.

End Counting.

(** ** Claims on the cascade *)

Section CascadeClaims.

Context `{Externals}.

(** C5. Degradation on a missing score: with a stage-3 strategy
    configured and a stage-2 backend table without a [top1_score] column,
    [run] returns (it raises nothing), the only backend it has called is
    that of stage 2, and the table is the concatenation of the stage-1 and
    the stage-2 table. *)
Theorem degraded_without_top1_score (self : OntoMapEngine) (s3 : strategy) :
  s3_strategy self = Some s3 →
  non_exact_matches_ls self ≠ [] →
  "top1_score" ∉ mt_columns (s2_match_results self) →
  run_traced self
  = ([stage_model self (s2_strategy self) (non_exact_matches_ls self)],
     pd_concat [exact_df self; s2_res self])
  ∧ rows (run self) = rows (exact_df self) ++ rows (s2_res self).
Proof.
  intros Hs3 Hne Hcol.
  assert ("top1_score" ∉ columns (s2_res self)) as Hcol'.
  { unfold s2_res. by rewrite top1_score_in_stage_res. }
  assert (run_traced self
          = ([stage_model self (s2_strategy self) (non_exact_matches_ls self)],
             pd_concat [exact_df self; s2_res self])) as Hrun.
  { unfold run_traced. rewrite decide_False by done. rewrite Hs3.
    by rewrite decide_False by done. }
  split; [done|]. unfold run. rewrite Hrun. apply rows_pd_concat2.
Qed.

Lemma stage_res_kept (self : OntoMapEngine) (stage : Z) (s : strategy)
    (qs : list string) (q : string) :
  q ∈ qs →
  kept_by_merge (stage_res self stage s qs) (stage_match_results self s qs)
    q (_map_shortname_to_fullname qs !!! q).
Proof.
  intros Hq. split; [by apply rows_stage_res_cover|].
  intros Hnone.
  exists (tag_row self stage
            (replace_row q (_map_shortname_to_fullname qs !!! q))).
  split_and!.
  - rewrite rows_stage_res, list_elem_of_bind. exists q. split; [|done].
    rewrite stage_rows_for_dropped by done. left.
  - rewrite tag_row_other by done. apply replace_row_original_value.
  - rewrite tag_row_other by done. apply replace_row_updated_value.
  - intros c. rewrite !elem_of_cons, elem_of_nil. intros Hc.
    rewrite tag_row_other by tauto. apply replace_row_other; tauto.
Qed.

(** C7. Left-join preservation: in stage 2 and in stage 3, every query
    handed to the stage has a row in the table of the stage, under its
    [original_value]; when the backend returned no row for its expansion,
    it has a row whose backend columns are null. *)
Theorem left_join_keeps_queries (self : OntoMapEngine) :
  (∀ q, q ∈ non_exact_matches_ls self →
     kept_by_merge (s2_res self) (s2_match_results self) q
       (_map_shortname_to_fullname (non_exact_matches_ls self) !!! q)) ∧
  (∀ s3 q, q ∈ queries_for_s3 self →
     kept_by_merge (s3_res self s3) (s3_match_results self s3) q
       (_map_shortname_to_fullname (queries_for_s3 self) !!! q)).
Proof.
  split.
  - intros q Hq. by apply stage_res_kept.
  - intros s3 q Hq. by apply stage_res_kept.
Qed.

(** C1, amended. Coverage: the strings in the [original_value] column of
    the table [run] returns are those of the query list; an exact match
    occurs there as often as in the query list; and when each backend
    returns at most one row per query string, the column is, up to order,
    the exact matches followed by each distinct other query once. *)
Theorem coverage_up_to_duplicates (self : OntoMapEngine) :
  (∀ c, c ∈ original_values (run self) ↔
        ∃ q, c = Some (Str q) ∧ q ∈ query self) ∧
  (∀ q, q ∈ _exact_matching self →
        occurrences (Some (Str q)) (original_values (run self))
        = occurrences q (query self)) ∧
  (keys_distinct (s2_match_results self) →
   (∀ s3, s3_strategy self = Some s3 →
          keys_distinct (s3_match_results self s3)) →
   original_values (run self)
   ≡ₚ (λ q, Some (Str q))
        <$> (_exact_matching self ++ non_exact_matches_ls self)).
Proof.
  destruct (run_rows_split self) as (rest & Hrows & Hrest & Hperm).
  assert (original_values (run self)
          = ((λ q, Some (Str q)) <$> _exact_matching self)
            ++ ((λ q, Some (Str q)) <$> (row_original_value <$> rest)))
    as Hovs.
  { unfold original_values. rewrite Hrows, fmap_app, rows_exact_df.
    rewrite <- !list_fmap_compose. f_equal.
    - apply list_fmap_ext. intros _ q _. simpl.
      apply exact_row_original_value.
    - apply list_fmap_ext. intros i r Hr. simpl.
      apply list_elem_of_lookup_2 in Hr.
      destruct (Hrest r Hr) as (q & _ & Hov & _).
      by rewrite (row_original_value_eq r q). }
  split_and!.
  - intros c. split.
    + unfold original_values. intros (r & -> & Hr)%list_elem_of_fmap.
      destruct (run_row_stage self r Hr) as (q & Hq & Hov & _). eauto.
    + intros (q & -> & Hq).
      destruct (run_covers_queries self q Hq) as (r & Hr & <-).
      unfold original_values.
      by apply (list_elem_of_fmap_2 (λ r : row, r !! "original_value")).
  - intros q Hq. rewrite Hovs, occurrences_app.
    rewrite !(occurrences_fmap_inj (λ q, Some (Str q))).
    rewrite (occurrences_not_elem q (row_original_value <$> rest)).
    + rewrite Nat.add_0_r. unfold _exact_matching.
      apply elem_of_exact_matching in Hq as [_ (c & Hc & Hnorm)].
      apply (occurrences_filter
               (λ q, PyStr.lower (PyStr.strip q)
                     ∈ (λ c, PyStr.lower (PyStr.strip c)) <$> corpus self)).
      apply list_elem_of_fmap. eauto.
    + intros (r & -> & Hr)%list_elem_of_fmap.
      destruct (Hrest r Hr) as (q & Hq' & Hov & _).
      rewrite (row_original_value_eq r q Hov) in Hq.
      apply elem_of_non_exact in Hq' as [_ []]. done.
  - intros Hk2 Hk3. rewrite Hovs, fmap_app.
    by rewrite (Hperm Hk2 Hk3).
Qed.

(** C10, amended. The queries handed to stage 2 are the distinct
    non-exact queries, each once, in ascending order; and when each backend
    returns at most one row per query string, the stage-2 and stage-3 rows
    of the table [run] returns have pairwise distinct [original_value]. *)
Theorem remaining_queries_sorted_distinct (self : OntoMapEngine) :
  StronglySorted PyStr.lt (non_exact_matches_ls self) ∧
  NoDup (non_exact_matches_ls self) ∧
  (∀ q, q ∈ non_exact_matches_ls self ↔
        q ∈ query self ∧ q ∉ _exact_matching self) ∧
  (keys_distinct (s2_match_results self) →
   (∀ s3, s3_strategy self = Some s3 →
          keys_distinct (s3_match_results self s3)) →
   NoDup (row_original_value <$> matcher_rows (run self))).
Proof.
  assert (StronglySorted PyStr.lt (non_exact_matches_ls self)) as Hsorted
    by apply np_setdiff1d_sorted.
  split_and!; [done|by apply sorted_lt_NoDup|apply elem_of_non_exact|].
  intros Hk2 Hk3.
  destruct (run_rows_split self) as (rest & Hrows & Hrest & Hperm).
  assert (matcher_rows (run self) = rest) as ->.
  { unfold matcher_rows. rewrite Hrows, filter_app.
    rewrite filter_none, filter_all; [done| |].
    - intros r Hr. destruct (Hrest r Hr) as (q & _ & _ & Hst). done.
    - intros r (q & _ & ->)%elem_of_rows_exact_df.
      rewrite exact_row_stage. by intros [|]. }
  rewrite (Hperm Hk2 Hk3). by apply sorted_lt_NoDup.
Qed.

Lemma Qlt_bool_true (x y : Q) : Qlt_bool x y = true ↔ (x < y)%Q.
Proof.
  unfold Qlt_bool. rewrite negb_true_iff. split.
  - intros Hle. apply Qnot_le_lt. intros Hyx.
    apply Qle_bool_iff in Hyx. congruence.
  - intros Hlt. apply not_true_is_false. intros Hyx.
    apply Qle_bool_iff in Hyx. by apply Qlt_not_le in Hlt.
Qed.

(** C2, amended. Escalation: with a stage-3 strategy configured and a
    [top1_score] column in the stage-2 table, a stage-2 row whose coerced
    score is below the threshold is not in the table [run] returns, which
    has a stage-3 row with its [original_value]; a stage-2 row whose
    coerced score reaches the threshold is in that table exactly when no
    low-scoring stage-2 row shares its [original_value], which is so
    whenever the stage-2 backend returns at most one row per query
    string. *)
Theorem escalation_by_original_value (self : OntoMapEngine) (s3 : strategy)
    (r : row) :
  s3_strategy self = Some s3 →
  "top1_score" ∈ columns (s2_res self) →
  r ∈ rows (s2_res self) →
  (Qlt (coerced_score r) (s3_threshold self) →
   (r ∉ rows (run self)) ∧
   ∃ r3, r3 ∈ rows (run self) ∧
         r3 !! "original_value" = r !! "original_value" ∧
         r3 !! "stage" = Some (Int 3)) ∧
  (Qle (s3_threshold self) (coerced_score r) →
   (r ∈ rows (run self) ↔ row_original_value r ∉ queries_for_s3 self) ∧
   (keys_distinct (s2_match_results self) → r ∈ rows (run self))).
Proof.
  intros Hs3 Hcol Hr.
  destruct (elem_of_rows_s2_res self r Hr) as (q & Hq & Hov & Hst).
  pose proof (row_original_value_eq r q Hov) as Hrov.
  assert (non_exact_matches_ls self ≠ []) as Hne
    by (intros Hnil; rewrite Hnil in Hq; by apply elem_of_nil in Hq).
  assert (r ∉ rows (exact_df self)) as Hnot1.
  { intros (q' & _ & ->)%elem_of_rows_exact_df.
    by rewrite exact_row_stage in Hst. }
  assert (r ∉ rows (s3_res self s3)) as Hnot3.
  { intros (q' & _ & _ & Hst')%elem_of_rows_s3_res. congruence. }
  assert (queries_for_s3 self ≠ [] →
          rows (run self) = rows (exact_df self)
                            ++ rows (s2_res_filtered self)
                            ++ rows (s3_res self s3)) as Hrun3.
  { intros Hq3. unfold run, run_traced.
    rewrite decide_False by done. rewrite Hs3.
    rewrite decide_True by done. rewrite decide_False by done.
    apply rows_pd_concat3. }
  assert (queries_for_s3 self = [] →
          rows (run self) = rows (exact_df self) ++ rows (s2_res self))
    as Hrun2.
  { intros Hq3. unfold run, run_traced.
    rewrite decide_False by done. rewrite Hs3.
    rewrite decide_True by done. rewrite decide_True by done.
    apply rows_pd_concat2. }
  split.
  - intros Hlow.
    assert (q ∈ queries_for_s3 self) as Hq3.
    { apply elem_of_queries_for_s3. exists r. split_and!; [done| |done].
      by apply Qlt_bool_true. }
    assert (queries_for_s3 self ≠ []) as Hne3
      by (intros Hnil; rewrite Hnil in Hq3; by apply elem_of_nil in Hq3).
    rewrite (Hrun3 Hne3). split.
    + rewrite !elem_of_app, elem_of_rows_s2_res_filtered, Hrov. tauto.
    + destruct (rows_stage_res_cover self 3 s3 _ q Hq3) as (r3 & Hr3 & Hov3).
      exists r3. rewrite !elem_of_app. split_and!; [by auto|congruence|].
      by destruct (elem_of_rows_s3_res self s3 r3 Hr3) as (? & _ & _ & ?).
  - intros Hhigh.
    assert (r ∈ rows (run self) ↔ row_original_value r ∉ queries_for_s3 self)
      as Hiff.
    { destruct (decide (queries_for_s3 self = [])) as [Hnil|Hne3].
      - rewrite (Hrun2 Hnil), Hnil, elem_of_app, elem_of_nil. tauto.
      - rewrite (Hrun3 Hne3), !elem_of_app, elem_of_rows_s2_res_filtered.
        tauto. }
    split; [done|]. intros Hk2. apply Hiff.
    rewrite elem_of_queries_for_s3. intros (r' & Hr' & Hlow & Heq).
    assert (r' = r) as ->.
    { apply (NoDup_fmap_eq row_original_value (rows (s2_res self)));
        [|done..].
      unfold s2_res. rewrite original_values_stage_res by done.
      apply sorted_lt_NoDup, np_setdiff1d_sorted. }
    apply Qlt_bool_true in Hlow. by apply Qlt_not_le in Hlow.
Qed.

End CascadeClaims.

(** ** The abbreviation resolver *)

Section Resolver.

Context `{Externals}.

Lemma short_to_name_lookup (table : list (string * string)) (k : string) :
  read_abbr_csv = Some table →
  short_to_name !! k = dict_get (abbr_dict table) k.
Proof.
  unfold short_to_name, abbr_dict. intros ->.
  induction table as [|cn table IH] using rev_ind; [done|].
  rewrite foldl_snoc, fmap_app, reverse_app. simpl.
  rewrite lookup_insert. by repeat case_decide.
Qed.

Lemma short_to_name_not_found (k : string) :
  read_abbr_csv = None → short_to_name !! k = None.
Proof. unfold short_to_name. by intros ->. Qed.

Lemma map_shortname_lookup (l : list string) (q : string) :
  _map_shortname_to_fullname l !! q
  = if decide (q ∈ l)
    then Some (default (PyStr.strip q) (short_to_name !! PyStr.strip q))
    else None.
Proof.
  unfold _map_shortname_to_fullname.
  induction l as [|x l IH] using rev_ind.
  - rewrite decide_False by apply not_elem_of_nil. done.
  - rewrite foldl_snoc, lookup_insert, IH.
    destruct (decide (x = q)) as [->|Hne].
    + rewrite decide_True; [done|]. rewrite elem_of_app, list_elem_of_singleton.
      auto.
    + destruct (decide (q ∈ l)) as [Hq|Hq].
      * rewrite decide_True; [done|]. rewrite elem_of_app. auto.
      * rewrite decide_False; [done|].
        rewrite elem_of_app, list_elem_of_singleton. intros [|]; congruence.
Qed.

(** With the file not found, or read with text in every cell, the resolver
    returns a mapping whose keys are the given strings; each given string
    maps to the display name the table has for its stripped form, and to its
    stripped form when the table has none or the file is not found. *)
Lemma resolver_maps_stripped (l : list string) :
  dom (_map_shortname_to_fullname l) = list_to_set l ∧
  ∀ q, q ∈ l →
    (∀ table name,
       read_abbr_csv = Some table →
       dict_get (abbr_dict table) (PyStr.strip q) = Some name →
       _map_shortname_to_fullname l !! q = Some name) ∧
    (∀ table,
       read_abbr_csv = Some table →
       dict_get (abbr_dict table) (PyStr.strip q) = None →
       _map_shortname_to_fullname l !! q = Some (PyStr.strip q)) ∧
    (read_abbr_csv = None →
     _map_shortname_to_fullname l !! q = Some (PyStr.strip q)).
Proof.
  split.
  - apply set_eq. intros q. rewrite elem_of_dom, elem_of_list_to_set.
    rewrite map_shortname_lookup. case_decide; [by eauto|].
    split; [by intros [? ?]|done].
  - intros q Hq. rewrite map_shortname_lookup, decide_True by done.
    split_and!.
    + intros table name Htable Hname.
      by rewrite (short_to_name_lookup table), Hname.
    + intros table Htable Hname.
      by rewrite (short_to_name_lookup table), Hname.
    + intros Hnone. by rewrite short_to_name_not_found.
Qed.

End Resolver.

(** ** The corpus normalizer *)

Lemma take_digits_idem (s : string) :
  PyStr.take_digits (PyStr.take_digits s) = PyStr.take_digits s.
Proof.
  induction s as [|a s IH]; simpl; [done|].
  destruct (PyStr.is_digit a) eqn:Ha; simpl; [|done]. by rewrite Ha, IH.
Qed.

Lemma take_digits_prefix (s : string) :
  ∃ rest, s = PyStr.take_digits s +:+ rest.
Proof.
  induction s as [|a s [rest IH]]; simpl; [by exists ""|].
  destruct (PyStr.is_digit a).
  - exists rest. by rewrite append_cons, <- IH.
  - by exists (String a s).
Qed.

Lemma search_code_shaped (s code : string) :
  PyStr.search_code s = Some code →
  code_shaped code ∧ ∃ pre post, s = pre +:+ code +:+ post.
Proof.
  induction s as [|a s IH]; simpl; [done|].
  assert (PyStr.search_code s = Some code →
          code_shaped code ∧
          ∃ pre post, String a s = pre +:+ code +:+ post) as Hrec.
  { intros Hs. destruct (IH Hs) as [Hc (pre & post & ->)].
    split; [done|]. by exists (String a pre), post. }
  destruct (Ascii.eqb a "C") eqn:Ha; [|done].
  apply Ascii.eqb_eq in Ha as ->.
  destruct (PyStr.take_digits s) as [|d ds] eqn:Hd; [done|].
  intros [= <-]. split.
  - exists (String d ds). split_and!; [done..|].
    rewrite <- Hd. apply take_digits_idem.
  - destruct (take_digits_prefix s) as [rest Hrest]. rewrite Hd in Hrest.
    exists "", rest. rewrite append_nil_l, append_cons. by rewrite <- Hrest.
Qed.

Lemma cell_eqb_refl (c : cell) : cell_eqb c c = true.
Proof.
  destruct c; simpl; try by apply bool_decide_eq_true.
  apply Qeq_bool_iff. reflexivity.
Qed.

Lemma same_key_refl (subset : list string) (r : row) :
  same_key subset r r = true.
Proof.
  unfold same_key. apply forallb_forall. intros c _.
  destruct (r !! c); [apply cell_eqb_refl|done].
Qed.

Lemma first_of_each_key_snoc (subset : list string) (l : list row)
    (r : row) :
  first_of_each_key subset (l ++ [r])
  = if existsb (same_key subset r) (first_of_each_key subset l)
    then first_of_each_key subset l
    else first_of_each_key subset l ++ [r].
Proof. unfold first_of_each_key. by rewrite foldl_snoc. Qed.

Lemma first_of_each_key_subset (subset : list string) (l : list row)
    (r : row) :
  r ∈ first_of_each_key subset l → r ∈ l.
Proof.
  induction l as [|x l IH] using rev_ind; [done|].
  rewrite first_of_each_key_snoc, elem_of_app, list_elem_of_singleton.
  destruct (existsb _ _); [by auto|].
  rewrite elem_of_app, list_elem_of_singleton. intros [|]; auto.
Qed.

Lemma first_of_each_key_represents (subset : list string) (l : list row)
    (r : row) :
  r ∈ l →
  ∃ k, k ∈ first_of_each_key subset l ∧ same_key subset r k = true.
Proof.
  induction l as [|x l IH] using rev_ind; [by rewrite elem_of_nil|].
  rewrite first_of_each_key_snoc, elem_of_app, list_elem_of_singleton.
  intros [Hr| ->].
  - destruct (IH Hr) as (k & Hk & Hsame). exists k. split; [|done].
    destruct (existsb _ _); [done|]. rewrite elem_of_app. auto.
  - destruct (existsb _ _) eqn:Hex.
    + apply existsb_exists in Hex as (k & Hk & Hsame).
      exists k. split; [by apply list_elem_of_In|done].
    + exists x. split; [|apply same_key_refl].
      rewrite elem_of_app, list_elem_of_singleton. auto.
Qed.

Lemma same_key_lookup_str (subset : list string) (r k : row)
    (c s : string) :
  same_key subset r k = true → c ∈ subset → r !! c = Some (Str s) →
  k !! c = Some (Str s).
Proof.
  unfold same_key. intros Hall Hc Hr.
  rewrite forallb_forall in Hall. apply list_elem_of_In in Hc.
  specialize (Hall c Hc). rewrite Hr in Hall.
  destruct (k !! c) as [[t| |]|]; try done.
  apply bool_decide_eq_true in Hall. by subst.
Qed.

Lemma elem_of_rows_dropna (subset : list string) (df : DataFrame) (r : row) :
  r ∈ rows (dropna subset df) ↔
  r ∈ rows df ∧ ∀ c, c ∈ subset → is_Some (r !! c).
Proof.
  unfold dropna. simpl. rewrite list_elem_of_filter.
  rewrite Is_true_true, forallb_forall. split; intros [Hall Hr]; split; try done.
  - intros c Hc. apply list_elem_of_In in Hc.
    by apply Hall, bool_decide_eq_true in Hc.
  - intros c Hc. apply bool_decide_eq_true, Hr. by apply list_elem_of_In.
Qed.

Section Normalizer.

Context `{Externals}.

Lemma label_fallback_ok (df df1 : DataFrame) :
  label_fallback df = Ok df1 →
  "official_label" ∈ columns df1 ∧
  (∀ c, c ≠ "official_label" → c ∈ columns df1 ↔ c ∈ columns df) ∧
  ∃ f : row → row,
    rows df1 = f <$> rows df ∧
    (∀ r c, c ≠ "official_label" → f r !! c = r !! c) ∧
    (∀ r, f r !! "official_label"
          = r !! (if decide ("official_label" ∈ columns df)
                  then "official_label" else "label")).
Proof.
  unfold label_fallback.
  destruct (decide ("official_label" ∈ columns df)) as [Hol|Hol].
  - intros [= <-]. split_and!; [done..|].
    exists id. by rewrite list_fmap_id.
  - destruct (decide ("label" ∈ columns df)) as [Hl|Hl]; [|done].
    intros [= <-]. split_and!.
    + apply columns_df_assign. by left.
    + intros c Hc. rewrite columns_df_assign. tauto.
    + exists (λ r, partial_alter (λ _, r !! "label") "official_label" r).
      split_and!; [done| |].
      * intros r c Hc. by rewrite lookup_partial_alter_ne.
      * intros r. by rewrite lookup_partial_alter_eq.
Qed.

Lemma label_fallback_total (df : DataFrame) :
  "official_label" ∈ columns df ∨ "label" ∈ columns df →
  ∃ df1, label_fallback df = Ok df1.
Proof.
  unfold label_fallback. intros Hsrc. repeat case_decide; eauto. tauto.
Qed.

Lemma basic_cleaning_rows (df : DataFrame) :
  "clean_code" ∈ columns df →
  rows (basic_cleaning df true)
  = (λ r, partial_alter
            (λ _, Some (Str (astype_str
               (partial_alter
                  (λ _, Some (Str (astype_str (r !! "official_label"))))
                  "official_label" r !! "clean_code"))))
            "clean_code"
            (partial_alter
               (λ _, Some (Str (astype_str (r !! "official_label"))))
               "official_label" r))
    <$> first_of_each_key ["official_label"; "clean_code"]
          (rows (dropna ["official_label"; "clean_code"] df)).
Proof.
  intros Hcc. unfold basic_cleaning.
  rewrite decide_True.
  - unfold df_assign. cbn [rows drop_duplicates].
    by rewrite <- list_fmap_compose.
  - apply columns_df_assign. right. done.
Qed.

Lemma basic_cleaning_columns (df : DataFrame) (need_code : bool) (c : string) :
  "official_label" ∈ columns df →
  c ∈ columns (basic_cleaning df need_code) ↔ c ∈ columns df.
Proof.
  intros Hol. unfold basic_cleaning.
  case_decide as Hcc; rewrite ?columns_df_assign; cbn [columns drop_duplicates dropna].
  - rewrite columns_df_assign in Hcc. cbn [columns drop_duplicates dropna] in Hcc.
    split; [|tauto]. intros [->|[->|]]; [|done..].
    destruct Hcc as [|]; done.
  - split; [|tauto]. intros [->|]; done.
Qed.

(** *** When a second pass changes nothing *)

Lemma assign_text_id (c : string) (r : row) (s : string) :
  r !! c = Some (Str s) →
  partial_alter (λ _, Some (Str (astype_str (r !! c)))) c r = r.
Proof.
  intros Hc. apply map_eq. intros j. rewrite lookup_partial_alter.
  case_decide as Hj; [|done]. subst j. by rewrite Hc.
Qed.

Lemma df_assign_text_id (c : string) (df : DataFrame) :
  c ∈ columns df →
  (∀ r, r ∈ rows df → ∃ s, r !! c = Some (Str s)) →
  df_assign c (λ r, Some (Str (astype_str (r !! c)))) df = df.
Proof.
  intros Hc Htext. destruct df as [cols l]. unfold df_assign.
  cbn [columns rows] in *.
  rewrite decide_True by done. f_equal.
  induction l as [|r l IH]; [done|]. rewrite fmap_cons. f_equal.
  - destruct (Htext r) as [s Hs]; [left|]. by eapply assign_text_id.
  - apply IH. intros r' Hr'. apply Htext. by right.
Qed.

Lemma dropna_id (subset : list string) (df : DataFrame) :
  (∀ r c, r ∈ rows df → c ∈ subset → is_Some (r !! c)) →
  dropna subset df = df.
Proof.
  intros Hall. destruct df as [cols l]. unfold dropna.
  cbn [columns rows] in *. f_equal. apply filter_all. intros r Hr.
  apply Is_true_true, forallb_forall. intros c Hc.
  apply bool_decide_eq_true, Hall; [done|]. by apply list_elem_of_In.
Qed.

(** The rows [basic_cleaning] returns hold text in [official_label], and in
    [clean_code] when the table has that column. *)
Lemma basic_cleaning_text (df : DataFrame) (need_code : bool) (r : row) :
  r ∈ rows (basic_cleaning df need_code) →
  (∃ s, r !! "official_label" = Some (Str s)) ∧
  ("clean_code" ∈ columns df → ∃ s, r !! "clean_code" = Some (Str s)).
Proof.
  unfold basic_cleaning. case_decide as Hcc.
  - unfold df_assign at 1. cbn [rows].
    intros (r0 & -> & Hr0)%list_elem_of_fmap.
    unfold df_assign in Hr0. cbn [rows] in Hr0.
    apply list_elem_of_fmap in Hr0 as (r1 & -> & _).
    rewrite lookup_partial_alter_ne by done.
    rewrite !lookup_partial_alter_eq. eauto.
  - unfold df_assign. cbn [rows].
    intros (r0 & -> & _)%list_elem_of_fmap.
    rewrite lookup_partial_alter_eq. split; [by eauto|].
    intros Hin. exfalso. apply Hcc. apply columns_df_assign. by right.
Qed.

Lemma basic_cleaning_columns_eq (df : DataFrame) (need_code : bool) :
  "official_label" ∈ columns df →
  columns (basic_cleaning df need_code) = columns df.
Proof.
  intros Hol. unfold basic_cleaning.
  assert (columns
            (df_assign "official_label"
               (λ r, Some (Str (astype_str (r !! "official_label"))))
               (drop_duplicates
                  ("official_label"
                   :: (if need_code then ["clean_code"] else []))
                  (dropna
                     ("official_label"
                      :: (if need_code then ["clean_code"] else [])) df)))
          = columns df) as Hfirst.
  { unfold df_assign. cbn [columns drop_duplicates dropna].
    by rewrite decide_True by done. }
  case_decide as Hcc; [|done].
  unfold df_assign at 1. cbn [columns].
  by rewrite decide_True by done.
Qed.

(** A second pass of the normalizer returns its input when the first pass
    left no two rows with the same key. *)
Lemma normalize_df_again (df df1 : DataFrame) (need_code : bool) :
  _normalize_df df need_code = Ok df1 →
  first_of_each_key
    ("official_label" :: (if need_code then ["clean_code"] else []))
    (rows df1) = rows df1 →
  _normalize_df df1 need_code = Ok df1.
Proof.
  unfold _normalize_df at 1.
  destruct (label_fallback df) as [dfa|] eqn:Hlf; [|done].
  destruct (code_fallback dfa need_code) as [dfb|] eqn:Hcf; [|done].
  intros [= <-] Hkeys.
  destruct (label_fallback_ok df dfa Hlf) as (Hola & _).
  assert ("official_label" ∈ columns dfb
          ∧ (need_code = true → "clean_code" ∈ columns dfb)) as [Holb Hccb].
  { unfold code_fallback in Hcf. destruct need_code.
    - destruct (decide ("clean_code" ∈ columns dfa)) as [Hcc|Hcc].
      + injection Hcf as <-. done.
      + destruct (decide ("obo_id" ∈ columns dfa)); [|done].
        injection Hcf as <-. split.
        * apply columns_df_assign. by right.
        * intros _. apply columns_df_assign. by left.
    - injection Hcf as <-. done. }
  set (df1 := basic_cleaning dfb need_code) in *.
  assert (columns df1 = columns dfb) as Hcols
    by (by apply basic_cleaning_columns_eq).
  assert (∀ r, r ∈ rows df1 → ∃ s, r !! "official_label" = Some (Str s))
    as Htext_ol.
  { intros r Hr. by apply (basic_cleaning_text dfb need_code r). }
  assert ("clean_code" ∈ columns df1 →
          ∀ r, r ∈ rows df1 → ∃ s, r !! "clean_code" = Some (Str s))
    as Htext_cc.
  { rewrite Hcols. intros Hcc r Hr.
    by apply (basic_cleaning_text dfb need_code r). }
  unfold _normalize_df, label_fallback.
  rewrite decide_True by (by rewrite Hcols).
  assert (code_fallback df1 need_code = Ok df1) as ->.
  { unfold code_fallback. destruct need_code; [|done].
    rewrite decide_True; [done|]. rewrite Hcols. by apply Hccb. }
  f_equal. unfold basic_cleaning.
  rewrite dropna_id.
  - assert (drop_duplicates
              ("official_label" :: (if need_code then ["clean_code"] else []))
              df1 = df1) as ->.
    { unfold drop_duplicates. rewrite Hkeys. by destruct df1. }
    rewrite df_assign_text_id; [|by rewrite Hcols|done].
    case_decide as Hcc; [|done]. by apply df_assign_text_id; auto.
  - intros r c Hr. destruct need_code.
    + rewrite !elem_of_cons, elem_of_nil. intros [->|[->|[]]].
      * destruct (Htext_ol r Hr) as [s ->]. done.
      * destruct (Htext_cc ltac:(rewrite Hcols; by apply Hccb) r Hr)
          as [s ->]. done.
    + rewrite elem_of_cons, elem_of_nil. intros [->|[]].
      destruct (Htext_ol r Hr) as [s ->]. done.
Qed.

Lemma same_key_ext (subset : list string) (r1 r1' r2 r2' : row) :
  (∀ c, c ∈ subset → r1' !! c = r1 !! c) →
  (∀ c, c ∈ subset → r2' !! c = r2 !! c) →
  same_key subset r1' r2' = same_key subset r1 r2.
Proof.
  intros H1 H2. unfold same_key.
  induction subset as [|c subset IH]; [done|]. simpl.
  rewrite H1, H2 by left. f_equal.
  apply IH; intros c' Hc'; [apply H1|apply H2]; by right.
Qed.

Lemma existsb_same_key_fmap (subset : list string) (g : row → row)
    (r : row) (l : list row) :
  (∀ c, c ∈ subset → g r !! c = r !! c) →
  (∀ k c, k ∈ l → c ∈ subset → g k !! c = k !! c) →
  existsb (same_key subset (g r)) (g <$> l) = existsb (same_key subset r) l.
Proof.
  intros Hr Hl. induction l as [|k l IH]; [done|].
  rewrite fmap_cons. simpl. rewrite IH.
  - f_equal. apply same_key_ext; [done|]. intros c Hc. apply Hl; [left|done].
  - intros k' c Hk' Hc. apply Hl; [by right|done].
Qed.

Lemma first_of_each_key_fmap (subset : list string) (g : row → row)
    (l : list row) :
  (∀ r c, r ∈ l → c ∈ subset → g r !! c = r !! c) →
  first_of_each_key subset (g <$> l) = g <$> first_of_each_key subset l.
Proof.
  induction l as [|r l IH] using rev_ind; intros Hg; [done|].
  rewrite fmap_app. simpl.
  rewrite !first_of_each_key_snoc, IH.
  - rewrite existsb_same_key_fmap.
    + destruct (existsb _ _); [done|]. by rewrite fmap_app.
    + intros c Hc. apply Hg; [|done].
      rewrite elem_of_app, list_elem_of_singleton. auto.
    + intros k c Hk Hc. apply Hg; [|done].
      apply first_of_each_key_subset in Hk. rewrite elem_of_app. auto.
  - intros k c Hk Hc. apply Hg; [|done]. rewrite elem_of_app. auto.
Qed.

Lemma first_of_each_key_idem (subset : list string) (l : list row) :
  first_of_each_key subset (first_of_each_key subset l)
  = first_of_each_key subset l.
Proof.
  induction l as [|r l IH] using rev_ind; [done|].
  rewrite first_of_each_key_snoc.
  destruct (existsb _ _) eqn:Hex; [done|].
  by rewrite first_of_each_key_snoc, IH, Hex.
Qed.

(** The normalizer is idempotent on a table whose label and code columns
    hold text. *)
Lemma normalize_df_idempotent_on_text (df df1 : DataFrame)
    (need_code : bool) :
  (∀ r c, r ∈ rows df → c ∈ ["official_label"; "label"; "clean_code"] →
          text_or_null (r !! c)) →
  _normalize_df df need_code = Ok df1 →
  _normalize_df df1 need_code = Ok df1.
Proof.
  intros Htext Hnorm. apply (normalize_df_again df); [done|].
  unfold _normalize_df in Hnorm.
  destruct (label_fallback df) as [dfa|] eqn:Hlf; [|done].
  destruct (code_fallback dfa need_code) as [dfb|] eqn:Hcf; [|done].
  injection Hnorm as <-.
  destruct (label_fallback_ok df dfa Hlf)
    as (Hola & _ & f & Hrowsa & Hother & Hlabel).
  set (keep := "official_label" :: (if need_code then ["clean_code"] else [])).
  (* the key cells before cleaning are null or text *)
  assert (∀ r c, r ∈ rows dfb → c ∈ ["official_label"; "clean_code"] →
                 text_or_null (r !! c)) as Htextb.
  { assert (∀ r c, r ∈ rows dfa → c ∈ ["official_label"; "clean_code"] →
                   text_or_null (r !! c)) as Htexta.
    { intros r c. rewrite Hrowsa.
      intros (r0 & -> & Hr0)%list_elem_of_fmap.
      rewrite !elem_of_cons, elem_of_nil. intros [->|[->|[]]].
      - rewrite Hlabel. apply Htext; [done|]. case_decide; set_solver.
      - rewrite Hother by done. apply Htext; [done|]. set_solver. }
    unfold code_fallback in Hcf. destruct need_code.
    - destruct (decide ("clean_code" ∈ columns dfa)).
      + by injection Hcf as <-.
      + destruct (decide ("obo_id" ∈ columns dfa)); [|done].
        injection Hcf as <-. intros r c. unfold df_assign. cbn [rows].
        intros (r0 & -> & Hr0)%list_elem_of_fmap.
        rewrite !elem_of_cons, elem_of_nil. intros [->|[->|[]]].
        * rewrite lookup_partial_alter_ne by done. apply Htexta; set_solver.
        * rewrite lookup_partial_alter_eq. unfold extract_code, text_or_null.
          destruct (PyStr.search_code _); simpl; eauto.
    - by injection Hcf as <-. }
  assert (keep ⊆ ["official_label"; "clean_code"]) as Hkeep.
  { unfold keep. destruct need_code; set_solver. }
  (* the rows that are cleaned hold text in their key cells *)
  assert (∀ r c, r ∈ first_of_each_key keep (rows (dropna keep dfb)) →
                 c ∈ keep → ∃ s, r !! c = Some (Str s)) as Hkept.
  { intros r c Hr Hc.
    apply first_of_each_key_subset, elem_of_rows_dropna in Hr as [Hr Hnn].
    destruct (Htextb r c Hr (Hkeep c Hc)) as [Hnone|Hs]; [|done].
    destruct (Hnn c Hc) as [x Hx]. congruence. }
  unfold basic_cleaning. fold keep.
  set (d := df_assign "official_label" _
              (drop_duplicates keep (dropna keep dfb))).
  assert (rows d
          = (λ r, partial_alter
                    (λ _, Some (Str (astype_str (r !! "official_label"))))
                    "official_label" r)
            <$> first_of_each_key keep (rows (dropna keep dfb))) as Hd
    by done.
  destruct (decide ("clean_code" ∈ columns d)) as [Hcc|Hcc].
  - assert (rows (df_assign "clean_code"
                     (λ r, Some (Str (astype_str (r !! "clean_code")))) d)
            = (λ r, partial_alter
                      (λ _, Some (Str (astype_str
                         (partial_alter
                            (λ _, Some (Str (astype_str
                                               (r !! "official_label"))))
                            "official_label" r !! "clean_code"))))
                      "clean_code"
                      (partial_alter
                         (λ _, Some (Str (astype_str (r !! "official_label"))))
                         "official_label" r))
              <$> first_of_each_key keep (rows (dropna keep dfb))) as ->.
    { unfold df_assign at 1. cbn [rows].
      by rewrite Hd, <- list_fmap_compose. }
    rewrite first_of_each_key_fmap; [by rewrite first_of_each_key_idem|].
    intros r c Hr Hc. destruct (Hkept r c Hr Hc) as [s Hs].
    destruct (decide (c = "clean_code")) as [->|Hne].
    + rewrite lookup_partial_alter_eq, lookup_partial_alter_ne by done.
      by rewrite Hs.
    + rewrite lookup_partial_alter_ne by done.
      assert (c = "official_label") as ->.
      { apply Hkeep in Hc. set_solver. }
      rewrite lookup_partial_alter_eq. by rewrite Hs.
  - rewrite Hd.
    rewrite first_of_each_key_fmap; [by rewrite first_of_each_key_idem|].
    intros r c Hr Hc. destruct (Hkept r c Hr Hc) as [s Hs].
    assert (c = "official_label") as ->.
    { unfold keep in Hc. destruct need_code; [|set_solver].
      exfalso. apply Hcc. unfold d. apply columns_df_assign. right.
      cbn [columns drop_duplicates dropna].
      unfold code_fallback in Hcf.
      destruct (decide ("clean_code" ∈ columns dfa)).
      + by injection Hcf as <-.
      + destruct (decide ("obo_id" ∈ columns dfa)); [|done].
        injection Hcf as <-. apply columns_df_assign. by left. }
    rewrite lookup_partial_alter_eq. by rewrite Hs.
Qed.

(** C9. Deriving [clean_code]: when a code is required and the table has
    no [clean_code] column, the normalizer fails with a [ValueError] if
    there is no [obo_id] column either; otherwise (a label column being
    there) it returns a table with a [clean_code] column in which every row
    comes from a row of the input and carries the code extracted from its
    [obo_id], a capital C followed by digits found in it; no row whose
    [obo_id] yields no code is left, and every code of a labelled row is
    there. *)
Theorem clean_code_from_obo_id (df : DataFrame) :
  "clean_code" ∉ columns df →
  ("obo_id" ∉ columns df →
   ∃ msg, _normalize_df df true = Raise (ValueError msg)) ∧
  ("obo_id" ∈ columns df →
   "official_label" ∈ columns df ∨ "label" ∈ columns df →
   ∃ df',
     _normalize_df df true = Ok df' ∧
     "clean_code" ∈ columns df' ∧
     (∀ r', r' ∈ rows df' →
        ∃ r code,
          r ∈ rows df ∧
          PyStr.search_code (astype_str (r !! "obo_id")) = Some code ∧
          r' !! "clean_code" = Some (Str code) ∧
          r' !! "obo_id" = r !! "obo_id" ∧
          code_shaped code ∧
          ∃ pre post, astype_str (r !! "obo_id") = pre +:+ code +:+ post) ∧
     (∀ r', r' ∈ rows df' →
        PyStr.search_code (astype_str (r' !! "obo_id")) ≠ None) ∧
     (∀ r code,
        r ∈ rows df →
        is_Some (r !! (if decide ("official_label" ∈ columns df)
                       then "official_label" else "label")) →
        PyStr.search_code (astype_str (r !! "obo_id")) = Some code →
        ∃ r', r' ∈ rows df' ∧ r' !! "clean_code" = Some (Str code))).
Proof.
  intros Hcc. split.
  - intros Hobo. unfold _normalize_df.
    destruct (label_fallback df) as [df1|[msg]] eqn:Hlf; [|by eauto].
    destruct (label_fallback_ok df df1 Hlf) as (_ & Hcols & _).
    unfold code_fallback.
    rewrite decide_False by (by rewrite Hcols).
    rewrite decide_False by (by rewrite Hcols). eauto.
  - intros Hobo Hsrc.
    destruct (label_fallback_total df Hsrc) as [df1 Hlf].
    destruct (label_fallback_ok df df1 Hlf)
      as (Hol1 & Hcols & f & Hrows & Hother & Hlabel).
    set (df2 := df_assign "clean_code" extract_code df1).
    assert (_normalize_df df true = Ok (basic_cleaning df2 true)) as Hnorm.
    { unfold _normalize_df. rewrite Hlf. unfold code_fallback.
      rewrite decide_False by (by rewrite Hcols).
      rewrite decide_True by (by rewrite Hcols). done. }
    assert ("clean_code" ∈ columns df2) as Hcc2
      by (apply columns_df_assign; by left).
    assert ("official_label" ∈ columns df2) as Hol2
      by (apply columns_df_assign; by right).
    (* the rows before cleaning *)
    assert (∀ k, k ∈ rows df2 ↔
                 ∃ r, r ∈ rows df ∧
                      k = partial_alter (λ _, extract_code (f r))
                            "clean_code" (f r)) as Hdf2.
    { intros k. unfold df2, df_assign. cbn [rows].
      rewrite Hrows, <- list_fmap_compose, list_elem_of_fmap.
      naive_solver. }
    assert (∀ r, extract_code (f r)
                 = Str <$> PyStr.search_code (astype_str (r !! "obo_id")))
      as Hextract.
    { intros r. unfold extract_code. by rewrite Hother. }
    exists (basic_cleaning df2 true). split_and!; [done| | | |].
    + by apply basic_cleaning_columns.
    + intros r'. rewrite basic_cleaning_rows by done.
      intros (k & -> & Hk)%list_elem_of_fmap.
      apply first_of_each_key_subset, elem_of_rows_dropna in Hk as [Hk Hnn].
      apply Hdf2 in Hk as (r & Hr & ->).
      destruct (Hnn "clean_code") as [c Hc]; [set_solver|].
      rewrite lookup_partial_alter_eq, Hextract in Hc.
      destruct (PyStr.search_code (astype_str (r !! "obo_id")))
        as [code|] eqn:Hcode; [|done].
      exists r, code. split_and!; [done..| | | |].
      * rewrite lookup_partial_alter_eq, lookup_partial_alter_ne by done.
        rewrite lookup_partial_alter_eq, Hextract, Hcode. done.
      * rewrite !lookup_partial_alter_ne by done. by apply Hother.
      * by apply (search_code_shaped _ _ Hcode).
      * by apply (search_code_shaped _ _ Hcode).
    + intros r'. rewrite basic_cleaning_rows by done.
      intros (k & -> & Hk)%list_elem_of_fmap.
      apply first_of_each_key_subset, elem_of_rows_dropna in Hk as [Hk Hnn].
      apply Hdf2 in Hk as (r & Hr & ->).
      destruct (Hnn "clean_code") as [c Hc]; [set_solver|].
      rewrite lookup_partial_alter_eq, Hextract in Hc.
      rewrite !lookup_partial_alter_ne by done. rewrite Hother by done.
      by destruct (PyStr.search_code (astype_str (r !! "obo_id"))).
    + intros r code Hr Hlab Hcode.
      set (k := partial_alter (λ _, extract_code (f r)) "clean_code" (f r)).
      assert (k !! "clean_code" = Some (Str code)) as Hkcc.
      { unfold k. by rewrite lookup_partial_alter_eq, Hextract, Hcode. }
      assert (k ∈ rows (dropna ["official_label"; "clean_code"] df2)) as Hk.
      { apply elem_of_rows_dropna. split; [apply Hdf2; by eauto|].
        intros c. rewrite !elem_of_cons, elem_of_nil. intros [->|[->|[]]].
        - unfold k. rewrite lookup_partial_alter_ne by done.
          by rewrite Hlabel.
        - by rewrite Hkcc. }
      destruct (first_of_each_key_represents
                  ["official_label"; "clean_code"] _ k Hk)
        as (k' & Hk' & Hsame).
      pose proof (same_key_lookup_str _ k k' "clean_code" code Hsame) as Hk'cc.
      eexists. split.
      * rewrite basic_cleaning_rows by done.
        apply list_elem_of_fmap_2. exact Hk'.
      * rewrite lookup_partial_alter_eq, lookup_partial_alter_ne by done.
        rewrite Hk'cc; [done|set_solver|done].
Qed.

End Normalizer.

(** ** The claims on concrete engines *)

Ltac by_compute := apply (bool_decide_unpack _); vm_compute; exact I.

Example strip_lung_cancer : PyStr.strip "  Lung Cancer  " = "Lung Cancer".
Proof. reflexivity. Qed.

Example lower_lung_cancer : PyStr.lower "Lung Cancer" = "lung cancer".
Proof. reflexivity. Qed.

Example search_code_ncit :
  PyStr.search_code "NCIT:C156482" = Some "C156482".
Proof. reflexivity. Qed.

Example setdiff1d_sorts_and_dedups :
  np_setdiff1d ["b"; "XYZ"; "a"; "b"; "XYZ"] ["a"] = ["XYZ"; "b"].
Proof. reflexivity. Qed.

Example top_score_1 : top_score 1 = "top1_score".
Proof. reflexivity. Qed.

(** [three_stage_engine] is what the constructor builds. *)
Example three_stage_engine_constructed :
  __init__ (H:=low_scores) "sap-bert" "disease" scenario_queries
    ["Lung Cancer"; "Breast Cancer"; "Lung Cancer"]
    [("Lung Cancer", "Lung Carcinoma")] 2 "lm" (Some "rag") 0.9
    (Some "test") None (Some clean_corpus_df)
  = Ok (three_stage_engine scenario_queries).
Proof. vm_compute. reflexivity. Qed.

Example two_stage_engine_constructed :
  __init__ (H:=low_scores) "sap-bert" "disease" scenario_queries
    ["Lung Cancer"; "Breast Cancer"; "Lung Cancer"]
    [("Lung Cancer", "Lung Carcinoma")] 2 "lm" None 0.9
    (Some "test") None None
  = Ok (two_stage_engine scenario_queries).
Proof. vm_compute. reflexivity. Qed.

(** The scenario of the specification: the score 0.4 is below 0.9, so XYZ
    ends in stage 3. *)
Example scenario_xyz_escalated :
  (λ r : row, (r !! "original_value", r !! "stage"))
    <$> rows (run (H:=low_scores) (three_stage_engine scenario_queries))
  = [ (Some (Str "Lung Cancer"), Some (Int 1));
      (Some (Str "lung cancer "), Some (Int 1));
      (Some (Str "XYZ"), Some (Int 3)) ].
Proof. by_compute. Qed.

(** C1, as stated, fails: the query list holds XYZ twice, the table once. *)
Lemma coverage_multiset_fails :
  ¬ (original_values
       (run (H:=high_scores) (two_stage_engine scenario_queries))
     ≡ₚ (λ q, Some (Str q)) <$> query (two_stage_engine scenario_queries)).
Proof.
  intros Hperm. apply Permutation_length in Hperm.
  vm_compute in Hperm. discriminate Hperm.
Qed.

Lemma coverage_up_to_duplicates_witness :
  keys_distinct
    (s2_match_results (H:=high_scores) (two_stage_engine scenario_queries))
  ∧ original_values
      (run (H:=high_scores) (two_stage_engine scenario_queries))
    ≡ₚ (λ q, Some (Str q)) <$> ["Lung Cancer"; "lung cancer "; "XYZ"].
Proof.
  assert (keys_distinct
            (s2_match_results (H:=high_scores)
               (two_stage_engine scenario_queries))) as Hk2
    by (unfold keys_distinct; by_compute).
  split; [exact Hk2|].
  apply (proj2 (proj2 (coverage_up_to_duplicates (H:=high_scores)
                         (two_stage_engine scenario_queries)))).
  - exact Hk2.
  - intros s3 Hs3. discriminate Hs3.
Defined.

(** C2, as stated, fails: the backend returns two rows for XYZ, one scored
    0.95 and one 0.4; the first reaches the threshold and is not in the
    table [run] returns. *)
Lemma high_score_row_not_retained :
  ¬ (∀ r, r ∈ rows (s2_res (H:=two_candidates) (three_stage_engine ["XYZ"])) →
          Qle (s3_threshold (three_stage_engine ["XYZ"]))
              (coerced_score (H:=two_candidates) r) →
          r ∈ rows (run (H:=two_candidates) (three_stage_engine ["XYZ"]))).
Proof.
  intros Hall.
  assert (xyz_best_row
          ∈ rows (run (H:=two_candidates) (three_stage_engine ["XYZ"])))
    as Hin.
  { apply Hall; [by_compute|]. vm_compute. discriminate. }
  revert Hin. by_compute.
Qed.

Lemma escalation_by_original_value_witness :
  s3_strategy (three_stage_engine scenario_queries) = Some RAG ∧
  "top1_score"
    ∈ columns (s2_res (H:=low_scores) (three_stage_engine scenario_queries)) ∧
  xyz_low_row
    ∈ rows (s2_res (H:=low_scores) (three_stage_engine scenario_queries)) ∧
  Qlt (coerced_score (H:=low_scores) xyz_low_row)
      (s3_threshold (three_stage_engine scenario_queries)) ∧
  xyz_low_row
    ∉ rows (run (H:=low_scores) (three_stage_engine scenario_queries)).
Proof.
  assert ("top1_score"
            ∈ columns (s2_res (H:=low_scores)
                         (three_stage_engine scenario_queries))) as Hcol
    by by_compute.
  assert (xyz_low_row
            ∈ rows (s2_res (H:=low_scores)
                      (three_stage_engine scenario_queries))) as Hrow
    by by_compute.
  assert (Qlt (coerced_score (H:=low_scores) xyz_low_row)
              (s3_threshold (three_stage_engine scenario_queries))) as Hlow
    by (vm_compute; reflexivity).
  split_and!; [reflexivity|exact Hcol|exact Hrow|exact Hlow|].
  exact (proj1 (proj1 (escalation_by_original_value (H:=low_scores)
                         (three_stage_engine scenario_queries) RAG
                         xyz_low_row eq_refl Hcol Hrow) Hlow)).
Defined.

Lemma exact_match_row_in_run_witness :
  "lung cancer " ∈ query (three_stage_engine scenario_queries) ∧
  "Lung Cancer" ∈ corpus (three_stage_engine scenario_queries) ∧
  PyStr.lower (PyStr.strip "lung cancer ")
  = PyStr.lower (PyStr.strip "Lung Cancer") ∧
  ∃ r, r ∈ rows (run (H:=low_scores) (three_stage_engine scenario_queries)) ∧
       r !! "original_value" = Some (Str "lung cancer ") ∧
       r !! "stage" = Some (Int 1) ∧
       r !! "match_level" = Some (Int 1) ∧
       ∀ i, (1 ≤ i ≤ 2)%nat →
            r !! top_score i = Some (Float 1) ∧
            r !! top_match i = Some (Str "lung cancer ").
Proof.
  assert ("lung cancer " ∈ query (three_stage_engine scenario_queries))
    as Hq by by_compute.
  assert ("Lung Cancer" ∈ corpus (three_stage_engine scenario_queries))
    as Hc by by_compute.
  split_and!; [exact Hq|exact Hc|reflexivity|].
  exact (exact_match_row_in_run (H:=low_scores)
           (three_stage_engine scenario_queries)
           "lung cancer " "Lung Cancer" Hq Hc eq_refl).
Defined.

Lemma stage_exclusive_witness :
  "XYZ" ∈ query (three_stage_engine scenario_queries) ∧
  ∃ r, r ∈ rows (run (H:=low_scores) (three_stage_engine scenario_queries)) ∧
       r !! "original_value" = Some (Str "XYZ").
Proof.
  assert ("XYZ" ∈ query (three_stage_engine scenario_queries)) as Hq
    by by_compute.
  split; [exact Hq|].
  exact (proj2 (proj2 (stage_exclusive (H:=low_scores)
                         (three_stage_engine scenario_queries))) "XYZ" Hq).
Defined.

Lemma degraded_without_top1_score_witness :
  s3_strategy (three_stage_engine scenario_queries) = Some RAG ∧
  non_exact_matches_ls (three_stage_engine scenario_queries) ≠ [] ∧
  ("top1_score"
     ∉ mt_columns (s2_match_results (H:=unscored)
                     (three_stage_engine scenario_queries))) ∧
  (run_traced (H:=unscored) (three_stage_engine scenario_queries)).1
  = [stage_model (H:=unscored) (three_stage_engine scenario_queries) LM
       ["XYZ"]].
Proof.
  assert (non_exact_matches_ls (three_stage_engine scenario_queries) ≠ [])
    as Hne by by_compute.
  assert ("top1_score"
            ∉ mt_columns (s2_match_results (H:=unscored)
                            (three_stage_engine scenario_queries))) as Hcol
    by by_compute.
  split_and!; [reflexivity|exact Hne|exact Hcol|].
  exact (f_equal fst
           (proj1 (degraded_without_top1_score (H:=unscored)
                     (three_stage_engine scenario_queries) RAG
                     eq_refl Hne Hcol))).
Defined.

(** C6. The resolver does not keep a string that has no entry: it returns
    the string without the blanks around it, although its docstring says
    [otherwise keep original].  With the file not found, and with a file
    that has a row for LUAD only, the query [ XYZ ], given with a blank on
    each side, maps to [XYZ]; LUAD is expanded. *)
Theorem resolver_does_not_keep_original :
  _map_shortname_to_fullname (H:=low_scores) [" XYZ "] !! " XYZ "
  = Some "XYZ" ∧
  _map_shortname_to_fullname (H:=luad_expanded) [" XYZ "; "LUAD"] !! " XYZ "
  = Some "XYZ" ∧
  _map_shortname_to_fullname (H:=luad_expanded) [" XYZ "; "LUAD"] !! "LUAD"
  = Some "Lung Adenocarcinoma" ∧
  " XYZ " ≠ "XYZ".
Proof.
  split_and!; [vm_compute; reflexivity..|discriminate].
Qed.

(** The backend of [silent_on_xyz] answers Glioma and returns no row for
    XYZ, at stage 2 and at stage 3: XYZ keeps a row in both stage tables,
    null outside the four columns the engine fills. *)
Lemma left_join_keeps_queries_witness :
  rows_keyed "Glioma"
    (s2_match_results (H:=silent_on_xyz)
       (three_stage_engine ["Lung Cancer"; "Glioma"; "XYZ"])) ≠ [] ∧
  rows_keyed
    (_map_shortname_to_fullname (H:=silent_on_xyz)
       (non_exact_matches_ls
          (three_stage_engine ["Lung Cancer"; "Glioma"; "XYZ"])) !!! "XYZ")
    (s2_match_results (H:=silent_on_xyz)
       (three_stage_engine ["Lung Cancer"; "Glioma"; "XYZ"])) = [] ∧
  rows_keyed
    (_map_shortname_to_fullname (H:=silent_on_xyz)
       (queries_for_s3 (H:=silent_on_xyz)
          (three_stage_engine ["Lung Cancer"; "Glioma"; "XYZ"])) !!! "XYZ")
    (s3_match_results (H:=silent_on_xyz)
       (three_stage_engine ["Lung Cancer"; "Glioma"; "XYZ"]) RAG) = [] ∧
  (∃ r, r ∈ rows (s2_res (H:=silent_on_xyz)
                    (three_stage_engine ["Lung Cancer"; "Glioma"; "XYZ"])) ∧
        r !! "original_value" = Some (Str "XYZ") ∧
        r !! "updated_value" = Some (Str "XYZ") ∧
        ∀ c, c ∉ ["original_value"; "updated_value";
                  "curated_ontology"; "stage"] → r !! c = None) ∧
  (∃ r, r ∈ rows (s3_res (H:=silent_on_xyz)
                    (three_stage_engine ["Lung Cancer"; "Glioma"; "XYZ"])
                    RAG) ∧
        r !! "original_value" = Some (Str "XYZ") ∧
        r !! "updated_value" = Some (Str "XYZ") ∧
        ∀ c, c ∉ ["original_value"; "updated_value";
                  "curated_ontology"; "stage"] → r !! c = None).
Proof.
  assert ("XYZ" ∈ non_exact_matches_ls
                    (three_stage_engine ["Lung Cancer"; "Glioma"; "XYZ"]))
    as Hq2 by by_compute.
  assert ("XYZ" ∈ queries_for_s3 (H:=silent_on_xyz)
                    (three_stage_engine ["Lung Cancer"; "Glioma"; "XYZ"]))
    as Hq3 by by_compute.
  assert (rows_keyed
            (_map_shortname_to_fullname (H:=silent_on_xyz)
               (non_exact_matches_ls
                  (three_stage_engine ["Lung Cancer"; "Glioma"; "XYZ"]))
             !!! "XYZ")
            (s2_match_results (H:=silent_on_xyz)
               (three_stage_engine ["Lung Cancer"; "Glioma"; "XYZ"])) = [])
    as Hnone2 by (vm_compute; reflexivity).
  assert (rows_keyed
            (_map_shortname_to_fullname (H:=silent_on_xyz)
               (queries_for_s3 (H:=silent_on_xyz)
                  (three_stage_engine ["Lung Cancer"; "Glioma"; "XYZ"]))
             !!! "XYZ")
            (s3_match_results (H:=silent_on_xyz)
               (three_stage_engine ["Lung Cancer"; "Glioma"; "XYZ"]) RAG)
          = []) as Hnone3 by (vm_compute; reflexivity).
  destruct (left_join_keeps_queries (H:=silent_on_xyz)
              (three_stage_engine ["Lung Cancer"; "Glioma"; "XYZ"]))
    as [Hs2 Hs3].
  split_and!; [by_compute|exact Hnone2|exact Hnone3| |].
  - exact (proj2 (Hs2 "XYZ" Hq2) Hnone2).
  - exact (proj2 (Hs3 RAG "XYZ" Hq3) Hnone3).
Defined.

(** C8 fails on a label column that mixes a number with its text: the
    first pass keeps both rows and writes both labels as the text 1, the
    second pass drops one of them. *)
Theorem normalize_twice_mixed_labels `{Externals} :
  ∃ df1 df2,
    _normalize_df mixed_labels_df false = Ok df1 ∧
    _normalize_df df1 false = Ok df2 ∧
    (λ r : row, r !! "official_label") <$> rows df1
    = [Some (Str "1"); Some (Str "1")] ∧
    length (rows df1) = 2%nat ∧
    length (rows df2) = 1%nat.
Proof.
  eexists _, _. split; [vm_compute; reflexivity|].
  split; [vm_compute; reflexivity|].
  split_and!; vm_compute; reflexivity.
Qed.

Lemma clean_code_from_obo_id_witness :
  ("clean_code" ∉ columns obo_corpus_df) ∧
  ∃ df', _normalize_df (H:=low_scores) obo_corpus_df true = Ok df' ∧
         (λ r : row, r !! "clean_code") <$> rows df'
         = [Some (Str "C156482")].
Proof.
  assert ("clean_code" ∉ columns obo_corpus_df) as Hcc by by_compute.
  split; [exact Hcc|].
  destruct (proj2 (clean_code_from_obo_id (H:=low_scores) obo_corpus_df Hcc)
              ltac:(by_compute) ltac:(right; by_compute))
    as (df' & Hnorm & _).
  exists df'. split; [exact Hnorm|].
  vm_compute in Hnorm. injection Hnorm as <-. reflexivity.
Defined.

(** C10, as stated, fails: LUAD expands to a name that is itself a query;
    the backend answers both, and each of the two queries gets both rows. *)
Lemma matcher_rows_not_distinct :
  ¬ NoDup (row_original_value
             <$> matcher_rows
                   (run (H:=luad_expanded)
                      (two_stage_engine ["LUAD"; "Lung Adenocarcinoma"]))).
Proof. by_compute. Qed.

Lemma remaining_queries_sorted_distinct_witness :
  keys_distinct
    (s2_match_results (H:=high_scores) (two_stage_engine scenario_queries)) ∧
  non_exact_matches_ls (two_stage_engine scenario_queries) = ["XYZ"] ∧
  NoDup (row_original_value
           <$> matcher_rows
                 (run (H:=high_scores) (two_stage_engine scenario_queries))).
Proof.
  assert (keys_distinct
            (s2_match_results (H:=high_scores)
               (two_stage_engine scenario_queries))) as Hk2
    by (unfold keys_distinct; by_compute).
  split_and!; [exact Hk2|reflexivity|].
  apply (proj2 (proj2 (proj2 (remaining_queries_sorted_distinct
                                (H:=high_scores)
                                (two_stage_engine scenario_queries))))).
  - exact Hk2.
  - intros s3 Hs3. discriminate Hs3.
Defined.

(** * Further properties of the engine *)

(** ** Trimming and lower-casing *)

Lemma is_space_lower_char (a : ascii) :
  PyStr.is_space (PyStr.lower_char a) = PyStr.is_space a.
Proof. destruct a as [[] [] [] [] [] [] [] []]; reflexivity. Qed.

Lemma lower_char_idem (a : ascii) :
  PyStr.lower_char (PyStr.lower_char a) = PyStr.lower_char a.
Proof. destruct a as [[] [] [] [] [] [] [] []]; reflexivity. Qed.

Lemma lower_idem (s : string) : PyStr.lower (PyStr.lower s) = PyStr.lower s.
Proof.
  induction s as [|a s IH]; simpl; [done|]. by rewrite lower_char_idem, IH.
Qed.

Lemma lstrip_lower (s : string) :
  PyStr.lstrip (PyStr.lower s) = PyStr.lower (PyStr.lstrip s).
Proof.
  induction s as [|a s IH]; simpl; [done|].
  rewrite is_space_lower_char. by destruct (PyStr.is_space a).
Qed.

Lemma rstrip_lower (s : string) :
  PyStr.rstrip (PyStr.lower s) = PyStr.lower (PyStr.rstrip s).
Proof.
  induction s as [|a s IH]; simpl; [done|].
  rewrite IH, is_space_lower_char.
  destruct (PyStr.rstrip s); simpl; [by destruct (PyStr.is_space a)|done].
Qed.

Lemma strip_lower (s : string) :
  PyStr.strip (PyStr.lower s) = PyStr.lower (PyStr.strip s).
Proof. unfold PyStr.strip. by rewrite lstrip_lower, rstrip_lower. Qed.

Lemma rstrip_idem (s : string) :
  PyStr.rstrip (PyStr.rstrip s) = PyStr.rstrip s.
Proof.
  induction s as [|a s IH]; simpl; [done|].
  destruct (PyStr.rstrip s) as [|b r] eqn:Hr.
  - destruct (PyStr.is_space a) eqn:Ha; simpl; [done|]. by rewrite Ha.
  - simpl in *. by rewrite IH.
Qed.

Lemma lstrip_rstrip_lstrip (s : string) :
  PyStr.lstrip (PyStr.rstrip (PyStr.lstrip s)) = PyStr.rstrip (PyStr.lstrip s).
Proof.
  induction s as [|a s IH]; simpl; [done|].
  destruct (PyStr.is_space a) eqn:Ha; [done|]. simpl.
  destruct (PyStr.rstrip s); rewrite ?Ha; simpl; by rewrite ?Ha.
Qed.

Lemma strip_idem (s : string) : PyStr.strip (PyStr.strip s) = PyStr.strip s.
Proof.
  unfold PyStr.strip. by rewrite lstrip_rstrip_lstrip, rstrip_idem.
Qed.

Lemma normal_form_idem (s : string) :
  PyStr.lower (PyStr.strip (PyStr.lower (PyStr.strip s)))
  = PyStr.lower (PyStr.strip s).
Proof. by rewrite strip_lower, strip_idem, lower_idem. Qed.

(** ** The exact matcher *)

Section ExactMatcher.

Context `{Externals}.

(** X1. The exact matches are the query list with some entries left out,
    order and repetitions kept; two queries with the same trimmed,
    lower-cased form are both matches or both not; and a query that is the
    trimmed, lower-cased form of a corpus entry is a match. *)
Theorem exact_matching_insensitive (self : OntoMapEngine) :
  _exact_matching self `sublist_of` query self ∧
  (∀ q1 q2, q1 ∈ query self → q2 ∈ query self →
            PyStr.lower (PyStr.strip q1) = PyStr.lower (PyStr.strip q2) →
            q1 ∈ _exact_matching self → q2 ∈ _exact_matching self) ∧
  (∀ q c, q ∈ query self → c ∈ corpus self →
          q = PyStr.lower (PyStr.strip c) → q ∈ _exact_matching self).
Proof.
  split_and!.
  - unfold _exact_matching. apply sublist_filter.
  - intros q1 q2 _ Hq2 Hnorm.
    rewrite !elem_of_exact_matching. intros [_ (c & Hc & Hq1)].
    split; [done|]. exists c. split; [done|]. congruence.
  - intros q c Hq Hc ->. apply elem_of_exact_matching. split; [done|].
    exists c. split; [done|]. apply normal_form_idem.
Qed.

(** X2. The exact matches depend on the corpus only through the set of
    its trimmed, lower-cased entries: two engines with the same queries and
    corpora equal up to case, blanks, order and repetition have the same
    exact matches. *)
Theorem exact_matching_corpus_as_set (self other : OntoMapEngine) :
  query other = query self →
  (∀ x, x ∈ (λ c, PyStr.lower (PyStr.strip c)) <$> corpus other ↔
        x ∈ (λ c, PyStr.lower (PyStr.strip c)) <$> corpus self) →
  _exact_matching other = _exact_matching self.
Proof.
  intros Hq Hset. unfold _exact_matching. rewrite Hq.
  apply list_filter_iff. intros q. apply Hset.
Qed.

End ExactMatcher.

(** ** The abbreviation resolver, further *)

Section ResolverMore.

Context `{Externals}.

Lemma short_to_name_of_lookup (cells : list (option string * option string))
    (k v : option string) :
  short_to_name_of cells !! k = Some v →
  ∃ code name, (code, name) ∈ cells ∧
               PyStr.strip <$> code = k ∧ PyStr.strip <$> name = v.
Proof.
  unfold short_to_name_of.
  induction cells as [|cn cells IH] using rev_ind; [done|].
  rewrite foldl_snoc, lookup_insert. case_decide as Hk.
  - intros [= <-]. exists cn.1, cn.2. split; [|done].
    rewrite elem_of_app, list_elem_of_singleton. right. by destruct cn.
  - intros (code & name & Hin & Hcn)%IH. exists code, name.
    split; [|done]. rewrite elem_of_app. by left.
Qed.

Lemma replaced_of_lookup (d : gmap (option string) (option string))
    (l : list string) (q : string) :
  replaced_of d l !! q
  = if decide (q ∈ l)
    then Some (default (Some (PyStr.strip q)) (d !! Some (PyStr.strip q)))
    else None.
Proof.
  unfold replaced_of.
  induction l as [|x l IH] using rev_ind.
  - rewrite decide_False by apply not_elem_of_nil. done.
  - rewrite foldl_snoc, lookup_insert, IH.
    destruct (decide (x = q)) as [->|Hne].
    + rewrite decide_True; [done|].
      rewrite elem_of_app, list_elem_of_singleton. auto.
    + destruct (decide (q ∈ l)) as [Hq|Hq].
      * rewrite decide_True; [done|]. rewrite elem_of_app. auto.
      * rewrite decide_False; [done|].
        rewrite elem_of_app, list_elem_of_singleton. intros [|]; congruence.
Qed.

Lemma short_to_name_of_text (table : list (string * string)) (k : string) :
  short_to_name_of ((λ cn, (Some cn.1, Some cn.2)) <$> table) !! Some k
  = Some <$> foldl (λ d cn, <[ PyStr.strip cn.1 := PyStr.strip cn.2 ]> d)
               (∅ : gmap string string) table !! k.
Proof.
  unfold short_to_name_of.
  induction table as [|cn table IH] using rev_ind; [done|].
  rewrite fmap_app. csimpl. rewrite !foldl_snoc, !lookup_insert. simpl.
  destruct (decide (PyStr.strip cn.1 = k)) as [->|Hne].
  - by rewrite decide_True.
  - rewrite decide_False by congruence. exact IH.
Qed.

(** With the file not found, or read with text in every cell, the resolver
    returns the mapping [run] works with. *)
Lemma resolver_of_text_table (l : list string) :
  _map_shortname_to_fullname_of read_of l
  = Returned (Some <$> _map_shortname_to_fullname l).
Proof.
  assert (∀ d : gmap (option string) (option string),
            (∀ k, d !! Some k = Some <$> short_to_name !! k) →
            replaced_of d l = Some <$> _map_shortname_to_fullname l)
    as Hloop.
  { intros d Hd. apply map_eq. intros q.
    rewrite replaced_of_lookup, lookup_fmap, map_shortname_lookup, Hd.
    case_decide; [|done]. simpl.
    by destruct (short_to_name !! PyStr.strip q). }
  unfold read_of, _map_shortname_to_fullname_of.
  destruct read_abbr_csv as [table|] eqn:Hread; f_equal; apply Hloop.
  - intros k. rewrite short_to_name_of_text. unfold short_to_name.
    by rewrite Hread.
  - intros k. unfold short_to_name. by rewrite Hread.
Qed.

(** X3. Every value of the dict the resolver returns is a trimmed text or
    nan: a text has no blank at either end, whether it is a name of the
    table or the query passed through, and a value is nan only when the
    table has a row whose trimmed code is the trimmed query and whose name
    cell holds no text. *)
Theorem resolver_values_trimmed (read : csv_read) (l : list string)
    (m : gmap string (option string)) :
  _map_shortname_to_fullname_of read l = Returned m →
  (∀ q, is_Some (m !! q) ↔ q ∈ l) ∧
  (∀ q v, m !! q = Some (Some v) → PyStr.strip v = v) ∧
  (∀ q, m !! q = Some None →
        ∃ cells code,
          read = CodeName cells ∧ (Some code, None) ∈ cells ∧
          PyStr.strip code = PyStr.strip q).
Proof.
  assert (∀ d : gmap (option string) (option string),
            (∀ k v, d !! k = Some (Some v) → PyStr.strip v = v) →
            (∀ q, is_Some (replaced_of d l !! q) ↔ q ∈ l) ∧
            (∀ q v, replaced_of d l !! q = Some (Some v) →
                    PyStr.strip v = v) ∧
            (∀ q, replaced_of d l !! q = Some None →
                  d !! Some (PyStr.strip q) = Some None)) as Hloop.
  { intros d Hd. split_and!.
    - intros q. rewrite replaced_of_lookup. case_decide; [by eauto|].
      split; [by intros [? ?]|done].
    - intros q v. rewrite replaced_of_lookup. case_decide; [|done].
      destruct (d !! Some (PyStr.strip q)) as [name|] eqn:Hname; simpl.
      + intros [= ->]. by eapply Hd.
      + intros [= <-]. apply strip_idem.
    - intros q. rewrite replaced_of_lookup. case_decide; [|done].
      destruct (d !! Some (PyStr.strip q)) as [name|]; simpl; [|done].
      by intros [= ->]. }
  destruct read as [|e|cells]; simpl; [|done|]; intros [= <-].
  - destruct (Hloop ∅) as (Hdom & Htrim & Hnan); [done|].
    split_and!; [done..|]. intros q Hq%Hnan. done.
  - destruct (Hloop (short_to_name_of cells)) as (Hdom & Htrim & Hnan).
    { intros k v (code & name & _ & _ & Hname)%short_to_name_of_lookup.
      destruct name as [name|]; [|done]. injection Hname as <-.
      apply strip_idem. }
    split_and!; [done..|].
    intros q (code & name & Hin & Hcode & Hname)%Hnan%short_to_name_of_lookup.
    destruct code as [code|]; [|done]. destruct name; [done|].
    injection Hcode as Hcode. by exists cells, code.
Qed.

(** X4. The expansion of a query does not depend on the other queries
    given with it: the mapping [run] computes again for stage 3 gives every
    escalated query the expansion it had at stage 2. *)
Theorem stage3_expansion_is_stage2_expansion (self : OntoMapEngine)
    (q : string) :
  q ∈ queries_for_s3 self →
  _map_shortname_to_fullname (queries_for_s3 self) !!! q
  = _map_shortname_to_fullname (non_exact_matches_ls self) !!! q.
Proof.
  intros Hq3. pose proof (queries_for_s3_non_exact self q Hq3) as Hq2.
  rewrite !lookup_total_alt, !map_shortname_lookup.
  by rewrite !decide_True by done.
Qed.

(** X5. When the table names a code twice, the later row wins. *)
Theorem resolver_later_row_wins (table : list (string * string))
    (code name : string) (l : list string) (q : string) :
  read_abbr_csv = Some (table ++ [(code, name)]) →
  q ∈ l → PyStr.strip q = PyStr.strip code →
  _map_shortname_to_fullname l !! q = Some (PyStr.strip name).
Proof.
  intros Htable Hq Hcode.
  rewrite map_shortname_lookup, decide_True by done.
  rewrite (short_to_name_lookup _ _ Htable).
  unfold abbr_dict. rewrite fmap_app, reverse_app. simpl.
  by rewrite decide_True by done.
Qed.

End ResolverMore.

(** ** The corpus normalizer, further *)

Section NormalizerMore.

Context `{Externals}.

Lemma sublist_fmap_inv {A B : Type} (h : A → B) (l : list A) (k : list B) :
  k `sublist_of` h <$> l → ∃ kept, kept `sublist_of` l ∧ k = h <$> kept.
Proof.
  revert k. induction l as [|x l IH]; intros k; csimpl.
  - intros ->%sublist_nil_r. by exists [].
  - rewrite sublist_cons_r. intros [Hk|(k' & -> & Hk')].
    + destruct (IH k Hk) as (kept & Hsub & ->).
      exists kept. split; [by constructor|done].
    + destruct (IH k' Hk') as (kept & Hsub & ->).
      exists (x :: kept). split; [by constructor|done].
Qed.

Lemma filter_fmap_comm {A B : Type} (g : A → B) (P : B → Prop)
    `{!∀ y, Decision (P y)} (l : list A) :
  filter P (g <$> l) = g <$> filter (λ x, P (g x)) l.
Proof.
  induction l as [|x l IH]; [done|].
  rewrite fmap_cons, !filter_cons, IH. by destruct (decide (P (g x))).
Qed.

Lemma first_of_each_key_sublist (subset : list string) (l : list row) :
  first_of_each_key subset l `sublist_of` l.
Proof.
  induction l as [|r l IH] using rev_ind; [done|].
  rewrite first_of_each_key_snoc. destruct (existsb _ _).
  - by apply sublist_inserts_r.
  - by apply sublist_app.
Qed.

Lemma normalize_df_ok_inv (df df' : DataFrame) (need_code : bool) :
  _normalize_df df need_code = Ok df' →
  ∃ dfa dfb, label_fallback df = Ok dfa ∧
             code_fallback dfa need_code = Ok dfb ∧
             df' = basic_cleaning dfb need_code.
Proof.
  unfold _normalize_df.
  destruct (label_fallback df) as [dfa|] eqn:Hlf; [|done].
  destruct (code_fallback dfa need_code) as [dfb|] eqn:Hcf; [|done].
  intros [= <-]. eauto.
Qed.

Lemma code_fallback_ok (dfa dfb : DataFrame) (need_code : bool) :
  code_fallback dfa need_code = Ok dfb →
  (need_code = true → "clean_code" ∈ columns dfb) ∧
  (∀ c, c ∈ columns dfb ↔ c ∈ columns dfa ∨ (need_code = true ∧ c = "clean_code")) ∧
  ∃ h : row → row,
    rows dfb = h <$> rows dfa ∧
    (∀ r c, c ≠ "clean_code" → h r !! c = r !! c) ∧
    (∀ r, text_or_null (r !! "clean_code") →
          text_or_null (h r !! "clean_code")).
Proof.
  unfold code_fallback. destruct need_code.
  - destruct (decide ("clean_code" ∈ columns dfa)) as [Hcc|Hcc].
    + intros [= <-]. split_and!; [done| |].
      * intros c. split; [by auto|]. intros [|[_ ->]]; done.
      * exists id. by rewrite list_fmap_id.
    + destruct (decide ("obo_id" ∈ columns dfa)); [|done].
      intros [= <-]. split_and!.
      * intros _. apply columns_df_assign. by left.
      * intros c. rewrite columns_df_assign. naive_solver.
      * exists (λ r, partial_alter (λ _, extract_code r) "clean_code" r).
        split_and!; [done| |].
        -- intros r c Hc. by rewrite lookup_partial_alter_ne.
        -- intros r _. rewrite lookup_partial_alter_eq.
           unfold extract_code, text_or_null.
           destruct (PyStr.search_code _); simpl; eauto.
  - intros [= <-]. split_and!; [done| |].
    + intros c. naive_solver.
    + exists id. by rewrite list_fmap_id.
Qed.

Lemma rows_basic_cleaning (df : DataFrame) (need_code : bool) :
  rows (basic_cleaning df need_code)
  = coerce_row (bool_decide ("clean_code" ∈ columns df))
    <$> first_of_each_key
          ("official_label" :: (if need_code then ["clean_code"] else []))
          (rows (dropna
                   ("official_label"
                    :: (if need_code then ["clean_code"] else [])) df)).
Proof.
  unfold basic_cleaning.
  set (keep := "official_label" :: (if need_code then ["clean_code"] else [])).
  set (d := df_assign "official_label" _
              (drop_duplicates keep (dropna keep df))).
  assert ("clean_code" ∈ columns d ↔ "clean_code" ∈ columns df) as Hiff.
  { unfold d. rewrite columns_df_assign. cbn [columns drop_duplicates dropna].
    naive_solver. }
  destruct (decide ("clean_code" ∈ columns d)) as [Hcc|Hcc].
  - rewrite bool_decide_eq_true_2 by (by apply Hiff).
    unfold df_assign at 1. cbn [rows]. unfold d, df_assign.
    cbn [rows drop_duplicates]. by rewrite <- list_fmap_compose.
  - rewrite bool_decide_eq_false_2 by (by rewrite <- Hiff).
    done.
Qed.

Lemma coerce_row_other (with_code : bool) (r : row) (c : string) :
  c ≠ "official_label" → c ≠ "clean_code" → coerce_row with_code r !! c = r !! c.
Proof.
  intros H1 H2. unfold coerce_row.
  destruct with_code; by rewrite !lookup_partial_alter_ne.
Qed.

Lemma coerce_row_label (with_code : bool) (r : row) :
  coerce_row with_code r !! "official_label"
  = Some (Str (astype_str (r !! "official_label"))).
Proof.
  unfold coerce_row. destruct with_code.
  - by rewrite lookup_partial_alter_ne, lookup_partial_alter_eq.
  - by rewrite lookup_partial_alter_eq.
Qed.

Lemma coerce_row_code (r : row) :
  coerce_row true r !! "clean_code"
  = Some (Str (astype_str (r !! "clean_code"))).
Proof.
  unfold coerce_row.
  by rewrite lookup_partial_alter_eq, lookup_partial_alter_ne.
Qed.

(** X6. The normalizer fails exactly when the table has neither an
    [official_label] nor a [label] column, or a code is required and it has
    neither a [clean_code] nor an [obo_id] column; the label is checked
    first, so a table without labels fails on them whatever else it
    lacks. *)
Theorem normalize_df_raises_iff (df : DataFrame) (need_code : bool) :
  ((∃ e, _normalize_df df need_code = Raise e) ↔
   (("official_label" ∉ columns df) ∧ ("label" ∉ columns df)) ∨
   (need_code = true ∧
    ("clean_code" ∉ columns df) ∧ ("obo_id" ∉ columns df))) ∧
  ((("official_label" ∉ columns df) ∧ ("label" ∉ columns df)) →
   _normalize_df df need_code
   = Raise (ValueError
              "DataFrame must contain 'official_label' or 'label'")).
Proof.
  assert ((("official_label" ∉ columns df) ∧ ("label" ∉ columns df)) →
          _normalize_df df need_code
          = Raise (ValueError
                     "DataFrame must contain 'official_label' or 'label'"))
    as Hlabel.
  { intros [Hol Hl]. unfold _normalize_df, label_fallback.
    by rewrite !decide_False by done. }
  split; [|done]. split.
  - intros [e He]. unfold _normalize_df in He.
    destruct (label_fallback df) as [dfa|] eqn:Hlf.
    + right. destruct (label_fallback_ok df dfa Hlf) as (_ & Hcols & _).
      unfold code_fallback in He. destruct need_code; [|done].
      destruct (decide ("clean_code" ∈ columns dfa)) as [|Hcc]; [done|].
      destruct (decide ("obo_id" ∈ columns dfa)) as [|Hobo]; [done|].
      rewrite Hcols in Hcc, Hobo by done. done.
    + left. unfold label_fallback in Hlf. repeat case_decide; done.
  - intros [Hno|(-> & Hcc & Hobo)]; [rewrite Hlabel by done; eauto|].
    unfold _normalize_df.
    destruct (label_fallback df) as [dfa|e] eqn:Hlf; [|by eauto].
    destruct (label_fallback_ok df dfa Hlf) as (_ & Hcols & _).
    unfold code_fallback.
    rewrite !decide_False by (by rewrite Hcols). eauto.
Qed.

(** X7. What a successful normalization guarantees: the table has an
    [official_label] column, and a [clean_code] column when a code is
    required; it keeps every column of the input and adds no other than
    these two; every row holds text in [official_label], and in
    [clean_code] when the table has that column; and it has no more rows
    than the input. *)
Theorem normalize_df_guarantees (df df' : DataFrame) (need_code : bool) :
  _normalize_df df need_code = Ok df' →
  "official_label" ∈ columns df' ∧
  (need_code = true → "clean_code" ∈ columns df') ∧
  (∀ c, c ∈ columns df → c ∈ columns df') ∧
  (∀ c, c ∈ columns df' →
        c ∈ columns df ∨ c = "official_label" ∨ c = "clean_code") ∧
  (∀ r, r ∈ rows df' →
        (∃ s, r !! "official_label" = Some (Str s)) ∧
        ("clean_code" ∈ columns df' → ∃ s, r !! "clean_code" = Some (Str s))) ∧
  (length (rows df') ≤ length (rows df))%nat.
Proof.
  intros (dfa & dfb & Hlf & Hcf & ->)%normalize_df_ok_inv.
  destruct (label_fallback_ok df dfa Hlf)
    as (Hola & Hcolsa & f & Hrowsa & _).
  destruct (code_fallback_ok dfa dfb need_code Hcf)
    as (Hccb & Hcolsb & h & Hrowsb & _).
  assert ("official_label" ∈ columns dfb) as Holb by (apply Hcolsb; auto).
  assert (∀ c, c ∈ columns (basic_cleaning dfb need_code) ↔ c ∈ columns dfb)
    as Hcols by (intros c; by apply basic_cleaning_columns).
  split_and!.
  - by apply Hcols.
  - intros Hnc. by apply Hcols, Hccb.
  - intros c Hc. apply Hcols, Hcolsb. left.
    destruct (decide (c = "official_label")) as [->|Hne]; [done|].
    by apply Hcolsa.
  - intros c. rewrite Hcols, Hcolsb. intros [Hc|[_ ->]]; [|by auto].
    destruct (decide (c = "official_label")) as [->|Hne]; [by auto|].
    left. by apply Hcolsa.
  - intros r Hr. split; [by apply (basic_cleaning_text dfb need_code r)|].
    rewrite Hcols. by apply (basic_cleaning_text dfb need_code r).
  - rewrite rows_basic_cleaning, length_fmap.
    etrans; [apply sublist_length, first_of_each_key_sublist|].
    etrans; [apply sublist_length; unfold dropna; cbn [rows];
             apply sublist_filter|].
    by rewrite Hrowsb, Hrowsa, !length_fmap.
Qed.

(** X8. Where the rows of a normalized table come from: they are rows of
    the input, in their order, some left out; a row keeps its cells outside
    the two key columns, its label is the text of its cell in
    [official_label], or in [label] when the input has no [official_label]
    column, and that cell was not null. *)
Theorem normalize_df_rows_from_input (df df' : DataFrame)
    (need_code : bool) :
  _normalize_df df need_code = Ok df' →
  ∃ (g : row → row) (kept : list row),
    kept `sublist_of` rows df ∧
    rows df' = g <$> kept ∧
    ∀ r, r ∈ kept →
      is_Some (r !! label_source df) ∧
      g r !! "official_label"
      = Some (Str (astype_str (r !! label_source df))) ∧
      ∀ c, c ≠ "official_label" → c ≠ "clean_code" → g r !! c = r !! c.
Proof.
  intros (dfa & dfb & Hlf & Hcf & ->)%normalize_df_ok_inv.
  destruct (label_fallback_ok df dfa Hlf)
    as (_ & _ & f & Hrowsa & Hfother & Hflabel).
  destruct (code_fallback_ok dfa dfb need_code Hcf)
    as (_ & _ & h & Hrowsb & Hhother & _).
  set (keep := "official_label" :: (if need_code then ["clean_code"] else [])).
  set (with_code := bool_decide ("clean_code" ∈ columns dfb)).
  set (P := λ r : row,
              Is_true (forallb (λ c, bool_decide (is_Some (h (f r) !! c)))
                               keep)).
  assert (rows (dropna keep dfb) = (h ∘ f) <$> filter P (rows df)) as Hdrop.
  { unfold dropna. cbn [rows].
    rewrite Hrowsb, Hrowsa, <- list_fmap_compose.
    by rewrite (filter_fmap_comm (h ∘ f)). }
  destruct (sublist_fmap_inv (h ∘ f) (filter P (rows df))
              (first_of_each_key keep (rows (dropna keep dfb))))
    as (kept & Hsub & Hkept).
  { rewrite <- Hdrop. apply first_of_each_key_sublist. }
  exists (coerce_row with_code ∘ h ∘ f), kept. split_and!.
  - etrans; [exact Hsub|apply sublist_filter].
  - rewrite rows_basic_cleaning. fold keep with_code.
    by rewrite Hkept, <- list_fmap_compose.
  - intros r Hr.
    assert (P r) as HP.
    { pose proof (elem_of_sublist _ _ r Hr Hsub) as Hin.
      by apply list_elem_of_filter in Hin as [HP _]. }
    assert (h (f r) !! "official_label" = r !! label_source df) as Hlab.
    { rewrite Hhother by done. apply Hflabel. }
    split_and!.
    + unfold P in HP. apply Is_true_true in HP.
      rewrite forallb_forall in HP.
      specialize (HP "official_label" ltac:(left; reflexivity)).
      apply bool_decide_eq_true in HP. by rewrite Hlab in HP.
    + simpl. by rewrite coerce_row_label, Hlab.
    + intros c Hc1 Hc2. simpl.
      rewrite coerce_row_other, Hhother by done.
      destruct (decide ("official_label" ∈ columns df)); by apply Hfother.
Qed.

Lemma same_key_of_equal_cells (subset : list string) (r k : row) :
  (λ c, r !! c) <$> subset = (λ c, k !! c) <$> subset →
  same_key subset r k = true.
Proof.
  intros Heq. rewrite <- (same_key_refl subset r).
  apply same_key_ext; [done|]. intros c Hc.
  apply list_elem_of_lookup in Hc as [i Hi].
  apply (f_equal (λ l, l !! i)) in Heq.
  rewrite !list_lookup_fmap, Hi in Heq. simpl in Heq. congruence.
Qed.

Lemma first_of_each_key_NoDup (subset : list string) (l : list row) :
  NoDup ((λ r : row, (λ c, r !! c) <$> subset)
           <$> first_of_each_key subset l).
Proof.
  induction l as [|r l IH] using rev_ind; [constructor|].
  rewrite first_of_each_key_snoc.
  destruct (existsb _ _) eqn:Hex; [done|].
  rewrite fmap_app. csimpl.
  apply NoDup_app. split_and!; [done| |apply NoDup_singleton].
  intros key (k & -> & Hk)%list_elem_of_fmap.
  rewrite list_elem_of_singleton. intros Heq.
  assert (existsb (same_key subset r) (first_of_each_key subset l) = true)
    as Habs; [|congruence].
  apply existsb_exists. exists k. split; [by apply list_elem_of_In|].
  by apply same_key_of_equal_cells.
Qed.

(** X9. On a table whose label and code columns hold text or nulls, the
    normalized table has no two rows with the same key: the same label,
    and the same code when a code is required. *)
Theorem normalize_df_keys_distinct_on_text (df df' : DataFrame)
    (need_code : bool) :
  (∀ r c, r ∈ rows df → c ∈ ["official_label"; "label"; "clean_code"] →
          text_or_null (r !! c)) →
  _normalize_df df need_code = Ok df' →
  NoDup (key_cells need_code <$> rows df').
Proof.
  intros Htext (dfa & dfb & Hlf & Hcf & ->)%normalize_df_ok_inv.
  destruct (label_fallback_ok df dfa Hlf)
    as (_ & _ & f & Hrowsa & Hfother & Hflabel).
  destruct (code_fallback_ok dfa dfb need_code Hcf)
    as (Hccb & _ & h & Hrowsb & Hhother & Hhcode).
  set (keep := "official_label" :: (if need_code then ["clean_code"] else [])).
  rewrite rows_basic_cleaning. fold keep.
  set (K := first_of_each_key keep (rows (dropna keep dfb))).
  rewrite <- list_fmap_compose.
  assert (∀ r, r ∈ K →
               key_cells need_code
                 (coerce_row (bool_decide ("clean_code" ∈ columns dfb)) r)
               = (λ c, r !! c) <$> keep) as Hkey.
  { intros r Hr%first_of_each_key_subset.
    apply elem_of_rows_dropna in Hr as [Hr Hnn].
    rewrite Hrowsb, Hrowsa, <- list_fmap_compose in Hr.
    apply list_elem_of_fmap in Hr as (r0 & -> & Hr0).
    unfold compose in *.
    assert (∃ s, h (f r0) !! "official_label" = Some (Str s)) as [s Hs].
    { destruct (Hnn "official_label") as [x Hx]; [left|].
      rewrite Hhother, Hflabel in Hx |- * by done.
      destruct (Htext r0 (if decide ("official_label" ∈ columns df)
                          then "official_label" else "label") Hr0)
        as [Hnone|Hsome]; [case_decide; set_solver|congruence|done]. }
    unfold key_cells. fold keep. unfold keep. destruct need_code; csimpl.
    - rewrite bool_decide_eq_true_2 by auto.
      rewrite coerce_row_label, coerce_row_code, Hs. simpl.
      destruct (Hnn "clean_code") as [x Hx]; [set_solver|].
      destruct (Hhcode (f r0)) as [Hnone|[s' Hs']].
      { rewrite Hfother by done. apply Htext; [done|set_solver]. }
      + simpl in *. congruence.
      + simpl in *. by rewrite Hs'.
    - by rewrite coerce_row_label, Hs. }
  assert ((key_cells need_code
             ∘ coerce_row (bool_decide ("clean_code" ∈ columns dfb))) <$> K
          = (λ r : row, (λ c, r !! c) <$> keep) <$> K) as ->.
  { apply list_fmap_ext. intros i r Hr. simpl. apply Hkey.
    by eapply list_elem_of_lookup_2. }
  apply first_of_each_key_NoDup.
Qed.

(** X10. On a table whose label and code columns hold text or nulls, the
    normalizer is idempotent: a second pass over the result of a successful
    pass returns it unchanged.  The result is again such a table. *)
Theorem normalize_df_stable_on_text (df df' : DataFrame)
    (need_code : bool) :
  (∀ r c, r ∈ rows df → c ∈ ["official_label"; "label"; "clean_code"] →
          text_or_null (r !! c)) →
  _normalize_df df need_code = Ok df' →
  _normalize_df df' need_code = Ok df' ∧
  (∀ r c, r ∈ rows df' → c ∈ ["official_label"; "label"; "clean_code"] →
          text_or_null (r !! c)).
Proof.
  intros Htext Hnorm.
  split; [by apply (normalize_df_idempotent_on_text df)|].
  destruct (normalize_df_ok_inv df df' need_code Hnorm)
    as (dfa & dfb & Hlf & Hcf & ->).
  destruct (label_fallback_ok df dfa Hlf)
    as (_ & _ & f & Hrowsa & Hfother & Hflabel).
  destruct (code_fallback_ok dfa dfb need_code Hcf)
    as (_ & _ & h & Hrowsb & Hhother & Hhcode).
  intros r c Hr Hc. rewrite rows_basic_cleaning in Hr.
  apply list_elem_of_fmap in Hr as (r1 & Hr & Hr1). subst r.
  apply first_of_each_key_subset in Hr1.
  apply elem_of_rows_dropna in Hr1 as [Hr1 _].
  rewrite Hrowsb, Hrowsa, <- list_fmap_compose in Hr1.
  apply list_elem_of_fmap in Hr1 as (r0 & Hr1 & Hr0). subst r1.
  unfold compose.
  rewrite !elem_of_cons, elem_of_nil in Hc.
  destruct Hc as [Hc|[Hc|[Hc|[]]]]; subst c.
  - rewrite coerce_row_label. right. eauto.
  - rewrite coerce_row_other by done. rewrite Hhother, Hfother by done.
    apply Htext; [done|]. rewrite !elem_of_cons. auto.
  - assert (text_or_null (h (f r0) !! "clean_code")) as Hcode.
    { apply Hhcode. rewrite Hfother by done.
      apply Htext; [done|]. rewrite !elem_of_cons. auto. }
    destruct (bool_decide ("clean_code" ∈ columns dfb)).
    + rewrite coerce_row_code. right. eauto.
    + unfold coerce_row. by rewrite lookup_partial_alter_ne.
Qed.

End NormalizerMore.

(** ** Construction *)

Lemma unique_in_order_snoc (l : list string) (c : string) :
  unique_in_order (l ++ [c])
  = if decide (c ∈ unique_in_order l) then unique_in_order l
    else unique_in_order l ++ [c].
Proof. unfold unique_in_order. by rewrite foldl_snoc. Qed.

Lemma elem_of_unique_in_order (l : list string) (c : string) :
  c ∈ unique_in_order l ↔ c ∈ l.
Proof.
  induction l as [|x l IH] using rev_ind; [done|].
  rewrite unique_in_order_snoc, elem_of_app, list_elem_of_singleton.
  case_decide as Hx.
  - rewrite IH. split; [by auto|]. intros [Hc|Hc]; [done|].
    subst c. by apply IH.
  - rewrite elem_of_app, list_elem_of_singleton, IH. done.
Qed.

Lemma unique_in_order_NoDup (l : list string) : NoDup (unique_in_order l).
Proof.
  induction l as [|x l IH] using rev_ind; [constructor|].
  rewrite unique_in_order_snoc. case_decide as Hx; [done|].
  apply NoDup_app. split_and!; [done| |apply NoDup_singleton].
  intros y Hy Hyx%list_elem_of_singleton. by subst.
Qed.

Lemma unique_in_order_sublist (l : list string) :
  unique_in_order l `sublist_of` l.
Proof.
  induction l as [|x l IH] using rev_ind; [done|].
  rewrite unique_in_order_snoc. case_decide.
  - by apply sublist_inserts_r.
  - by apply sublist_app.
Qed.

Lemma unique_in_order_id (l : list string) :
  NoDup l → unique_in_order l = l.
Proof.
  induction l as [|x l IH] using rev_ind; [done|].
  rewrite NoDup_app. intros (Hl & Hx & _).
  rewrite unique_in_order_snoc, IH by done.
  rewrite decide_False; [done|].
  intros Hin. apply (Hx x Hin). left.
Qed.

(** The first occurrence of an entry decides its place: what stands before
    it in the result is what stands before it in the list, each once. *)
Lemma unique_in_order_first (l1 l2 : list string) (c : string) :
  c ∉ l1 →
  ∃ k2, unique_in_order (l1 ++ c :: l2) = unique_in_order l1 ++ c :: k2.
Proof.
  intros Hc. induction l2 as [|x l2 [k2 IH]] using rev_ind.
  - exists []. rewrite unique_in_order_snoc, decide_False; [done|].
    by rewrite elem_of_unique_in_order.
  - assert (l1 ++ c :: l2 ++ [x] = (l1 ++ c :: l2) ++ [x]) as ->
      by (by rewrite <- app_assoc).
    rewrite unique_in_order_snoc, IH. case_decide.
    + by exists k2.
    + exists (k2 ++ [x]). by rewrite <- app_assoc.
Qed.

Section Construction.

Context `{Externals}.

Lemma normalize_df_ok_iff (df : DataFrame) (need_code : bool) :
  (∃ df', _normalize_df df need_code = Ok df') ↔
  ("official_label" ∈ columns df ∨ "label" ∈ columns df) ∧
  (need_code = true → "clean_code" ∈ columns df ∨ "obo_id" ∈ columns df).
Proof.
  unfold _normalize_df. split.
  - intros [df' Hok].
    destruct (label_fallback df) as [dfa|] eqn:Hlf; [|done].
    destruct (label_fallback_ok df dfa Hlf) as (_ & Hcols & _).
    split.
    + unfold label_fallback in Hlf. repeat case_decide; auto; done.
    + intros ->. unfold code_fallback in Hok.
      destruct (decide ("clean_code" ∈ columns dfa)) as [Hcc|Hcc].
      * left. by apply Hcols.
      * destruct (decide ("obo_id" ∈ columns dfa)) as [Hobo|]; [|done].
        right. by apply Hcols.
  - intros [Hsrc Hcode].
    destruct (label_fallback_total df Hsrc) as [dfa Hlf]. rewrite Hlf.
    destruct (label_fallback_ok df dfa Hlf) as (_ & Hcols & _).
    unfold code_fallback. destruct need_code; [|by eauto].
    destruct (decide ("clean_code" ∈ columns dfa)) as [Hcc|Hcc]; [by eauto|].
    rewrite decide_True; [by eauto|].
    destruct (Hcode eq_refl) as [Hin|Hin]; [|by apply Hcols].
    exfalso. apply Hcc. by apply Hcols.
Qed.

Lemma strategy_of_name_s2 (name : string) :
  (name = "lm" ∨ name = "st") ↔
  strategy_of_name name = Some LM ∨ strategy_of_name name = Some ST.
Proof. unfold strategy_of_name. repeat case_decide; naive_solver. Qed.

Lemma strategy_of_name_s3 (name : string) :
  (name = "rag" ∨ name = "rag_bie") ↔
  strategy_of_name name = Some RAG ∨ strategy_of_name name = Some RAG_BIE.
Proof. unfold strategy_of_name. repeat case_decide; naive_solver. Qed.

(** What a successful construction has checked and built. *)
Lemma init_ok_inv (method category : string)
    (query corpus : list string) (cura_map : dict) (topk : nat)
    (s2_strategy : string) (s3_strategy : option string) (s3_threshold : Q)
    (test_or_prod : option string) (query_df corpus_df : option DataFrame)
    (self : OntoMapEngine) :
  __init__ method category query corpus cura_map topk s2_strategy
    s3_strategy s3_threshold test_or_prod query_df corpus_df = Ok self →
  ∃ env s2,
    test_or_prod = Some env ∧
    strategy_of_name s2_strategy = Some s2 ∧ (s2 = LM ∨ s2 = ST) ∧
    ((s3_strategy = None ∧
      self = mkEngine method category query (unique_in_order corpus)
               cura_map topk s2 None s3_threshold env query_df corpus_df)
     ∨ (∃ name s3 df df',
          s3_strategy = Some name ∧
          strategy_of_name name = Some s3 ∧ (s3 = RAG ∨ s3 = RAG_BIE) ∧
          corpus_df = Some df ∧ _normalize_df df true = Ok df' ∧
          self = mkEngine method category query
                   (unique_in_order
                      ((λ r, astype_str (r !! "official_label")) <$> rows df'))
                   cura_map topk s2 (Some s3) s3_threshold env query_df
                   (Some df'))).
Proof.
  unfold __init__. intros Hok.
  destruct test_or_prod as [env|]; [|done].
  exists env.
  destruct (strategy_of_name s2_strategy) as [s2|] eqn:Hs2; [|done].
  exists s2.
  assert (s2 = LM ∨ s2 = ST) as Hs2' by (destruct s2; auto; done).
  split_and!; [done..|].
  assert (match s3_strategy with
          | Some name =>
              match strategy_of_name name with
              | Some RAG | Some RAG_BIE =>
                  match corpus_df with
                  | Some df =>
                      match _normalize_df df true with
                      | Ok df0 =>
                          Ok (mkEngine method category query
                                (unique_in_order
                                   ((λ r, astype_str (r !! "official_label"))
                                      <$> rows df0))
                                cura_map topk s2 (strategy_of_name name)
                                s3_threshold env query_df (Some df0))
                      | Raise e => Raise e
                      end
                  | None => Raise (ValueError
                      "corpus_df must be provided for 'rag'/'rag_bie' for running stage 3")
                  end
              | _ => Raise (ValueError
                       "s3_strategy must be 'rag', 'rag_bie', or None")
              end
          | None =>
              Ok (mkEngine method category query (unique_in_order corpus)
                    cura_map topk s2 None s3_threshold env query_df
                    corpus_df)
          end = Ok self) as Hbody.
  { destruct Hs2' as [-> | ->]; exact Hok. }
  clear Hok. destruct s3_strategy as [name|].
  - right. destruct (strategy_of_name name) as [s3|] eqn:Hs3; [|done].
    assert (s3 = RAG ∨ s3 = RAG_BIE) as Hs3' by (destruct s3; auto; done).
    destruct corpus_df as [df|]; [|by destruct Hs3' as [-> | ->]].
    destruct (_normalize_df df true) as [df'|e] eqn:Hnorm;
      [|by destruct Hs3' as [-> | ->]].
    exists name, s3, df, df'. split_and!; [done..|].
    destruct Hs3' as [-> | ->]; by injection Hbody as <-.
  - left. by injection Hbody as <-.
Qed.

(** X11. The constructor succeeds exactly when [test_or_prod] is given,
    the stage-2 strategy is [lm] or [st], and either no stage-3 strategy
    is given, or it is [rag] or [rag_bie] and a reference table is given
    that has a label source ([official_label] or [label]) and a code source
    ([clean_code] or [obo_id]). *)
Theorem init_succeeds_iff (method category : string)
    (query corpus : list string) (cura_map : dict) (topk : nat)
    (s2_strategy : string) (s3_strategy : option string) (s3_threshold : Q)
    (test_or_prod : option string) (query_df corpus_df : option DataFrame) :
  (∃ self, __init__ method category query corpus cura_map topk s2_strategy
             s3_strategy s3_threshold test_or_prod query_df corpus_df
           = Ok self) ↔
  is_Some test_or_prod ∧
  (s2_strategy = "lm" ∨ s2_strategy = "st") ∧
  (s3_strategy = None ∨
   ∃ name df,
     s3_strategy = Some name ∧ (name = "rag" ∨ name = "rag_bie") ∧
     corpus_df = Some df ∧
     ("official_label" ∈ columns df ∨ "label" ∈ columns df) ∧
     ("clean_code" ∈ columns df ∨ "obo_id" ∈ columns df)).
Proof.
  split.
  - intros [self Hok].
    apply init_ok_inv in Hok
      as (env & s2 & -> & Hs2 & Hs2' & Hcase).
    split_and!; [by eauto| |].
    + apply strategy_of_name_s2. destruct Hs2' as [-> | ->]; auto.
    + destruct Hcase as [[-> _]|(name & s3 & df & df' & -> & Hs3 & Hs3'
                                 & -> & Hnorm & _)]; [by left|].
      right. exists name, df.
      destruct (proj1 (normalize_df_ok_iff df true)) as [Hl Hc]; [by eauto|].
      split_and!; [done| |done|done|by apply Hc].
      apply strategy_of_name_s3. destruct Hs3' as [-> | ->]; auto.
  - intros ([env ->] & Hs2%strategy_of_name_s2 & Hcase). unfold __init__.
    destruct Hcase as [->|(name & df & -> & Hs3%strategy_of_name_s3 & ->
                           & Hl & Hc)].
    + destruct Hs2 as [-> | ->]; eauto.
    + destruct (proj2 (normalize_df_ok_iff df true)) as [df' Hok];
        [by auto|]. rewrite Hok.
      destruct Hs2 as [-> | ->]; destruct Hs3 as [-> | ->]; eauto.
Qed.

(** X12. Without a stage-3 strategy, the constructed engine works on
    the given corpus with repetitions removed: every entry once, at the
    place of its first occurrence, so that what stands before an entry in
    the engine's corpus is what stands before its first occurrence in the
    given corpus; a corpus without repetitions is taken as it is; the
    queries are kept as given. *)
Theorem init_corpus_deduplicated (name kind : string)
    (queries labels : list string) (cura : dict) (k : nat)
    (s2_name : string) (threshold : Q)
    (env : option string) (qdf cdf : option DataFrame)
    (self : OntoMapEngine) :
  __init__ name kind queries labels cura k s2_name
    None threshold env qdf cdf = Ok self →
  NoDup (corpus self) ∧
  corpus self `sublist_of` labels ∧
  (∀ c, c ∈ corpus self ↔ c ∈ labels) ∧
  (∀ l1 c l2, labels = l1 ++ c :: l2 → c ∉ l1 →
     ∃ k1 k2, corpus self = k1 ++ c :: k2 ∧ ∀ x, x ∈ k1 ↔ x ∈ l1) ∧
  (NoDup labels → corpus self = labels) ∧
  query self = queries.
Proof.
  intros Hok.
  apply init_ok_inv in Hok as (e & s2 & _ & _ & _ & Hcase).
  destruct Hcase as [[_ ->]|(? & ? & ? & ? & [=] & _)]. simpl.
  split_and!.
  - apply unique_in_order_NoDup.
  - apply unique_in_order_sublist.
  - intros c. apply elem_of_unique_in_order.
  - intros l1 c l2 -> Hc.
    destruct (unique_in_order_first l1 l2 c Hc) as [k2 Hk2].
    exists (unique_in_order l1), k2. split; [done|].
    intros x. apply elem_of_unique_in_order.
  - apply unique_in_order_id.
  - done.
Qed.

(** X13. With a stage-3 strategy, the constructed engine holds the
    normalized reference table, and its corpus is the labels of that table,
    each once; the corpus given to the constructor is not used. *)
Theorem init_corpus_from_reference_table (name kind : string)
    (queries labels : list string) (cura : dict) (k : nat)
    (s2_name s3_name : string) (threshold : Q)
    (env : option string) (qdf cdf : option DataFrame)
    (self : OntoMapEngine) :
  __init__ name kind queries labels cura k s2_name
    (Some s3_name) threshold env qdf cdf = Ok self →
  (∃ df df',
     cdf = Some df ∧ _normalize_df df true = Ok df' ∧
     corpus_df self = Some df' ∧
     ∀ c, c ∈ corpus self ↔
          ∃ r, r ∈ rows df' ∧ r !! "official_label" = Some (Str c)) ∧
  NoDup (corpus self) ∧
  ∀ other_labels,
    __init__ name kind queries other_labels cura k s2_name
      (Some s3_name) threshold env qdf cdf = Ok self.
Proof.
  intros Hok.
  apply init_ok_inv in Hok as (e & s2 & -> & Hs2 & Hs2' & Hcase).
  destruct Hcase as [[[=] _]|(name' & s3 & df & df' & [= <-] & Hs3 & Hs3'
                              & -> & Hnorm & ->)].
  simpl. split_and!.
  - exists df, df'. split_and!; [done..|].
    intros c. rewrite elem_of_unique_in_order, list_elem_of_fmap.
    apply normalize_df_ok_inv in Hnorm as (dfa & dfb & _ & _ & ->).
    split.
    + intros (r & -> & Hr). exists r. split; [done|].
      destruct (basic_cleaning_text dfb true r Hr) as [[s ->] _]. done.
    + intros (r & Hr & Hc). exists r. split; [by rewrite Hc|done].
  - apply unique_in_order_NoDup.
  - intros other_labels. unfold __init__. rewrite Hs2, Hs3, Hnorm.
    by destruct Hs2' as [-> | ->]; destruct Hs3' as [-> | ->].
Qed.

(** X14. The matchers an engine built by the constructor runs: the first
    one called is the [lm] or [st] matcher, built without a reference
    table; a second one, if any, is the [rag] or [rag_bie] matcher, built
    with the normalized reference table of the engine; both get the corpus
    and the top-K of the engine. *)
Theorem constructed_engine_matchers (name kind : string)
    (queries labels : list string) (cura : dict) (k : nat)
    (s2_name : string) (s3_name : option string) (threshold : Q)
    (env : option string) (qdf cdf : option DataFrame)
    (self : OntoMapEngine) :
  __init__ name kind queries labels cura k s2_name
    s3_name threshold env qdf cdf = Ok self →
  let calls := (run_traced self).1 in
  (length calls ≤ 2)%nat ∧
  (∀ m, m ∈ calls →
        om_corpus m = corpus self ∧ om_topk m = k) ∧
  (∀ m, calls !! 0%nat = Some m →
        (om_strategy m = LM ∨ om_strategy m = ST) ∧
        om_corpus_df m = None ∧ om_query_df m = None) ∧
  (∀ m, calls !! 1%nat = Some m →
        (om_strategy m = RAG ∨ om_strategy m = RAG_BIE) ∧
        is_Some (om_corpus_df m) ∧
        om_corpus_df m = corpus_df self).
Proof.
  intros Hok.
  apply init_ok_inv in Hok as (e & s2 & _ & _ & Hs2' & Hcase).
  assert (s2_strategy self = s2 ∧ topk self = k ∧
          ∀ s3, s3_strategy self = Some s3 →
                (s3 = RAG ∨ s3 = RAG_BIE)
                ∧ is_Some (corpus_df self)) as (Hself2 & Htopk & Hself3).
  { destruct Hcase as [[_ ->]|(? & s3 & ? & df' & _ & _ & Hs3' & _ & _ & ->)];
      simpl; split_and!; try done.
    intros ? [= <-]. eauto. }
  assert (∀ s qs, om_corpus (stage_model self s qs) = corpus self
                  ∧ om_topk (stage_model self s qs) = k
                  ∧ om_strategy (stage_model self s qs) = s) as Hmodel.
  { intros s qs. unfold stage_model, _om_model_from_strategy.
    by destruct s. }
  assert (∀ qs, om_corpus_df (stage_model self s2 qs) = None
                ∧ om_query_df (stage_model self s2 qs) = None) as Hm2.
  { intros qs. unfold stage_model, _om_model_from_strategy.
    by destruct Hs2' as [-> | ->]. }
  assert (∀ s3 qs, s3 = RAG ∨ s3 = RAG_BIE →
                   om_corpus_df (stage_model self s3 qs)
                   = corpus_df self) as Hm3.
  { intros s3 qs [-> | ->]; done. }
  simpl.
  destruct (run_cases self)
    as [[_ ->]|[(_ & _ & ->)|(s3 & Hs3 & _ & _ & _ & ->)]]; simpl;
    rewrite ?Hself2.
  - split_and!; [lia| | |]; intros m; try done.
    by rewrite elem_of_nil.
  - split_and!; [lia| | |].
    + intros m ->%list_elem_of_singleton. by destruct (Hmodel s2 (non_exact_matches_ls self)) as (? & ? & _).
    + intros m [= <-]. destruct (Hmodel s2 (non_exact_matches_ls self)) as (_ & _ & ->).
      split; [done|]. apply Hm2.
    + intros m [=].
  - destruct (Hself3 s3 Hs3) as [Hs3' Hsome].
    split_and!; [lia| | |].
    + intros m. rewrite !elem_of_cons, elem_of_nil.
      intros [->|[->|[]]]; [by destruct (Hmodel s2 (non_exact_matches_ls self)) as (? & ? & _)|].
      by destruct (Hmodel s3 (queries_for_s3 self)) as (? & ? & _).
    + intros m [= <-]. destruct (Hmodel s2 (non_exact_matches_ls self)) as (_ & _ & ->).
      split; [done|]. apply Hm2.
    + intros m [= <-]. destruct (Hmodel s3 (queries_for_s3 self)) as (_ & _ & ->).
      split_and!; [done| |by apply Hm3]. rewrite Hm3 by done. done.
Qed.

End Construction.

(** ** The cascade, further *)

Section CascadeMore.

Context `{Externals}.

Lemma original_values_exact_df (self : OntoMapEngine) :
  original_values (exact_df self)
  = (λ q, Some (Str q)) <$> _exact_matching self.
Proof.
  unfold original_values. rewrite rows_exact_df, <- list_fmap_compose.
  apply list_fmap_ext. intros _ q _. simpl. apply exact_row_original_value.
Qed.

(** X15. When every query is an exact match (in particular when there
    is no query), [run] calls no backend and returns the stage-1 table: one
    row per query, in the order of the query list, repetitions kept. *)
Theorem run_all_exact (self : OntoMapEngine) :
  (∀ q, q ∈ query self →
        ∃ c, c ∈ corpus self ∧
             PyStr.lower (PyStr.strip q) = PyStr.lower (PyStr.strip c)) →
  run_traced self = ([], exact_df self) ∧
  original_values (run self) = (λ q, Some (Str q)) <$> query self.
Proof.
  intros Hall.
  assert (_exact_matching self = query self) as Hexact.
  { unfold _exact_matching. apply filter_all. intros q Hq.
    destruct (Hall q Hq) as (c & Hc & Hnorm).
    apply list_elem_of_fmap. eauto. }
  assert (non_exact_matches_ls self = []) as Hnil.
  { apply elem_of_nil_inv. intros q [Hq Hne]%elem_of_non_exact.
    apply Hne. by rewrite Hexact. }
  assert (run_traced self = ([], exact_df self)) as Hrun.
  { unfold run_traced. by rewrite decide_True. }
  split; [done|]. unfold run. rewrite Hrun. simpl.
  by rewrite original_values_exact_df, Hexact.
Qed.

Lemma with_threshold_same (t : Q) (self : OntoMapEngine) :
  exact_df (with_threshold t self) = exact_df self ∧
  non_exact_matches_ls (with_threshold t self) = non_exact_matches_ls self ∧
  s2_res (with_threshold t self) = s2_res self ∧
  (∀ s qs, stage_model (with_threshold t self) s qs = stage_model self s qs).
Proof. by destruct self. Qed.

(** X16. Without a stage-3 strategy the threshold plays no part: [run]
    returns the same table, after the same backend calls, whatever the
    threshold. *)
Theorem run_without_stage3_ignores_threshold (self : OntoMapEngine) (t : Q) :
  s3_strategy self = None →
  run_traced (with_threshold t self) = run_traced self.
Proof.
  intros Hs3. destruct (with_threshold_same t self) as (He & Hn & H2 & Hm).
  unfold run_traced. rewrite He, Hn, H2, Hm.
  replace (s2_strategy (with_threshold t self)) with (s2_strategy self)
    by done.
  replace (s3_strategy (with_threshold t self)) with (s3_strategy self)
    by done.
  by rewrite Hs3.
Qed.

(** X17. A higher threshold escalates at least the queries a lower one
    escalates. *)
Theorem escalation_monotone (self : OntoMapEngine) (t t' : Q) (q : string) :
  Qle t t' →
  q ∈ queries_for_s3 (with_threshold t self) →
  q ∈ queries_for_s3 (with_threshold t' self).
Proof.
  intros Hle. rewrite !elem_of_queries_for_s3.
  destruct (with_threshold_same t self) as (_ & _ & -> & _).
  destruct (with_threshold_same t' self) as (_ & _ & -> & _).
  intros (r & Hr & Hlow & Hq). exists r. split_and!; [done| |done].
  unfold low_confidence_mask in *. simpl in *.
  apply Qlt_bool_true. apply Qlt_bool_true in Hlow.
  by eapply Qlt_le_trans.
Qed.

(** X18. The stage-3 backend is called exactly when a stage-3 strategy
    is configured, the stage-2 backend returned a [top1_score] column, and
    some stage-2 row has a coerced score below the threshold; it is then
    given the expansions of the escalated queries. *)
Theorem stage3_called_iff (self : OntoMapEngine) :
  (length (run_traced self).1 = 2%nat ↔
   is_Some (s3_strategy self) ∧
   "top1_score" ∈ mt_columns (s2_match_results self) ∧
   ∃ r, r ∈ rows (s2_res self) ∧
        Qlt (coerced_score r) (s3_threshold self)) ∧
  (∀ m, (run_traced self).1 !! 1%nat = Some m →
        Some (om_strategy m) = s3_strategy self ∧
        om_query m = updated_queries (queries_for_s3 self)).
Proof.
  assert (queries_for_s3 self ≠ [] ↔
          ∃ r, r ∈ rows (s2_res self)
               ∧ Qlt (coerced_score r) (s3_threshold self)) as Hq3.
  { split.
    - intros Hne. destruct (queries_for_s3 self) as [|q l] eqn:Hq; [done|].
      assert (q ∈ queries_for_s3 self) as Hin by (rewrite Hq; left).
      apply elem_of_queries_for_s3 in Hin as (r & Hr & Hlow & _).
      exists r. split; [done|]. by apply Qlt_bool_true.
    - intros (r & Hr & Hlow) Hnil.
      assert (row_original_value r ∈ queries_for_s3 self) as Hin.
      { apply elem_of_queries_for_s3. exists r.
        split_and!; [done| |done]. by apply Qlt_bool_true. }
      rewrite Hnil in Hin. by apply elem_of_nil in Hin. }
  assert ("top1_score" ∈ columns (s2_res self) ↔
          "top1_score" ∈ mt_columns (s2_match_results self)) as Hcol
    by apply top1_score_in_stage_res.
  destruct (run_cases self)
    as [[Hnil ->]|[(Hne & Hwhy & ->)|(s3 & Hs3 & Hne & Hc & Hq & ->)]];
    cbn [fst length].
  - split; [|done]. split; [done|]. intros (_ & _ & r & Hr & _).
    apply elem_of_rows_s2_res in Hr as (q & Hqin & _).
    rewrite Hnil in Hqin. by apply elem_of_nil in Hqin.
  - split; [|done]. split; [done|]. intros ([s3 Hs3] & Hc & Hex).
    exfalso. destruct Hwhy as [Hnone|[Hnc|Hnil]].
    + congruence.
    + by apply Hnc, Hcol.
    + by apply Hq3 in Hex.
  - split.
    + split; [|done]. intros _. rewrite Hs3.
      split_and!; [by eauto|by apply Hcol|by apply Hq3].
    + intros m Hm.
      assert (m = stage_model self s3 (queries_for_s3 self)) as ->
        by (by injection Hm).
      rewrite Hs3. split; [|by destruct s3].
      unfold stage_model, _om_model_from_strategy. by destruct s3.
Qed.

End CascadeMore.

Section ResultRows.

Context `{Externals}.

Lemma tag_row_curated (self : OntoMapEngine) (stage : Z) (r : row)
    (q : string) :
  r !! "original_value" = Some (Str q) →
  tag_row self stage r !! "curated_ontology"
  = Some (Str (default "Not Found" (dict_get (cura_map self) q))).
Proof.
  intros Hov. unfold tag_row.
  rewrite lookup_partial_alter_ne, lookup_partial_alter_eq by done.
  rewrite Hov. simpl. by destruct (dict_get (cura_map self) q).
Qed.

Lemma stage_rows_for_inv (self : OntoMapEngine) (stage : Z)
    (res : MatchTable) (q u : string) (r : row) :
  r ∈ stage_rows_for self stage res q u →
  ∃ r0, r = tag_row self stage r0 ∧
        r0 !! "original_value" = Some (Str q) ∧
        r0 !! "updated_value" = Some (Str u) ∧
        ((rows_keyed u res = [] ∧ r0 = replace_row q u)
         ∨ (∃ br, br ∈ mt_rows res ∧ br.1 = u ∧ r0 = replace_row q u ∪ br.2)).
Proof.
  unfold stage_rows_for. intros (r0 & -> & Hr0)%list_elem_of_fmap.
  exists r0. split; [done|].
  destruct (rows_keyed u res) as [|br ms] eqn:Hk.
  - apply list_elem_of_singleton in Hr0 as ->.
    rewrite replace_row_original_value, replace_row_updated_value. auto.
  - apply list_elem_of_fmap in Hr0 as (br' & -> & Hbr').
    split_and!.
    + apply lookup_union_Some_l, replace_row_original_value.
    + apply lookup_union_Some_l, replace_row_updated_value.
    + right. exists br'. rewrite <- Hk in Hbr'. unfold rows_keyed in Hbr'.
      apply list_elem_of_filter in Hbr' as [? ?]. done.
Qed.

Lemma elem_of_rows_stage_res_inv (self : OntoMapEngine) (stage : Z)
    (s : strategy) (qs : list string) (r : row) :
  r ∈ rows (stage_res self stage s qs) →
  ∃ q, q ∈ qs ∧
       r ∈ stage_rows_for self stage (stage_match_results self s qs) q
             (_map_shortname_to_fullname qs !!! q).
Proof. rewrite rows_stage_res, list_elem_of_bind. naive_solver. Qed.

Lemma expansion_of_member (qs : list string) (q : string) :
  q ∈ qs →
  _map_shortname_to_fullname qs !!! q
  = default (PyStr.strip q) (short_to_name !! PyStr.strip q).
Proof.
  intros Hq. rewrite lookup_total_alt, map_shortname_lookup.
  by rewrite decide_True by done.
Qed.

(** X19. The curated label of a row of the table [run] returns comes
    from the curation map at the original query, whatever the backend
    returned: for a stage-1 row the value of the map, or the query itself
    when the map has none; for a stage-2 or stage-3 row the value of the
    map, or the text Not Found. *)
Theorem curated_label_from_original_query (self : OntoMapEngine) (r : row) :
  r ∈ rows (run self) →
  ∃ q, r !! "original_value" = Some (Str q) ∧
       ((r !! "stage" = Some (Int 1) ∧
         r !! "curated_ontology"
         = Some (Str (default q (dict_get (cura_map self) q))))
        ∨ ((r !! "stage" = Some (Int 2) ∨ r !! "stage" = Some (Int 3)) ∧
           r !! "curated_ontology"
           = Some (Str (default "Not Found"
                          (dict_get (cura_map self) q))))).
Proof.
  assert (∀ stage s qs r,
            r ∈ rows (stage_res self stage s qs) →
            ∃ q, r !! "original_value" = Some (Str q) ∧
                 r !! "stage" = Some (Int stage) ∧
                 r !! "curated_ontology"
                 = Some (Str (default "Not Found"
                                (dict_get (cura_map self) q)))) as Hstage.
  { intros stage s qs r0 (q & Hq & Hr0)%elem_of_rows_stage_res_inv.
    pose proof (stage_rows_for_spec _ _ _ _ _ _ Hr0) as (Hov & _ & Hst).
    apply stage_rows_for_inv in Hr0 as (r1 & -> & Hov1 & _).
    exists q. split_and!; [done..|]. by apply tag_row_curated. }
  unfold run.
  destruct (run_cases self)
    as [[_ ->]|[(_ & _ & ->)|(s3 & _ & _ & _ & _ & ->)]];
    cbn [snd]; rewrite ?rows_pd_concat2, ?rows_pd_concat3, ?elem_of_app;
    intros Hr.
  all: repeat match goal with
       | Hr : _ ∨ _ |- _ => destruct Hr as [Hr|Hr]
       end.
  all: try (apply elem_of_rows_exact_df in Hr as (q & _ & ->);
            exists q; split; [apply exact_row_original_value|]; left;
            split; [apply exact_row_stage|apply exact_row_curated]).
  all: try apply elem_of_rows_s2_res_filtered in Hr as [Hr _].
  all: destruct (Hstage _ _ _ _ Hr) as (q & Hov & Hst & Hcur);
       exists q; split; [done|]; right; split; [|done]; rewrite Hst; auto.
Qed.

(** X20. The [updated_value] of a stage-2 or stage-3 row of a stage
    table is the expansion of its original query: the display name of the
    table for the trimmed query, or the trimmed query. *)
Theorem updated_value_is_expansion (self : OntoMapEngine) (stage : Z)
    (s : strategy) (qs : list string) (r : row) :
  r ∈ rows (stage_res self stage s qs) →
  ∃ q, q ∈ qs ∧
       r !! "original_value" = Some (Str q) ∧
       r !! "updated_value"
       = Some (Str (default (PyStr.strip q)
                      (short_to_name !! PyStr.strip q))).
Proof.
  intros (q & Hq & Hov & Huv & _)%elem_of_rows_stage_res.
  exists q. split_and!; [done..|]. by rewrite Huv, expansion_of_member.
Qed.

Lemma replace_row_union_other (q u c : string) (fields : row) :
  c ∉ stage_columns → (replace_row q u ∪ fields) !! c = fields !! c.
Proof.
  unfold stage_columns. rewrite !elem_of_cons, elem_of_nil. intros Hc.
  apply lookup_union_r, replace_row_other; tauto.
Qed.

(** X21. The engine passes on what the backends return.  Outside the four
    columns it fills itself, a row of the stage-2 or of the stage-3 table
    holds the cells of a row the backend returned for the row's
    [updated_value], scores included, and is null throughout only when the
    backend returned no row for it.  No backend row is lost: every row the
    backend returned for the expansion of a query of the stage is carried
    by a row of that query in the stage table. *)
Theorem backend_cells_unchanged (self : OntoMapEngine) :
  (∀ r, r ∈ rows (s2_res self) →
        carries_backend_row (s2_match_results self) r) ∧
  (∀ s3 r, r ∈ rows (s3_res self s3) →
           carries_backend_row (s3_match_results self s3) r) ∧
  (∀ q br,
     q ∈ non_exact_matches_ls self →
     br ∈ rows_keyed
            (_map_shortname_to_fullname (non_exact_matches_ls self) !!! q)
            (s2_match_results self) →
     ∃ r, r ∈ rows (s2_res self) ∧
          r !! "original_value" = Some (Str q) ∧
          ∀ c, c ∉ stage_columns → r !! c = br.2 !! c) ∧
  (∀ s3 q br,
     q ∈ queries_for_s3 self →
     br ∈ rows_keyed
            (_map_shortname_to_fullname (queries_for_s3 self) !!! q)
            (s3_match_results self s3) →
     ∃ r, r ∈ rows (s3_res self s3) ∧
          r !! "original_value" = Some (Str q) ∧
          ∀ c, c ∉ stage_columns → r !! c = br.2 !! c).
Proof.
  assert (∀ stage r0 c, c ∉ stage_columns →
                        tag_row self stage r0 !! c = r0 !! c) as Htag.
  { intros stage r0 c. unfold stage_columns.
    rewrite !elem_of_cons, elem_of_nil. intros Hc.
    apply tag_row_other; tauto. }
  assert (∀ stage s qs r,
            r ∈ rows (stage_res self stage s qs) →
            carries_backend_row (stage_match_results self s qs) r) as Hstage.
  { intros stage s qs r (q & Hq & Hr)%elem_of_rows_stage_res_inv.
    apply stage_rows_for_inv in Hr as (r0 & -> & _ & Huv & Hcase).
    exists (_map_shortname_to_fullname qs !!! q). split.
    { by rewrite tag_row_other. }
    destruct Hcase as [[Hnone ->]|(br & Hbr & Hkey & ->)].
    - left. split; [done|]. intros c Hc. rewrite Htag by done.
      unfold stage_columns in Hc. rewrite !elem_of_cons, elem_of_nil in Hc.
      apply replace_row_other; tauto.
    - right. exists br. split.
      + unfold rows_keyed. by apply list_elem_of_filter.
      + intros c Hc. rewrite Htag by done.
        by apply replace_row_union_other. }
  assert (∀ stage s qs q br,
            q ∈ qs →
            br ∈ rows_keyed (_map_shortname_to_fullname qs !!! q)
                   (stage_match_results self s qs) →
            ∃ r, r ∈ rows (stage_res self stage s qs) ∧
                 r !! "original_value" = Some (Str q) ∧
                 ∀ c, c ∉ stage_columns → r !! c = br.2 !! c) as Hall.
  { intros stage s qs q br Hq Hbr.
    set (u := _map_shortname_to_fullname qs !!! q) in *.
    exists (tag_row self stage (replace_row q u ∪ br.2)). split_and!.
    - rewrite rows_stage_res, list_elem_of_bind. exists q. split; [|done].
      fold u. unfold stage_rows_for.
      destruct (rows_keyed u (stage_match_results self s qs)) as [|b ms];
        [by apply elem_of_nil in Hbr|].
      apply list_elem_of_fmap. eexists. split; [done|].
      apply list_elem_of_fmap. by exists br.
    - rewrite tag_row_other by done.
      apply lookup_union_Some_l, replace_row_original_value.
    - intros c Hc. rewrite Htag by done.
      by apply replace_row_union_other. }
  split_and!.
  - intros r. apply Hstage.
  - intros s3 r. apply Hstage.
  - intros q br. apply Hall.
  - intros s3 q br. apply Hall.
Qed.

(** X22. The rows of the table [run] returns are ordered by stage: the
    stage-1 rows, which are the exact matches in the order of the query
    list, then the stage-2 rows, then the stage-3 rows. *)
Theorem rows_ordered_by_stage (self : OntoMapEngine) :
  ∃ l1 l2 l3,
    rows (run self) = l1 ++ l2 ++ l3 ∧
    row_original_value <$> l1 = _exact_matching self ∧
    Forall (λ r, r !! "stage" = Some (Int 1)) l1 ∧
    Forall (λ r, r !! "stage" = Some (Int 2)) l2 ∧
    Forall (λ r, r !! "stage" = Some (Int 3)) l3.
Proof.
  assert (row_original_value <$> rows (exact_df self) = _exact_matching self
          ∧ Forall (λ r, r !! "stage" = Some (Int 1)) (rows (exact_df self)))
    as [Hov1 Hst1].
  { rewrite rows_exact_df. split.
    - rewrite <- list_fmap_compose. rewrite <- (list_fmap_id (_exact_matching self)) at 2.
      apply list_fmap_ext. intros _ q _. simpl.
      apply row_original_value_eq, exact_row_original_value.
    - apply Forall_fmap, Forall_forall. intros q _. apply exact_row_stage. }
  assert (Forall (λ r, r !! "stage" = Some (Int 2)) (rows (s2_res self)))
    as Hst2.
  { apply Forall_forall. intros r Hr.
    by destruct (elem_of_rows_s2_res self r Hr) as (? & _ & _ & ?). }
  unfold run.
  destruct (run_cases self)
    as [[_ ->]|[(_ & _ & ->)|(s3 & _ & _ & _ & _ & ->)]]; cbn [snd].
  - exists (rows (exact_df self)), [], []. rewrite !app_nil_r.
    split_and!; done.
  - exists (rows (exact_df self)), (rows (s2_res self)), [].
    rewrite rows_pd_concat2, app_nil_r. split_and!; done.
  - exists (rows (exact_df self)), (rows (s2_res_filtered self)),
      (rows (s3_res self s3)).
    rewrite rows_pd_concat3. split_and!; [done..| |].
    + apply Forall_forall. intros r [Hr _]%elem_of_rows_s2_res_filtered.
      by eapply Forall_forall in Hst2.
    + apply Forall_forall. intros r Hr.
      by destruct (elem_of_rows_s3_res self s3 r Hr) as (? & _ & _ & ?).
Qed.

(** X23. A query the stage-2 backend returned no row for is escalated:
    with a stage-3 strategy configured, a [top1_score] column in the
    stage-2 table and a threshold above 0, every row of that query in the
    table [run] returns is a stage-3 row, and there is one. *)
Theorem dropped_query_escalated (self : OntoMapEngine) (s3 : strategy)
    (q : string) :
  s3_strategy self = Some s3 →
  "top1_score" ∈ columns (s2_res self) →
  Qlt 0 (s3_threshold self) →
  q ∈ non_exact_matches_ls self →
  rows_keyed (_map_shortname_to_fullname (non_exact_matches_ls self) !!! q)
    (s2_match_results self) = [] →
  (∃ r, r ∈ rows (run self) ∧ r !! "original_value" = Some (Str q)) ∧
  (∀ r, r ∈ rows (run self) → r !! "original_value" = Some (Str q) →
        r !! "stage" = Some (Int 3)).
Proof.
  intros Hs3 Hcol Hthr Hq Hnone.
  set (u := _map_shortname_to_fullname (non_exact_matches_ls self) !!! q)
    in *.
  set (r2 := tag_row self 2 (replace_row q u)).
  assert (r2 ∈ rows (s2_res self)) as Hr2.
  { unfold s2_res. rewrite rows_stage_res, list_elem_of_bind.
    exists q. split; [|done]. fold u.
    unfold s2_match_results in Hnone.
    rewrite stage_rows_for_dropped by done. left. }
  assert (row_original_value r2 = q) as Hov2.
  { apply row_original_value_eq. unfold r2.
    rewrite tag_row_other by done. apply replace_row_original_value. }
  assert (q ∈ queries_for_s3 self) as Hq3.
  { apply elem_of_queries_for_s3. exists r2. split_and!; [done| |done].
    unfold low_confidence_mask, coerced_score, r2.
    rewrite tag_row_other, replace_row_other by done. simpl.
    by apply Qlt_bool_true. }
  split.
  - apply run_covers_queries. by apply elem_of_non_exact in Hq as [? _].
  - intros r Hr Hov.
    destruct (run_row_stage self r Hr) as (q' & _ & Hov' & ->).
    assert (q' = q) as -> by congruence.
    unfold final_stage.
    rewrite decide_False
      by (by apply elem_of_non_exact in Hq as [_ ?]).
    rewrite decide_True; [done|]. rewrite Hs3. eauto.
Qed.

End ResultRows.

(** ** The re-keyed curation map, the stage-1 table and the row count *)

Lemma dict_get_dict_set (d : dict) (k v k' : string) :
  dict_get (dict_set k v d) k'
  = if decide (k = k') then Some v else dict_get d k'.
Proof.
  induction d as [|[k0 v0] d IH]; simpl.
  - by repeat case_decide.
  - destruct (decide (k0 = k)) as [->|Hne]; simpl.
    + by repeat case_decide.
    + rewrite IH. repeat case_decide; congruence.
Qed.

Lemma dict_set_keys (d : dict) (k v : string) :
  (dict_set k v d).*1 = if decide (k ∈ d.*1) then d.*1 else d.*1 ++ [k].
Proof.
  induction d as [|[k0 v0] d IH]; simpl; [done|].
  destruct (decide (k0 = k)) as [->|Hne]; csimpl.
  - rewrite decide_True by left. done.
  - rewrite IH. destruct (decide (k ∈ d.*1)) as [Hin|Hin].
    + rewrite decide_True by (by right). done.
    + rewrite decide_False; [done|].
      rewrite elem_of_cons. intros [|]; congruence.
Qed.

Lemma dict_set_NoDup (d : dict) (k v : string) :
  NoDup d.*1 → NoDup (dict_set k v d).*1.
Proof.
  intros Hnd. rewrite dict_set_keys. case_decide as Hin; [done|].
  apply NoDup_app. split_and!; [done| |apply NoDup_singleton].
  intros x Hx Hxk%list_elem_of_singleton. by subst.
Qed.

Lemma dict_get_Some_elem (d : dict) (k v : string) :
  dict_get d k = Some v → (k, v) ∈ d.
Proof.
  induction d as [|[k0 v0] d IH]; simpl; [done|].
  case_decide as Hk.
  - intros [= ->]. subst. left.
  - intros Hd. right. by apply IH.
Qed.

Section CuraMap.

Context `{Externals}.

(** The items of the curation map that [run] re-keys for a stage, under
    their new keys. *)
Lemma updated_cura_map_lookup (self : OntoMapEngine) (qs : list string)
    (u : string) :
  dict_get (updated_cura_map self qs) u
  = dict_get
      (reverse ((λ kv, (_map_shortname_to_fullname qs !!! kv.1, kv.2))
                  <$> filter (λ kv, kv.1 ∈ qs) (cura_map self))) u.
Proof.
  unfold updated_cura_map, dict.
  induction (cura_map self) as [|kv d IH] using rev_ind; [done|].
  rewrite foldl_snoc, filter_app, filter_cons, filter_nil.
  assert (is_Some (_map_shortname_to_fullname qs !! kv.1) ↔ kv.1 ∈ qs)
    as Hin.
  { rewrite map_shortname_lookup. case_decide; [by eauto|].
    split; [by intros [? ?]|done]. }
  destruct (decide (is_Some (_map_shortname_to_fullname qs !! kv.1)))
    as [Hsome|Hnone].
  - rewrite decide_True by (by apply Hin).
    rewrite fmap_app, reverse_app. csimpl.
    rewrite dict_get_dict_set, IH. done.
  - rewrite decide_False by (by rewrite <- Hin).
    by rewrite app_nil_r.
Qed.

Lemma updated_cura_map_NoDup (self : OntoMapEngine) (qs : list string) :
  NoDup (updated_cura_map self qs).*1.
Proof.
  unfold updated_cura_map.
  induction (cura_map self) as [|kv d IH] using rev_ind; [constructor|].
  rewrite foldl_snoc. case_decide; [|done]. by apply dict_set_NoDup.
Qed.

(** X24. The curation map handed to a backend has pairwise distinct
    keys; each of its items is an item of the engine's curation map whose
    key is a query of the stage, under the expansion of that key; and a
    curated query of the stage keeps its curated value under its expansion
    when no later item of the curation map has a key among the queries with
    the same expansion. *)
Theorem updated_cura_map_rekeyed (self : OntoMapEngine)
    (qs : list string) :
  NoDup (updated_cura_map self qs).*1 ∧
  (∀ u v, dict_get (updated_cura_map self qs) u = Some v →
          ∃ k, (k, v) ∈ cura_map self ∧ k ∈ qs ∧
               _map_shortname_to_fullname qs !!! k = u) ∧
  (∀ before k v after,
     cura_map self = before ++ (k, v) :: after → k ∈ qs →
     (∀ kv, kv ∈ after → kv.1 ∈ qs →
            _map_shortname_to_fullname qs !!! kv.1
            ≠ _map_shortname_to_fullname qs !!! k) →
     dict_get (updated_cura_map self qs)
       (_map_shortname_to_fullname qs !!! k) = Some v).
Proof.
  split_and!.
  - apply updated_cura_map_NoDup.
  - intros u v. rewrite updated_cura_map_lookup. unfold dict.
    intros Hget%dict_get_Some_elem.
    apply elem_of_reverse, list_elem_of_fmap in Hget as ([k v'] & [= -> ->] & Hkv).
    apply list_elem_of_filter in Hkv as [Hk Hkv]. exists k. done.
  - intros before k v after Hcura Hk Hafter.
    rewrite updated_cura_map_lookup, Hcura. unfold dict.
    rewrite filter_app, filter_cons, decide_True by done.
    rewrite fmap_app, reverse_app, fmap_cons, reverse_cons.
    generalize (reverse ((λ kv : string * string,
                            (_map_shortname_to_fullname qs !!! kv.1, kv.2))
                           <$> filter (λ kv, kv.1 ∈ qs) before)).
    intros rest.
    assert (∀ kv, kv ∈ filter (λ kv : string * string, kv.1 ∈ qs) after →
                  _map_shortname_to_fullname qs !!! kv.1
                  ≠ _map_shortname_to_fullname qs !!! k) as Hafter'.
    { intros kv [Hin Hkv]%list_elem_of_filter. by apply Hafter. }
    induction (filter (λ kv : string * string, kv.1 ∈ qs) after)
      as [|kv l IH] using rev_ind.
    + simpl. by rewrite decide_True.
    + rewrite fmap_app, reverse_app. simpl.
      rewrite decide_False.
      * apply IH. intros kv' Hkv'. apply Hafter'.
        rewrite elem_of_app. auto.
      * apply Hafter'. rewrite elem_of_app, list_elem_of_singleton. auto.
Qed.

End CuraMap.

Section StageOneTable.

Context `{Externals}.

Lemma columns_top_loop (df : DataFrame) (l : list nat) :
  NoDup l →
  (∀ i, i ∈ l → (top_match i ∉ columns df) ∧ (top_score i ∉ columns df)) →
  columns (foldl (λ df i,
                    df_assign (top_score i) (λ _, Some (Float 1))
                      (df_assign (top_match i)
                         (λ r, r !! "curated_ontology") df))
                 df l)
  = columns df ++ (l ≫= (λ i, [top_match i; top_score i])).
Proof.
  revert df. induction l as [|i l IH]; intros df Hnd Hfresh.
  - by rewrite app_nil_r.
  - apply NoDup_cons in Hnd as [Hi Hnd].
    destruct (Hfresh i) as [Hm Hs]; [left|].
    cbn [foldl]. rewrite IH; [|done|].
    + unfold df_assign at 1 2. cbn [columns].
      rewrite (decide_False (P:=top_match i ∈ columns df)) by done.
      rewrite decide_False.
      * rewrite bind_cons, <- !app_assoc. done.
      * rewrite elem_of_app, list_elem_of_singleton.
        intros [|Heq]; [done|]. symmetry in Heq.
        by apply top_match_ne_top_score in Heq.
    + intros j Hj.
      assert (j ≠ i) as Hne by (intros ->; done).
      destruct (Hfresh j) as [Hmj Hsj]; [by right|].
      rewrite !columns_df_assign. split.
      * intros [Heq|[Heq|?]]; [|apply top_match_inj in Heq|]; try done.
        by apply top_match_ne_top_score in Heq.
      * intros [Heq|[Heq|?]]; [apply top_score_inj in Heq| |]; try done.
        symmetry in Heq. by apply top_match_ne_top_score in Heq.
Qed.

(** X25. The stage-1 table has the columns [original_value],
    [curated_ontology], [match_level] and [stage], then [top{i}_match] and
    [top{i}_score] for i from 1 to top-K, in this order, and none of its
    cells is null. *)
Theorem exact_df_schema (self : OntoMapEngine) :
  columns (exact_df self)
  = ["original_value"; "curated_ontology"; "match_level"; "stage"]
    ++ (seq 1 (topk self) ≫= (λ i, [top_match i; top_score i])) ∧
  ∀ r c, r ∈ rows (exact_df self) → c ∈ columns (exact_df self) →
         is_Some (r !! c).
Proof.
  assert (columns (exact_df self)
          = ["original_value"; "curated_ontology"; "match_level"; "stage"]
            ++ (seq 1 (topk self) ≫= (λ i, [top_match i; top_score i])))
    as Hcols.
  { unfold exact_df. rewrite columns_top_loop; [done|apply NoDup_seq|].
    intros i _.
    assert (∀ c, c ∈ ["original_value"; "curated_ontology"; "match_level";
                      "stage"] → engine_column c) as Heng.
    { intros c. unfold engine_column. rewrite !elem_of_cons. tauto. }
    split; intros Hin%Heng%(engine_column_not_top _ i); tauto. }
  split; [done|]. intros r c (q & _ & ->)%elem_of_rows_exact_df.
  rewrite Hcols, elem_of_app, !elem_of_cons, elem_of_nil, list_elem_of_bind.
  intros [[->|[->|[->|[->|[]]]]]|(i & Hc & Hi)].
  - by rewrite exact_row_original_value.
  - by rewrite exact_row_curated.
  - by rewrite exact_row_match_level.
  - by rewrite exact_row_stage.
  - apply elem_of_seq in Hi.
    rewrite !elem_of_cons, elem_of_nil in Hc. destruct Hc as [->|[->|[]]].
    + rewrite exact_row_top_match by lia. done.
    + rewrite exact_row_top_score by lia. done.
Qed.

(** X26. When each backend returns at most one row per query string, the
    table [run] returns has one row per exact match and one per distinct
    other query, and so no more rows than there are queries. *)
Theorem row_count (self : OntoMapEngine) :
  keys_distinct (s2_match_results self) →
  (∀ s3, s3_strategy self = Some s3 →
         keys_distinct (s3_match_results self s3)) →
  length (rows (run self))
  = (length (_exact_matching self) + length (non_exact_matches_ls self))%nat
  ∧ (length (rows (run self)) ≤ length (query self))%nat.
Proof.
  intros Hk2 Hk3.
  destruct (run_rows_split self) as (rest & Hrows & _ & Hperm).
  assert (length (rows (run self))
          = (length (_exact_matching self)
             + length (non_exact_matches_ls self))%nat) as Hlen.
  { rewrite Hrows, length_app, rows_exact_df, length_fmap.
    by rewrite <- (Hperm Hk2 Hk3), length_fmap. }
  split; [done|]. rewrite Hlen.
  set (P := λ q : string,
              PyStr.lower (PyStr.strip q)
              ∈ (λ c, PyStr.lower (PyStr.strip c)) <$> corpus self).
  assert (length (non_exact_matches_ls self)
          ≤ length (filter (λ q, ¬ P q) (query self)))%nat as Hle.
  { apply submseteq_length, NoDup_submseteq.
    - apply sorted_lt_NoDup, np_setdiff1d_sorted.
    - intros q [Hq Hne]%elem_of_non_exact.
      apply list_elem_of_filter. split; [|done].
      intros HP. apply Hne. unfold _exact_matching.
      by apply list_elem_of_filter. }
  pose proof (filter_app_complement P (query self)) as Hsplit.
  apply Permutation_length in Hsplit. rewrite length_app in Hsplit.
  unfold _exact_matching. fold P. lia.
Qed.

End StageOneTable.

(** ** The further properties on concrete engines *)

Lemma exact_matching_corpus_as_set_witness :
  query (recased_engine scenario_queries)
  = query (two_stage_engine scenario_queries) ∧
  (∀ x, x ∈ (λ c, PyStr.lower (PyStr.strip c))
              <$> corpus (recased_engine scenario_queries) ↔
        x ∈ (λ c, PyStr.lower (PyStr.strip c))
              <$> corpus (two_stage_engine scenario_queries)) ∧
  _exact_matching (recased_engine scenario_queries)
  = _exact_matching (two_stage_engine scenario_queries).
Proof.
  assert (∀ x, x ∈ (λ c, PyStr.lower (PyStr.strip c))
                     <$> corpus (recased_engine scenario_queries) ↔
               x ∈ (λ c, PyStr.lower (PyStr.strip c))
                     <$> corpus (two_stage_engine scenario_queries))
    as Hset.
  { intros x.
    change (x ∈ ["breast cancer"; "lung cancer"; "lung cancer"]
            ↔ x ∈ ["lung cancer"; "breast cancer"]).
    rewrite !elem_of_cons, elem_of_nil. tauto. }
  split_and!; [reflexivity|exact Hset|].
  exact (exact_matching_corpus_as_set (two_stage_engine scenario_queries)
           (recased_engine scenario_queries) eq_refl Hset).
Defined.

(** An empty name cell gives nan; a code read as a missing value is not
    expanded; an exception other than [FileNotFoundError] propagates. *)
Example resolver_empty_name_cell :
  _map_shortname_to_fullname_of
    (CodeName [(Some "LUAD", Some "Lung Adenocarcinoma");
               (Some "NSCLC", None)])
    ["NSCLC"; "LUAD"]
  = Returned (<[ "NSCLC" := None ]>
                {[ "LUAD" := Some "Lung Adenocarcinoma" ]}).
Proof. vm_compute. reflexivity. Qed.

Example resolver_code_read_as_missing :
  _map_shortname_to_fullname_of
    (CodeName [(Some "LUAD", Some "Lung Adenocarcinoma");
               (None, Some "Not available")])
    ["NA"]
  = Returned {[ "NA" := Some "NA" ]}.
Proof. vm_compute. reflexivity. Qed.

Example resolver_other_exception :
  _map_shortname_to_fullname_of (OtherException "EmptyDataError") ["LUAD"]
  = Propagated "EmptyDataError".
Proof. reflexivity. Qed.

Lemma resolver_values_trimmed_witness :
  ∃ m, _map_shortname_to_fullname_of (CodeName padded_cells)
         ["LUAD "; "NSCLC"; " XYZ "] = Returned m ∧
       m !! "LUAD " = Some (Some "Lung Adenocarcinoma") ∧
       m !! "NSCLC" = Some None ∧
       m !! " XYZ " = Some (Some "XYZ") ∧
       PyStr.strip "Lung Adenocarcinoma" = "Lung Adenocarcinoma" ∧
       PyStr.strip "XYZ" = "XYZ".
Proof.
  assert (∃ m, _map_shortname_to_fullname_of (CodeName padded_cells)
                 ["LUAD "; "NSCLC"; " XYZ "] = Returned m ∧
               m !! "LUAD " = Some (Some "Lung Adenocarcinoma") ∧
               m !! "NSCLC" = Some None ∧
               m !! " XYZ " = Some (Some "XYZ"))
    as (m & Hm & Hluad & Hnsclc & Hxyz)
    by (eexists; split_and!; vm_compute; reflexivity).
  exists m.
  destruct (resolver_values_trimmed (CodeName padded_cells)
              ["LUAD "; "NSCLC"; " XYZ "] m Hm) as (_ & Htrim & _).
  split_and!; [exact Hm|exact Hluad|exact Hnsclc|exact Hxyz| |].
  - exact (Htrim "LUAD " "Lung Adenocarcinoma" Hluad).
  - exact (Htrim " XYZ " "XYZ" Hxyz).
Defined.

Lemma stage3_expansion_is_stage2_expansion_witness :
  "LUAD" ∈ queries_for_s3 (H:=luad_low_scores)
             (three_stage_engine ["LUAD"; "XYZ"]) ∧
  _map_shortname_to_fullname (H:=luad_low_scores)
    (queries_for_s3 (H:=luad_low_scores)
       (three_stage_engine ["LUAD"; "XYZ"])) !!! "LUAD"
  = _map_shortname_to_fullname (H:=luad_low_scores)
      (non_exact_matches_ls (three_stage_engine ["LUAD"; "XYZ"])) !!! "LUAD".
Proof.
  assert ("LUAD" ∈ queries_for_s3 (H:=luad_low_scores)
                     (three_stage_engine ["LUAD"; "XYZ"])) as Hq
    by by_compute.
  split; [exact Hq|].
  exact (stage3_expansion_is_stage2_expansion (H:=luad_low_scores)
           (three_stage_engine ["LUAD"; "XYZ"]) "LUAD" Hq).
Defined.

Lemma resolver_later_row_wins_witness :
  @read_abbr_csv luad_twice
  = Some ([("LUAD", "Lung Adeno")] ++ [("LUAD ", "Lung Adenocarcinoma")]) ∧
  "LUAD" ∈ ["LUAD"; "XYZ"] ∧
  PyStr.strip "LUAD" = PyStr.strip "LUAD " ∧
  _map_shortname_to_fullname (H:=luad_twice) ["LUAD"; "XYZ"] !! "LUAD"
  = Some (PyStr.strip "Lung Adenocarcinoma").
Proof.
  assert ("LUAD" ∈ ["LUAD"; "XYZ"]) as Hq by by_compute.
  split_and!; [reflexivity|exact Hq|reflexivity|].
  exact (resolver_later_row_wins (H:=luad_twice)
           [("LUAD", "Lung Adeno")] "LUAD " "Lung Adenocarcinoma"
           ["LUAD"; "XYZ"] "LUAD" eq_refl Hq eq_refl).
Defined.

Lemma normalize_df_guarantees_witness :
  ∃ df', _normalize_df (H:=low_scores) obo_corpus_df true = Ok df' ∧
         "official_label" ∈ columns df' ∧
         "clean_code" ∈ columns df' ∧
         (length (rows df') ≤ length (rows obo_corpus_df))%nat.
Proof.
  assert (∃ df', _normalize_df (H:=low_scores) obo_corpus_df true = Ok df')
    as [df' Hnorm] by (eexists; vm_compute; reflexivity).
  exists df'. split; [exact Hnorm|].
  destruct (normalize_df_guarantees (H:=low_scores) obo_corpus_df df' true
              Hnorm) as (Hlabel & Hcode & _ & _ & _ & Hlen).
  split_and!; [exact Hlabel|exact (Hcode eq_refl)|exact Hlen].
Defined.

Lemma normalize_df_rows_from_input_witness :
  ∃ df', _normalize_df (H:=low_scores) obo_corpus_df true = Ok df' ∧
         ∃ (g : row → row) (kept : list row),
           kept `sublist_of` rows obo_corpus_df ∧
           rows df' = g <$> kept.
Proof.
  assert (∃ df', _normalize_df (H:=low_scores) obo_corpus_df true = Ok df')
    as [df' Hnorm] by (eexists; vm_compute; reflexivity).
  exists df'. split; [exact Hnorm|].
  destruct (normalize_df_rows_from_input (H:=low_scores) obo_corpus_df df'
              true Hnorm) as (g & kept & Hsub & Hrows & _).
  exists g, kept. split; [exact Hsub|exact Hrows].
Defined.

(** Every cell of [repeated_labels_df] in a label or code column is text
    or null. *)
Lemma repeated_labels_df_text (r : row) (c : string) :
  r ∈ rows repeated_labels_df →
  c ∈ ["official_label"; "label"; "clean_code"] →
  text_or_null (r !! c).
Proof.
  unfold repeated_labels_df. cbn [rows].
  rewrite !elem_of_cons, !elem_of_nil.
  intros [Hr|[Hr|[Hr|[]]]] [Hc|[Hc|[Hc|[]]]]; subst r c;
    vm_compute; first [left; reflexivity | right; eexists; reflexivity].
Qed.

Lemma normalize_df_keys_distinct_on_text_witness :
  (∀ r c, r ∈ rows repeated_labels_df →
          c ∈ ["official_label"; "label"; "clean_code"] →
          text_or_null (r !! c)) ∧
  ∃ df', _normalize_df (H:=low_scores) repeated_labels_df false = Ok df' ∧
         length (rows df') = 2%nat ∧
         NoDup (key_cells false <$> rows df').
Proof.
  split; [exact repeated_labels_df_text|].
  assert (∃ df', _normalize_df (H:=low_scores) repeated_labels_df false
                 = Ok df' ∧ length (rows df') = 2%nat)
    as (df' & Hnorm & Hlen) by (eexists; vm_compute; split; reflexivity).
  exists df'. split_and!; [exact Hnorm|exact Hlen|].
  exact (normalize_df_keys_distinct_on_text (H:=low_scores)
           repeated_labels_df df' false repeated_labels_df_text Hnorm).
Defined.

Lemma normalize_df_stable_on_text_witness :
  (∀ r c, r ∈ rows repeated_labels_df →
          c ∈ ["official_label"; "label"; "clean_code"] →
          text_or_null (r !! c)) ∧
  ∃ df', _normalize_df (H:=low_scores) repeated_labels_df false = Ok df' ∧
         _normalize_df (H:=low_scores) df' false = Ok df'.
Proof.
  split; [exact repeated_labels_df_text|].
  assert (∃ df', _normalize_df (H:=low_scores) repeated_labels_df false
                 = Ok df')
    as [df' Hnorm] by (eexists; vm_compute; reflexivity).
  exists df'. split; [exact Hnorm|].
  exact (proj1 (normalize_df_stable_on_text (H:=low_scores)
                  repeated_labels_df df' false repeated_labels_df_text
                  Hnorm)).
Defined.

Lemma init_corpus_deduplicated_witness :
  __init__ (H:=low_scores) "sap-bert" "disease" scenario_queries
    ["Lung Cancer"; "Breast Cancer"; "Lung Cancer"]
    [("Lung Cancer", "Lung Carcinoma")] 2 "lm" None 0.9
    (Some "test") None None
  = Ok (two_stage_engine scenario_queries) ∧
  NoDup (corpus (two_stage_engine scenario_queries)) ∧
  corpus (two_stage_engine scenario_queries)
    `sublist_of` ["Lung Cancer"; "Breast Cancer"; "Lung Cancer"] ∧
  ∃ k1 k2, corpus (two_stage_engine scenario_queries)
           = k1 ++ "Breast Cancer" :: k2 ∧
           ∀ x, x ∈ k1 ↔ x ∈ ["Lung Cancer"].
Proof.
  assert (__init__ (H:=low_scores) "sap-bert" "disease" scenario_queries
            ["Lung Cancer"; "Breast Cancer"; "Lung Cancer"]
            [("Lung Cancer", "Lung Carcinoma")] 2 "lm" None 0.9
            (Some "test") None None
          = Ok (two_stage_engine scenario_queries)) as Hinit
    by (vm_compute; reflexivity).
  assert ("Breast Cancer" ∉ ["Lung Cancer"]) as Hfirst by by_compute.
  split; [exact Hinit|].
  destruct (init_corpus_deduplicated (H:=low_scores) _ _ _ _ _ _ _ _ _ _ _ _
              Hinit) as (Hnd & Hsub & _ & Hplace & _).
  split_and!; [exact Hnd|exact Hsub|].
  exact (Hplace ["Lung Cancer"] "Breast Cancer" ["Lung Cancer"] eq_refl
           Hfirst).
Defined.

Lemma init_corpus_from_reference_table_witness :
  __init__ (H:=low_scores) "sap-bert" "disease" scenario_queries
    ["Lung Cancer"; "Breast Cancer"; "Lung Cancer"]
    [("Lung Cancer", "Lung Carcinoma")] 2 "lm" (Some "rag") 0.9
    (Some "test") None (Some clean_corpus_df)
  = Ok (three_stage_engine scenario_queries) ∧
  NoDup (corpus (three_stage_engine scenario_queries)) ∧
  __init__ (H:=low_scores) "sap-bert" "disease" scenario_queries
    ["Glioma"]
    [("Lung Cancer", "Lung Carcinoma")] 2 "lm" (Some "rag") 0.9
    (Some "test") None (Some clean_corpus_df)
  = Ok (three_stage_engine scenario_queries).
Proof.
  assert (__init__ (H:=low_scores) "sap-bert" "disease" scenario_queries
            ["Lung Cancer"; "Breast Cancer"; "Lung Cancer"]
            [("Lung Cancer", "Lung Carcinoma")] 2 "lm" (Some "rag") 0.9
            (Some "test") None (Some clean_corpus_df)
          = Ok (three_stage_engine scenario_queries)) as Hinit
    by (vm_compute; reflexivity).
  split; [exact Hinit|].
  destruct (init_corpus_from_reference_table (H:=low_scores)
              _ _ _ _ _ _ _ _ _ _ _ _ _ Hinit) as (_ & Hnd & Hany).
  split; [exact Hnd|exact (Hany ["Glioma"])].
Defined.

Lemma constructed_engine_matchers_witness :
  __init__ (H:=low_scores) "sap-bert" "disease" scenario_queries
    ["Lung Cancer"; "Breast Cancer"; "Lung Cancer"]
    [("Lung Cancer", "Lung Carcinoma")] 2 "lm" (Some "rag") 0.9
    (Some "test") None (Some clean_corpus_df)
  = Ok (three_stage_engine scenario_queries) ∧
  (length (run_traced (H:=low_scores)
             (three_stage_engine scenario_queries)).1 ≤ 2)%nat ∧
  ∀ m, m ∈ (run_traced (H:=low_scores)
              (three_stage_engine scenario_queries)).1 →
       om_corpus m = ["Lung Cancer"; "Breast Cancer"] ∧ om_topk m = 2%nat.
Proof.
  assert (__init__ (H:=low_scores) "sap-bert" "disease" scenario_queries
            ["Lung Cancer"; "Breast Cancer"; "Lung Cancer"]
            [("Lung Cancer", "Lung Carcinoma")] 2 "lm" (Some "rag") 0.9
            (Some "test") None (Some clean_corpus_df)
          = Ok (three_stage_engine scenario_queries)) as Hinit
    by (vm_compute; reflexivity).
  split; [exact Hinit|].
  destruct (constructed_engine_matchers (H:=low_scores)
              _ _ _ _ _ _ _ _ _ _ _ _ _ Hinit) as (Hlen & Hall & _).
  split; [exact Hlen|exact Hall].
Defined.

Lemma run_all_exact_witness :
  (∀ q, q ∈ query (two_stage_engine exact_queries) →
        ∃ c, c ∈ corpus (two_stage_engine exact_queries) ∧
             PyStr.lower (PyStr.strip q) = PyStr.lower (PyStr.strip c)) ∧
  run_traced (H:=low_scores) (two_stage_engine exact_queries)
  = ([], exact_df (two_stage_engine exact_queries)) ∧
  original_values (run (H:=low_scores) (two_stage_engine exact_queries))
  = [Some (Str "Lung Cancer"); Some (Str "lung cancer ");
     Some (Str " BREAST CANCER")].
Proof.
  assert (∀ q, q ∈ query (two_stage_engine exact_queries) →
               ∃ c, c ∈ corpus (two_stage_engine exact_queries) ∧
                    PyStr.lower (PyStr.strip q)
                    = PyStr.lower (PyStr.strip c)) as Hall.
  { intros q.
    change (q ∈ ["Lung Cancer"; "lung cancer "; " BREAST CANCER"] →
            ∃ c, c ∈ ["Lung Cancer"; "Breast Cancer"] ∧
                 PyStr.lower (PyStr.strip q) = PyStr.lower (PyStr.strip c)).
    rewrite !elem_of_cons, elem_of_nil.
    intros [Hq|[Hq|[Hq|[]]]]; subst q.
    - exists "Lung Cancer". split; [by_compute|reflexivity].
    - exists "Lung Cancer". split; [by_compute|reflexivity].
    - exists "Breast Cancer". split; [by_compute|reflexivity]. }
  split; [exact Hall|].
  exact (run_all_exact (H:=low_scores) (two_stage_engine exact_queries)
           Hall).
Defined.

Lemma run_without_stage3_ignores_threshold_witness :
  s3_strategy (two_stage_engine scenario_queries) = None ∧
  run_traced (H:=low_scores)
    (with_threshold 0.1 (two_stage_engine scenario_queries))
  = run_traced (H:=low_scores) (two_stage_engine scenario_queries).
Proof.
  split; [reflexivity|].
  exact (run_without_stage3_ignores_threshold (H:=low_scores)
           (two_stage_engine scenario_queries) 0.1 eq_refl).
Defined.

Lemma escalation_monotone_witness :
  Qle 0.5 0.9 ∧
  "XYZ" ∈ queries_for_s3 (H:=low_scores)
            (with_threshold 0.5 (three_stage_engine scenario_queries)) ∧
  "XYZ" ∈ queries_for_s3 (H:=low_scores)
            (with_threshold 0.9 (three_stage_engine scenario_queries)).
Proof.
  assert (Qle 0.5 0.9) as Hle by (vm_compute; discriminate).
  assert ("XYZ" ∈ queries_for_s3 (H:=low_scores)
                    (with_threshold 0.5
                       (three_stage_engine scenario_queries))) as Hq
    by by_compute.
  split_and!; [exact Hle|exact Hq|].
  exact (escalation_monotone (H:=low_scores)
           (three_stage_engine scenario_queries) 0.5 0.9 "XYZ" Hle Hq).
Defined.

Lemma curated_label_from_original_query_witness :
  xyz_best_row
    ∈ rows (run (H:=high_scores) (three_stage_engine scenario_queries)) ∧
  ∃ q, xyz_best_row !! "original_value" = Some (Str q) ∧
       ((xyz_best_row !! "stage" = Some (Int 1) ∧
         xyz_best_row !! "curated_ontology"
         = Some (Str (default q
                        (dict_get
                           (cura_map (three_stage_engine scenario_queries))
                           q))))
        ∨ ((xyz_best_row !! "stage" = Some (Int 2)
            ∨ xyz_best_row !! "stage" = Some (Int 3)) ∧
           xyz_best_row !! "curated_ontology"
           = Some (Str (default "Not Found"
                          (dict_get
                             (cura_map (three_stage_engine scenario_queries))
                             q))))).
Proof.
  assert (xyz_best_row
            ∈ rows (run (H:=high_scores)
                      (three_stage_engine scenario_queries))) as Hr
    by by_compute.
  split; [exact Hr|].
  exact (curated_label_from_original_query (H:=high_scores)
           (three_stage_engine scenario_queries) xyz_best_row Hr).
Defined.

Lemma updated_value_is_expansion_witness :
  luad_row
    ∈ rows (stage_res (H:=luad_expanded)
              (two_stage_engine ["LUAD"; "Lung Cancer"]) 2 LM ["LUAD"]) ∧
  ∃ q, q ∈ ["LUAD"] ∧
       luad_row !! "original_value" = Some (Str q) ∧
       luad_row !! "updated_value"
       = Some (Str (default (PyStr.strip q)
                      (short_to_name (H:=luad_expanded) !! PyStr.strip q))).
Proof.
  assert (luad_row
            ∈ rows (stage_res (H:=luad_expanded)
                      (two_stage_engine ["LUAD"; "Lung Cancer"]) 2 LM
                      ["LUAD"])) as Hr
    by by_compute.
  split; [exact Hr|].
  exact (updated_value_is_expansion (H:=luad_expanded)
           (two_stage_engine ["LUAD"; "Lung Cancer"]) 2 LM ["LUAD"]
           luad_row Hr).
Defined.

Lemma dropped_query_escalated_witness :
  s3_strategy (three_stage_engine scenario_queries) = Some RAG ∧
  "top1_score"
    ∈ columns (s2_res (H:=silent_on_xyz)
                 (three_stage_engine scenario_queries)) ∧
  Qlt 0 (s3_threshold (three_stage_engine scenario_queries)) ∧
  "XYZ" ∈ non_exact_matches_ls (three_stage_engine scenario_queries) ∧
  rows_keyed
    (_map_shortname_to_fullname (H:=silent_on_xyz)
       (non_exact_matches_ls (three_stage_engine scenario_queries))
     !!! "XYZ")
    (s2_match_results (H:=silent_on_xyz)
       (three_stage_engine scenario_queries)) = [] ∧
  ∃ r, r ∈ rows (run (H:=silent_on_xyz)
                   (three_stage_engine scenario_queries)) ∧
       r !! "original_value" = Some (Str "XYZ") ∧
       r !! "stage" = Some (Int 3).
Proof.
  assert ("top1_score"
            ∈ columns (s2_res (H:=silent_on_xyz)
                         (three_stage_engine scenario_queries))) as Hcol
    by by_compute.
  assert (Qlt 0 (s3_threshold (three_stage_engine scenario_queries)))
    as Hpos by (vm_compute; reflexivity).
  assert ("XYZ" ∈ non_exact_matches_ls (three_stage_engine scenario_queries))
    as Hq by by_compute.
  assert (rows_keyed
            (_map_shortname_to_fullname (H:=silent_on_xyz)
               (non_exact_matches_ls (three_stage_engine scenario_queries))
             !!! "XYZ")
            (s2_match_results (H:=silent_on_xyz)
               (three_stage_engine scenario_queries)) = []) as Hnone
    by (vm_compute; reflexivity).
  split_and!; [reflexivity|exact Hcol|exact Hpos|exact Hq|exact Hnone|].
  destruct (dropped_query_escalated (H:=silent_on_xyz)
              (three_stage_engine scenario_queries) RAG "XYZ"
              eq_refl Hcol Hpos Hq Hnone) as [(r & Hr & Hov) Hstage].
  exists r. split_and!; [exact Hr|exact Hov|exact (Hstage r Hr Hov)].
Defined.

Lemma backend_cells_unchanged_witness :
  ∃ r, r ∈ rows (s2_res (H:=silent_on_xyz)
                   (three_stage_engine ["Lung Cancer"; "Glioma"; "XYZ"])) ∧
       r !! "original_value" = Some (Str "Glioma") ∧
       r !! "top1_score" = Some (Float 0.95).
Proof.
  assert ("Glioma" ∈ non_exact_matches_ls
                       (three_stage_engine ["Lung Cancer"; "Glioma"; "XYZ"]))
    as Hq by by_compute.
  assert (("Glioma", <[ "top1_match" := Str "Lung Adenocarcinoma" ]>
                       {[ "top1_score" := Float 0.95 ]})
            ∈ rows_keyed
                (_map_shortname_to_fullname (H:=silent_on_xyz)
                   (non_exact_matches_ls
                      (three_stage_engine ["Lung Cancer"; "Glioma"; "XYZ"]))
                 !!! "Glioma")
                (s2_match_results (H:=silent_on_xyz)
                   (three_stage_engine ["Lung Cancer"; "Glioma"; "XYZ"])))
    as Hbr by by_compute.
  assert ("top1_score" ∉ stage_columns) as Hcol by by_compute.
  destruct (proj1 (proj2 (proj2 (backend_cells_unchanged (H:=silent_on_xyz)
                                   (three_stage_engine
                                      ["Lung Cancer"; "Glioma"; "XYZ"]))))
              "Glioma" _ Hq Hbr) as (r & Hr & Hov & Hcells).
  exists r. split_and!; [exact Hr|exact Hov|].
  rewrite (Hcells "top1_score" Hcol). reflexivity.
Defined.

Lemma row_count_witness :
  keys_distinct
    (s2_match_results (H:=high_scores) (two_stage_engine scenario_queries)) ∧
  length (rows (run (H:=high_scores) (two_stage_engine scenario_queries)))
  = 3%nat ∧
  (length (rows (run (H:=high_scores) (two_stage_engine scenario_queries)))
   ≤ 4)%nat.
Proof.
  assert (keys_distinct
            (s2_match_results (H:=high_scores)
               (two_stage_engine scenario_queries))) as Hk2
    by (unfold keys_distinct; by_compute).
  split; [exact Hk2|].
  apply (row_count (H:=high_scores) (two_stage_engine scenario_queries)).
  - exact Hk2.
  - intros s3 Hs3. discriminate Hs3.
Defined.
